(** * DataForge Studio: the transformation compiler and the validation engine

    A shallow embedding of [backend/app/services/compiler.py] and
    [backend/app/services/executor.py], with the properties their
    specification states about them, followed by the answer parser of
    [backend/app/services/llm/base.py], the row check of
    [backend/app/api/llm.py] and the project store of
    [backend/app/services/project_manager.py], with properties of their
    own.

    Python strings are modelled as [string] (one [ascii] per code point
    below 256), dictionaries as [gmap], [None]-able values as [option],
    a raised exception as [None] (compiler) or as the left summand of a sum
    carrying [str(exc)] (executor). *)

From Stdlib Require Import ZArith Lia Bool Ascii String.
From stdpp Require Import base option gmap strings list fin_maps pretty sorting.

Open Scope string_scope.

(* ===================================================================== *)
(** ** The string operations of Python that the compiler relies on *)
(* ===================================================================== *)

Module PyStr.

(** [bool(s)] of a string: the empty string is falsy. *)
Definition truthy (s : string) : bool :=
  match s with
  | EmptyString => false
  | String _ _ => true
  end.

(** [s.startswith(p)]. *)
Definition startswith (s p : string) : bool := String.prefix p s.

(** [s[n:]]. *)
Fixpoint drop (n : nat) (s : string) : string :=
  match n, s with
  | O, _ => s
  | S k, EmptyString => EmptyString
  | S k, String _ r => drop k r
  end.

(** [c.isspace()] for a code point below 256. *)
Definition isspace (c : ascii) : bool :=
  let n := nat_of_ascii c in
  ((9 <=? n)%nat && (n <=? 13)%nat) || ((28 <=? n)%nat && (n <=? 32)%nat)
  || (n =? 133)%nat || (n =? 160)%nat.

(** [s.lstrip()]. *)
Fixpoint lstrip (s : string) : string :=
  match s with
  | EmptyString => EmptyString
  | String c r => if isspace c then lstrip r else s
  end.

(** [s.replace(old, new)] for a non-empty [old]: the occurrences are
    found from the left and do not overlap.  [skip] counts the characters
    of a match that are still to be consumed. *)
Fixpoint replace_from (old new : string) (skip : nat) (s : string) : string :=
  match s with
  | EmptyString => EmptyString
  | String c r =>
      match skip with
      | S k => replace_from old new k r
      | O =>
          if String.prefix old s
          then new +:+ replace_from old new (String.length old - 1) r
          else String c (replace_from old new 0 r)
      end
  end.

Definition replace (s old new : string) : string := replace_from old new 0 s.

Definition lbrace : ascii := "{"%char.
Definition rbrace : ascii := "}"%char.

(** Characters that start an attribute, an index, a conversion or a format
    specification inside a replacement field.  Such fields are outside the
    fragment of the format mini-language modelled here. *)
Definition compound_field_char (c : ascii) : bool :=
  Ascii.eqb c "."%char || Ascii.eqb c "["%char
  || Ascii.eqb c "!"%char || Ascii.eqb c ":"%char.

(** Where the scanner of a format string stands: in literal text, just
    after an opening or a closing brace met in literal text, or inside a
    replacement field whose name read so far is [name]. *)
Inductive Mode :=
| Text
| Opened
| Closed
| Field (name : string).

(** [tmpl.format(k1=v1, ...)], with keyword arguments only.  A doubled
    brace is a literal brace; a field is replaced by the value of the
    keyword of that name.  [None] stands for the exception Python raises
    (a single closing brace, an unterminated field, a brace inside a
    field, a name that is no keyword: [ValueError], [KeyError],
    [IndexError]) and for the compound fields left out of the model. *)
Fixpoint format_from (kw : gmap string string) (s : string) (mode : Mode)
    : option string :=
  match s with
  | EmptyString =>
      match mode with
      | Text => Some EmptyString
      | _ => None
      end
  | String c r =>
      let in_field (name : string) :=
        if Ascii.eqb c rbrace then
          match kw !! name with
          | Some v => String.append v <$> format_from kw r Text
          | None => None
          end
        else if Ascii.eqb c lbrace || compound_field_char c then None
        else format_from kw r (Field (name +:+ String c EmptyString)) in
      match mode with
      | Text =>
          if Ascii.eqb c lbrace then format_from kw r Opened
          else if Ascii.eqb c rbrace then format_from kw r Closed
          else String c <$> format_from kw r Text
      | Opened =>
          if Ascii.eqb c lbrace then String lbrace <$> format_from kw r Text
          else in_field EmptyString
      | Closed =>
          if Ascii.eqb c rbrace then String rbrace <$> format_from kw r Text
          else None
      | Field name => in_field name
      end
  end.

Definition format (tmpl : string) (kw : gmap string string) : option string :=
  format_from kw tmpl Text.

(** Whether a replacement field named [x] occurs in the template, read by
    the same scanner. *)
Fixpoint mentions_from (x : string) (s : string) (mode : Mode) : bool :=
  match s with
  | EmptyString => false
  | String c r =>
      let in_field (name : string) :=
        if Ascii.eqb c rbrace then String.eqb name x || mentions_from x r Text
        else if Ascii.eqb c lbrace || compound_field_char c then false
        else mentions_from x r (Field (name +:+ String c EmptyString)) in
      match mode with
      | Text =>
          if Ascii.eqb c lbrace then mentions_from x r Opened
          else if Ascii.eqb c rbrace then mentions_from x r Closed
          else mentions_from x r Text
      | Opened =>
          if Ascii.eqb c lbrace then mentions_from x r Text
          else in_field EmptyString
      | Closed =>
          if Ascii.eqb c rbrace then mentions_from x r Text else false
      | Field name => in_field name
      end
  end.

Definition mentions (x tmpl : string) : bool := mentions_from x tmpl Text.

(** A string with no brace in it: literal text of a template. *)
Fixpoint brace_free (s : string) : bool :=
  match s with
  | EmptyString => true
  | String c r =>
      negb (Ascii.eqb c lbrace) && negb (Ascii.eqb c rbrace) && brace_free r
  end.

(** [x] occurs in [s]. *)
Definition occurs_in (x s : string) : Prop :=
  exists a b : string, s = a +:+ x +:+ b.

End PyStr.

(* ===================================================================== *)
(** ** The column model *)
(* ===================================================================== *)

(** Modelled from the spec: the column model of [app/models/spec.py], a
    module the compiler and the executor import and that is not among the
    sources.  The records carry the fields the two services read, typed as
    the data model of the specification gives them; an enumeration that the
    code compares with string literals stays a string. *)
Record RegexTransform := {
  regex_enabled : bool;
  regex_pattern : string;
  regex_replacement : string;
}.

Record WhereFilter := {
  where_enabled : bool;
  where_condition : string;
}.

Record ConditionalCase := {
  case_when : string;
  case_then : string;
}.

Record Conditional := {
  conditional_enabled : bool;
  conditional_cases : list ConditionalCase;
  conditional_else_value : string;
}.

Record DelimiterSplit := {
  split_enabled : bool;
  split_delimiter : string;
  split_index : Z;
}.

Record ColumnTransformations := {
  trim : bool;
  strip_special_chars : bool;
  regex : RegexTransform;
  case_normalization : string;
  type_cast : string;
  null_strategy : string;
  null_replacement : string;
  where_filter : WhereFilter;
  conditional : Conditional;
  delimiter_split : DelimiterSplit;
  custom_expression : option string;
}.

Record Column := {
  name : string;
  data_type : string;
  nullable : bool;
  transformations : ColumnTransformations;
  notes : string;
}.

(** The all-default transformations, and a column built on them. *)
Definition default_transformations : ColumnTransformations := {|
  trim := false;
  strip_special_chars := false;
  regex := {| regex_enabled := false; regex_pattern := ""; regex_replacement := "" |};
  case_normalization := "none";
  type_cast := "";
  null_strategy := "none";
  null_replacement := "";
  where_filter := {| where_enabled := false; where_condition := "" |};
  conditional :=
    {| conditional_enabled := false; conditional_cases := [];
       conditional_else_value := "" |};
  delimiter_split :=
    {| split_enabled := false; split_delimiter := ""; split_index := 0 |};
  custom_expression := None;
|}.

Definition plain_column (n : string) (null : bool) : Column := {|
  name := n; data_type := "string"; nullable := null;
  transformations := default_transformations; notes := "";
|}.

(* ===================================================================== *)
(** ** compiler.py: the column expression compiler *)
(* ===================================================================== *)

Module Compiler.

(** Literal string used in templates to signal unsupported operations. *)
Definition _WARNING_PREFIX : string := "__WARNING__:".

(** The column pattern that appears in every PySpark template. *)
Definition _PYSPARK_COL_PATTERN : string := "F.col('{col}')".

(** Modelled from the spec: [TRANSFORM_ORDER] of [app/services/templates.py],
    a module that is not among the sources.  The step names are the ones
    [compile_column] compares each element with; their order is the fixed
    order of section 4.1 of the specification. *)
Definition TRANSFORM_ORDER : list string :=
  [ "trim"; "strip_special"; "regex"; "case_normalization"; "type_cast";
    "null_strategy"; "where_filter"; "conditional"; "delimiter_split" ].

(** The dictionary [compile_column] returns. *)
Record CompiledColumn := mkCompiledColumn {
  column_name : string;
  expression : string;
  alias : string;
  warnings : list string;
  target : string;
  dialect : string;
}.

(** The variables the closure [_apply] shares with [compile_column]. *)
Record CompileState := {
  expr : string;
  pyspark_applied : bool;
  warnings_so_far : list string;
}.

(** [bool(t.custom_expression)]: [None] and the empty string are falsy. *)
Definition custom_expression_set (t : ColumnTransformations) : bool :=
  match custom_expression t with
  | Some s => PyStr.truthy s
  | None => false
  end.

(** [" ".join(...)]. *)
Fixpoint join (sep : string) (l : list string) : string :=
  match l with
  | [] => ""
  | [x] => x
  | x :: rest => x +:+ sep +:+ join sep rest
  end.

(** The clause list of the conditional step. *)
Definition cases_str (cases : list ConditionalCase) : string :=
  join " "
    (map (fun c => "WHEN " +:+ case_when c +:+ " THEN '" +:+ case_then c +:+ "'")
       cases).

(** The body of the loop over [TRANSFORM_ORDER], as the call of [_apply]
    it comes to: [Some (template_key, extra)] when the branch of [step] is
    taken and its guard holds, [None] when the iteration does nothing. *)
Definition step_call (t : ColumnTransformations) (step : string)
    : option (string * gmap string string) :=
  if String.eqb step "trim" then
    if trim t then Some ("trim", ∅) else None
  else if String.eqb step "strip_special" then
    if strip_special_chars t then Some ("strip_special", ∅) else None
  else if String.eqb step "regex" then
    if regex_enabled (regex t) then
      Some ("regex_replace",
            <["pattern" := regex_pattern (regex t)]>
              {["repl" := regex_replacement (regex t)]})
    else None
  else if String.eqb step "case_normalization" then
    if negb (String.eqb (case_normalization t) "none") then
      Some ("case_" +:+ case_normalization t, ∅)
    else None
  else if String.eqb step "type_cast" then
    if PyStr.truthy (type_cast t) then
      Some ("cast_" +:+ type_cast t,
            <["type" := type_cast t]> {["format" := "YYYY-MM-DD"]})
    else None
  else if String.eqb step "null_strategy" then
    if String.eqb (null_strategy t) "replace" then
      Some ("null_replace", {["replacement" := null_replacement t]})
    else if String.eqb (null_strategy t) "drop" then Some ("null_drop", ∅)
    else if String.eqb (null_strategy t) "flag" then Some ("null_flag", ∅)
    else None
  else if String.eqb step "where_filter" then
    if where_enabled (where_filter t) then
      Some ("where_filter", {["condition" := where_condition (where_filter t)]})
    else None
  else if String.eqb step "conditional" then
    match conditional_enabled (conditional t), conditional_cases (conditional t) with
    | true, _ :: _ =>
        Some ("conditional_case",
              <["cases" := cases_str (conditional_cases (conditional t))]>
                {["else_value" := conditional_else_value (conditional t)]})
    | _, _ => None
    end
  else if String.eqb step "delimiter_split" then
    if split_enabled (delimiter_split t) then
      Some ("delimiter_split",
            <["delimiter" := split_delimiter (delimiter_split t)]>
              {["index" := pretty (split_index (delimiter_split t))]})
    else None
  else None.

(** The message of a warning marker: [tmpl[len(_WARNING_PREFIX):].lstrip()]. *)
Definition warning_message (tmpl : string) : string :=
  PyStr.lstrip (PyStr.drop (String.length _WARNING_PREFIX) tmpl).

(** The three outcomes of the template lookup in [_apply]: an absent or
    empty template, a warning marker, a real pattern. *)
Definition is_warning (tmpl : string) : bool :=
  PyStr.truthy tmpl && PyStr.startswith tmpl _WARNING_PREFIX.

Definition real_pattern (tmpl : string) : bool :=
  PyStr.truthy tmpl && negb (PyStr.startswith tmpl _WARNING_PREFIX).

(** Whether no step of the column is active: every guard of the loop
    body fails. *)
Definition no_active_step (t : ColumnTransformations) : bool :=
  negb (trim t)
  && negb (strip_special_chars t)
  && negb (regex_enabled (regex t))
  && String.eqb (case_normalization t) "none"
  && negb (PyStr.truthy (type_cast t))
  && negb (String.eqb (null_strategy t) "replace"
           || String.eqb (null_strategy t) "drop"
           || String.eqb (null_strategy t) "flag")
  && negb (where_enabled (where_filter t))
  && negb (conditional_enabled (conditional t)
           && match conditional_cases (conditional t) with
              | [] => false
              | _ :: _ => true
              end)
  && negb (split_enabled (delimiter_split t)).

Section WithTemplates.

(** [TEMPLATES] of [app/services/templates.py], which is not among the
    sources: a dictionary from template key to a dictionary from dialect
    to template.  It is a parameter of everything that follows. *)
Variable TEMPLATES : gmap string (gmap string string).

(** [TEMPLATES.get(template_key, {}).get(tgt_dialect, "")]. *)
Definition lookup_template (template_key tgt_dialect : string) : string :=
  default "" (default ∅ (TEMPLATES !! template_key) !! tgt_dialect).

Section Column.

Variable column : Column.
Variable target dialect : string.

Definition tgt_dialect : string :=
  if String.eqb target "pyspark" then "pyspark" else dialect.

(** The closure [_apply], with the variables it updates passed in and
    out as a [CompileState]. *)
Definition _apply (template_key : string) (extra : gmap string string)
    (st : CompileState) : option CompileState :=
  let tmpl := lookup_template template_key tgt_dialect in
  if negb (PyStr.truthy tmpl) then Some st
  else if PyStr.startswith tmpl _WARNING_PREFIX then
    Some {| expr := expr st;
            pyspark_applied := pyspark_applied st;
            warnings_so_far := warnings_so_far st ++ [warning_message tmpl] |}
  else if String.eqb target "pyspark" then
    if negb (pyspark_applied st) then
      filled ← PyStr.format tmpl (<["col" := name column]> extra);
      Some {| expr := filled; pyspark_applied := true;
              warnings_so_far := warnings_so_far st |}
    else
      let chain := PyStr.replace tmpl _PYSPARK_COL_PATTERN "{col}" in
      filled ← PyStr.format chain (<["col" := expr st]> extra);
      Some {| expr := filled; pyspark_applied := pyspark_applied st;
              warnings_so_far := warnings_so_far st |}
  else
    filled ← PyStr.format tmpl (<["col" := expr st]> extra);
    Some {| expr := filled; pyspark_applied := pyspark_applied st;
            warnings_so_far := warnings_so_far st |}.

(** One iteration of the loop over [TRANSFORM_ORDER]: the step makes
    its call of [_apply], or does nothing. *)
Definition run_step (step : string) (st : CompileState) : option CompileState :=
  match step_call (transformations column) step with
  | Some (template_key, extra) => _apply template_key extra st
  | None => Some st
  end.

(** The warnings one iteration contributes: the message of the
    template of its call when that template is a warning marker. *)
Definition step_warnings (step : string) : list string :=
  match step_call (transformations column) step with
  | Some (template_key, _) =>
      let tmpl := lookup_template template_key tgt_dialect in
      if is_warning tmpl then [warning_message tmpl] else []
  | None => []
  end.

(** The loop [for step in ...], over any list of step names. *)
Fixpoint run_steps (order : list string) (st : CompileState) : option CompileState :=
  match order with
  | [] => Some st
  | step :: rest => st' ← run_step step st; run_steps rest st'
  end.

(** The initial expression: the raw column reference. *)
Definition initial_expr : string :=
  if String.eqb target "pyspark"
  then "F.col('" +:+ name column +:+ "')"
  else name column.

Definition initial_state : CompileState :=
  {| expr := initial_expr; pyspark_applied := false; warnings_so_far := [] |}.

(** [TransformCompiler.compile_column]; [None] when a template cannot
    be filled and [str.format] raises. *)
Definition compile_column : option CompiledColumn :=
  let t := transformations column in
  if custom_expression_set t then
    Some (mkCompiledColumn
            (name column) (default "" (custom_expression t)) (name column)
            [] target dialect)
  else
    st ← run_steps TRANSFORM_ORDER initial_state;
    Some (mkCompiledColumn
            (name column) (expr st) (name column)
            (warnings_so_far st) target dialect).

End Column.
End WithTemplates.

(** A small template table in the shape of the missing one, used to run
    the compiler on concrete columns. *)
Definition sample_templates : gmap string (gmap string string) :=
  <["trim" := <["ansi" := "TRIM({col})"]>
              (<["tsql" := "LTRIM(RTRIM({col}))"]>
               {["pyspark" := "F.trim(F.col('{col}'))"]})]>
  (<["case_upper" := <["ansi" := "UPPER({col})"]>
                     (<["tsql" := "UPPER({col})"]>
                      {["pyspark" := "F.upper(F.col('{col}'))"]})]>
  (<["regex_replace" :=
       <["ansi" := "REGEXP_REPLACE({col}, '{pattern}', '{repl}')"]>
       {["tsql" := "__WARNING__: regex replace is not supported in T-SQL"]}]>
  (<["where_filter" := {["ansi" := "CASE WHEN {condition} THEN {col} END"]}]>
  (<["conditional_case" := {["ansi" := "CASE {cases} ELSE '{else_value}' END"]}]>
   {["cast_integer" := {["ansi" := "CAST({col} AS INTEGER)"]}]})))).

End Compiler.

(* ===================================================================== *)
(** ** executor.py: execution and validation *)
(* ===================================================================== *)

Module Executor.

(** The values a row holds; [VNone] is Python's [None]. *)
Inductive Value :=
| VNone
| VInt (z : Z)
| VStr (s : string)
| VBool (b : bool).

(** A row is a dictionary from column name to value. *)
Abbreviation Row := (gmap string Value).

(** *** The embedded engine

    DuckDB and pandas are outside the repository.  An [Engine] fixes how
    they answer: each call either raises, with the text [str(exc)] of the
    exception, or succeeds.  A query is run against the relations
    registered on the connection. *)
Record QueryOutput := {
  out_description : list string;
  out_fetchall : string + list (list Value);
}.

Record Engine := {
  engine_connect : option string;
  engine_register : string -> list Row -> option string;
  engine_execute : gmap string (list Row) -> string -> string + QueryOutput;
  engine_close : option string;
}.

(** What a call does to its connection, in order. *)
Inductive Event :=
| Connect
| Register (table_name : string)
| Execute (query : string)
| Fetchall
| Close.

(** The state of one call: the relations registered on its connection
    and the calls made on it so far. *)
Record Session := {
  relations : gmap string (list Row);
  events : list Event;
}.

Definition fresh_session : Session := {| relations := ∅; events := [] |}.

(** Computations that log events on the session and may raise. *)
Definition M (A : Type) : Type := Session -> (string + A) * Session.

Global Instance M_ret : MRet M := fun A x s => (inr x, s).

Global Instance M_bind : MBind M := fun A B f m s =>
  match m s with
  | (inl exc, s') => (inl exc, s')
  | (inr x, s') => f x s'
  end.

Definition log (e : Event) : M unit :=
  fun s => (inr tt, {| relations := relations s; events := events s ++ [e] |}).

Definition raise_if {A} (outcome : string + A) : M A :=
  fun s => (outcome, s).

Definition add_relation (table_name : string) (data : list Row) : M unit :=
  fun s => (inr tt, {| relations := <[table_name := data]> (relations s);
                       events := events s |}).

Definition with_relations {A}
    (f : gmap string (list Row) -> string + A) : M A :=
  fun s => (f (relations s), s).

Definition outcome_of (failure : option string) : string + unit :=
  match failure with
  | Some exc => inl exc
  | None => inr tt
  end.

Section WithEngine.

Variable engine : Engine.

(** [duckdb.connect(":memory:")]. *)
Definition duckdb_connect : M unit :=
  _ ← log Connect; raise_if (outcome_of (engine_connect engine)).

(** [conn.register(table_name, pd.DataFrame(data))]. *)
Definition conn_register (table_name : string) (data : list Row) : M unit :=
  _ ← log (Register table_name);
  _ ← raise_if (outcome_of (engine_register engine table_name data));
  add_relation table_name data.

(** [conn.execute(query)]. *)
Definition conn_execute (query : string) : M QueryOutput :=
  _ ← log (Execute query);
  with_relations (fun rels => engine_execute engine rels query).

(** [conn.fetchall()]. *)
Definition conn_fetchall (out : QueryOutput) : M (list (list Value)) :=
  _ ← log Fetchall; raise_if (out_fetchall out).

(** [conn.close()]. *)
Definition conn_close : M unit :=
  _ ← log Close; raise_if (outcome_of (engine_close engine)).

End WithEngine.

(** The dictionary [execute_sql] returns. *)
Record ExecResult := {
  success : bool;
  rows : list Row;
  columns : list string;
  row_count : Z;
  error : string;
}.

(** [dict(zip(columns, row))]: pairs are inserted from the left, so a
    later pair with the same key replaces an earlier one. *)
Definition dict_zip (columns : list string) (row : list Value) : Row :=
  foldl (fun d kv => <[fst kv := snd kv]> d) ∅ (zip columns row).

(** The body of the [try] block of [execute_sql]. *)
Definition execute_sql_try (engine : Engine) (query : string) (data : list Row)
    (table_name : string) : M ExecResult :=
  _ ← duckdb_connect engine;
  _ ← match data with
      | [] => mret tt
      | _ :: _ => conn_register engine table_name data
      end;
  out ← conn_execute engine query;
  let columns := out_description out in
  rows_raw ← conn_fetchall out;
  let rows := map (dict_zip columns) rows_raw in
  _ ← conn_close engine;
  mret {| success := true; rows := rows; columns := columns;
          row_count := Z.of_nat (length rows); error := "" |}.

(** The dictionary of the [except] branch. *)
Definition failure_result (exc : string) : ExecResult :=
  {| success := false; rows := []; columns := []; row_count := 0; error := exc |}.

(** [DuckDBExecutor.execute_sql] on a connection of its own, with the
    events of the call. *)
Definition execute_sql_session (engine : Engine) (query : string)
    (data : list Row) (table_name : string) : ExecResult * list Event :=
  match execute_sql_try engine query data table_name fresh_session with
  | (inr result, s) => (result, events s)
  | (inl exc, s) => (failure_result exc, events s)
  end.

Definition execute_sql (engine : Engine) (query : string) (data : list Row)
    (table_name : string) : ExecResult :=
  fst (execute_sql_session engine query data table_name).

Definition execute_sql_events (engine : Engine) (query : string)
    (data : list Row) (table_name : string) : list Event :=
  snd (execute_sql_session engine query data table_name).

(** *** Assertions *)

(** An assertion dictionary, by its ["type"] entry.  [OtherAssertion]
    stands for a dictionary of any other type. *)
Inductive Assertion :=
| RowCountGte (min : Z) (description : string)
| NotNull (column : string) (description : string)
| TypeCheck (column : string) (expected_type : string) (description : string)
| NoError (column : string) (description : string)
| OtherAssertion (atype : string) (description : string).

Definition assertion_type (a : Assertion) : string :=
  match a with
  | RowCountGte _ _ => "row_count_gte"
  | NotNull _ _ => "not_null"
  | TypeCheck _ _ _ => "type_check"
  | NoError _ _ => "no_error"
  | OtherAssertion atype _ => atype
  end.

Record AssertionResult := {
  a_type : string;
  a_description : string;
  a_passed : bool;
  a_detail : string;
}.

(** [DuckDBExecutor.generate_assertions]. *)
Definition generate_assertions (column : Column) : list Assertion :=
  let t := transformations column in
  [RowCountGte 1 "output has at least 1 row"]
  ++ (if negb (nullable column)
      then [NotNull (name column) (name column +:+ " has no nulls")]
      else [])
  ++ (if PyStr.truthy (type_cast t)
      then [TypeCheck (name column) (type_cast t)
              (name column +:+ " cast to " +:+ type_cast t)]
      else [])
  ++ (if regex_enabled (regex t)
      then [NoError (name column) "regex applied without errors"]
      else []).

(** [r.get(col) is None]. *)
Definition is_none (v : option Value) : bool :=
  match v with
  | None | Some VNone => true
  | Some _ => false
  end.

(** [sum(1 for x in l if f x)]. *)
Fixpoint count_where {A} (f : A -> bool) (l : list A) : nat :=
  match l with
  | [] => 0
  | x :: rest => (if f x then 1 else 0) + count_where f rest
  end.

(** [DuckDBExecutor.run_assertion]. *)
Definition run_assertion (assertion : Assertion) (rows : list Row) : AssertionResult :=
  match assertion with
  | RowCountGte min description =>
      let passed := (min <=? Z.of_nat (length rows))%Z in
      {| a_type := "row_count_gte"; a_description := description;
         a_passed := passed;
         a_detail :=
           if passed then ""
           else "Expected >= " +:+ pretty min +:+ " rows, got "
                +:+ pretty (Z.of_nat (length rows)) |}
  | NotNull col description =>
      let null_count := count_where (fun r : Row => is_none (r !! col)) rows in
      let passed := (null_count =? 0)%nat in
      {| a_type := "not_null"; a_description := description;
         a_passed := passed;
         a_detail :=
           if passed then ""
           else pretty (Z.of_nat null_count) +:+ " null(s) found in '" +:+ col +:+ "'" |}
  | TypeCheck _ _ description =>
      {| a_type := "type_check"; a_description := description;
         a_passed := true; a_detail := "" |}
  | NoError _ description =>
      {| a_type := "no_error"; a_description := description;
         a_passed := true; a_detail := "" |}
  | OtherAssertion atype description =>
      {| a_type := atype; a_description := description;
         a_passed := false;
         a_detail := "Unknown assertion type: " +:+ atype |}
  end.

(** *** Validation *)

(** The part of a table spec [validate_table] reads, its column
    dictionaries already validated into [Column]s. *)
Record TableSpec := {
  table_name : string;
  table_columns : list Column;
}.

Record ColumnReport := {
  col_passed : bool;
  col_assertions : list AssertionResult;
}.

Record ExecutionInfo := {
  exec_success : bool;
  exec_row_count : Z;
  exec_error : string;
}.

Record Report := {
  passed : bool;
  total_assertions : Z;
  passed_count : Z;
  failed_count : Z;
  execution : ExecutionInfo;
  columns_report : gmap string ColumnReport;
}.

(** The assertions of one column, run. *)
Definition column_results (rows : list Row) (col : Column) : list AssertionResult :=
  map (fun a => run_assertion a rows) (generate_assertions col).

(** The loop over the columns of the table, with the two accumulators
    [all_results] and [columns_report] it updates. *)
Fixpoint validate_columns (rows : list Row) (cols : list Column)
    (all_results : list AssertionResult)
    (report : gmap string ColumnReport)
    : list AssertionResult * gmap string ColumnReport :=
  match cols with
  | [] => (all_results, report)
  | col :: rest =>
      let col_results := column_results rows col in
      validate_columns rows rest (all_results ++ col_results)
        (<[name col := {| col_passed := forallb a_passed col_results;
                          col_assertions := col_results |}]> report)
  end.

(** The report built from the result of the execution step. *)
Definition report_of (exec_result : ExecResult) (table_spec : TableSpec) : Report :=
  let '(all_results, report) :=
    validate_columns (rows exec_result) (table_columns table_spec) [] ∅ in
  let total := Z.of_nat (length all_results) in
  let passed_count := Z.of_nat (count_where a_passed all_results) in
  {| passed := (passed_count =? total)%Z && (0 <? total)%Z;
     total_assertions := total;
     passed_count := passed_count;
     failed_count := total - passed_count;
     execution := {| exec_success := success exec_result;
                     exec_row_count := row_count exec_result;
                     exec_error := error exec_result |};
     columns_report := report |}.

(** [DuckDBExecutor.validate_table]. *)
Definition validate_table (engine : Engine) (table_spec : TableSpec)
    (compiled_sql : string) (synthetic_data : list Row) : Report :=
  let exec_result :=
    execute_sql engine compiled_sql synthetic_data (table_name table_spec) in
  report_of exec_result table_spec.

(** The assertions [validate_table] derives for a table, column by column. *)
Definition table_assertions (table_spec : TableSpec) : list Assertion :=
  flat_map generate_assertions (table_columns table_spec).

(** The results [validate_table] accumulates in [all_results]. *)
Definition table_results (engine : Engine) (table_spec : TableSpec)
    (compiled_sql : string) (synthetic_data : list Row) : list AssertionResult :=
  fst (validate_columns
         (rows (execute_sql engine compiled_sql synthetic_data (table_name table_spec)))
         (table_columns table_spec) [] ∅).

(** *** A toy engine, to run the executor on concrete inputs

    It answers the queries [SELECT id FROM <relation>] and raises on
    everything else, as the real engine does on an unknown relation or on
    text it cannot parse. *)
Definition select_id : string := "SELECT id FROM ".

Definition toy_execute (rels : gmap string (list Row)) (query : string)
    : string + QueryOutput :=
  if String.prefix select_id query then
    let rel := PyStr.drop (String.length select_id) query in
    match rels !! rel with
    | Some data =>
        inr {| out_description := ["id"];
               out_fetchall :=
                 inr (map (fun r : Row => [default VNone (r !! "id")]) data) |}
    | None =>
        inl ("Catalog Error: Table with name " +:+ rel +:+ " does not exist!")
    end
  else inl "Parser Error: syntax error".

Definition toy_engine : Engine := {|
  engine_connect := None;
  engine_register := fun _ _ => None;
  engine_execute := toy_execute;
  engine_close := None;
|}.

(** The relations a call has registered when it runs its query: none for
    an empty row list, the one table otherwise. *)
Definition registered (table_name : string) (data : list Row)
    : gmap string (list Row) :=
  match data with
  | [] => ∅
  | _ :: _ => {[ table_name := data ]}
  end.

(** The events of the registration stage. *)
Definition register_events (table_name : string) (data : list Row) : list Event :=
  match data with
  | [] => []
  | _ :: _ => [Register table_name]
  end.

(** The engine raises at no stage of the call. *)
Definition stages_succeed (engine : Engine) (query : string)
    (data : list Row) (table_name : string) : Prop :=
  engine_connect engine = None
  /\ (data <> [] -> engine_register engine table_name data = None)
  /\ exists (out : QueryOutput) (rows_raw : list (list Value)),
       engine_execute engine (registered table_name data) query = inr out
       /\ out_fetchall out = inr rows_raw
       /\ engine_close engine = None.

(** The text of every exception the engine raises is non-empty. *)
Definition messages_nonempty (engine : Engine) : Prop :=
  engine_connect engine <> Some ""
  /\ (forall table_name data, engine_register engine table_name data <> Some "")
  /\ (forall rels query, engine_execute engine rels query <> inl "")
  /\ (forall rels query out,
        engine_execute engine rels query = inr out -> out_fetchall out <> inl "")
  /\ engine_close engine <> Some "".

(** How many assertions of a list have a given type. *)
Definition count_type (type : string) (l : list Assertion) : nat :=
  count_where (fun a => String.eqb (assertion_type a) type) l.

(** Sample rows and tables. *)
Definition id_row (v : Value) : Row := {[ "id" := v ]}.

Definition three_rows : list Row := [id_row (VInt 1); id_row VNone; id_row (VInt 3)].

Definition two_column_table : TableSpec := {|
  table_name := "test_table";
  table_columns := [plain_column "id" false; plain_column "name" true];
|}.

(** A table of one nullable column without cast or regex. *)
Definition nullable_table : TableSpec := {|
  table_name := "test_table";
  table_columns := [plain_column "name" true];
|}.

End Executor.
(** The column with its conditional step switched off. *)
Definition disable_conditional (c : Column) : Column :=
  let t := transformations c in
  {| name := name c; data_type := data_type c; nullable := nullable c;
     transformations :=
       {| trim := trim t;
          strip_special_chars := strip_special_chars t;
          regex := regex t;
          case_normalization := case_normalization t;
          type_cast := type_cast t;
          null_strategy := null_strategy t;
          null_replacement := null_replacement t;
          where_filter := where_filter t;
          conditional :=
            {| conditional_enabled := false;
               conditional_cases := conditional_cases (conditional t);
               conditional_else_value := conditional_else_value (conditional t) |};
          delimiter_split := delimiter_split t;
          custom_expression := custom_expression t |};
     notes := notes c |}.

Definition with_transformations (n : string) (t : ColumnTransformations) : Column :=
  {| name := n; data_type := "string"; nullable := true;
     transformations := t; notes := "" |}.

(** The column of the bypass test: trim is on and a custom expression is set. *)
Definition custom_with_trim : ColumnTransformations := {|
  trim := true;
  strip_special_chars := false;
  regex := regex default_transformations;
  case_normalization := "none";
  type_cast := "";
  null_strategy := "none";
  null_replacement := "";
  where_filter := where_filter default_transformations;
  conditional := conditional default_transformations;
  delimiter_split := delimiter_split default_transformations;
  custom_expression := Some "MY_CUSTOM_FUNC(col)";
|}.

(** A regex replacement, and nothing else. *)
Definition regex_only : ColumnTransformations := {|
  trim := false;
  strip_special_chars := false;
  regex := {| regex_enabled := true; regex_pattern := "[0-9]+";
              regex_replacement := "X" |};
  case_normalization := "none";
  type_cast := "";
  null_strategy := "none";
  null_replacement := "";
  where_filter := where_filter default_transformations;
  conditional := conditional default_transformations;
  delimiter_split := delimiter_split default_transformations;
  custom_expression := None;
|}.

(** A where filter that is enabled and whose condition is empty. *)
Definition empty_where_filter : ColumnTransformations := {|
  trim := false;
  strip_special_chars := false;
  regex := regex default_transformations;
  case_normalization := "none";
  type_cast := "";
  null_strategy := "none";
  null_replacement := "";
  where_filter := {| where_enabled := true; where_condition := "" |};
  conditional := conditional default_transformations;
  delimiter_split := delimiter_split default_transformations;
  custom_expression := None;
|}.

(** Only the regex step is on, with the given pattern and replacement. *)
Definition regex_with (pattern replacement : string) : ColumnTransformations := {|
  trim := false;
  strip_special_chars := false;
  regex := {| regex_enabled := true; regex_pattern := pattern;
              regex_replacement := replacement |};
  case_normalization := "none";
  type_cast := "";
  null_strategy := "none";
  null_replacement := "";
  where_filter := where_filter default_transformations;
  conditional := conditional default_transformations;
  delimiter_split := delimiter_split default_transformations;
  custom_expression := None;
|}.

(** A conditional that is enabled and has no case, after a trim. *)
Definition conditional_without_cases : ColumnTransformations := {|
  trim := true;
  strip_special_chars := false;
  regex := regex default_transformations;
  case_normalization := "none";
  type_cast := "";
  null_strategy := "none";
  null_replacement := "";
  where_filter := where_filter default_transformations;
  conditional :=
    {| conditional_enabled := true; conditional_cases := [];
       conditional_else_value := "other" |};
  delimiter_split := delimiter_split default_transformations;
  custom_expression := None;
|}.

(** Special characters stripped and a regex replacement, nothing else. *)
Definition strip_and_regex : ColumnTransformations := {|
  trim := false;
  strip_special_chars := true;
  regex := {| regex_enabled := true; regex_pattern := "[0-9]+";
              regex_replacement := "X" |};
  case_normalization := "none";
  type_cast := "";
  null_strategy := "none";
  null_replacement := "";
  where_filter := where_filter default_transformations;
  conditional := conditional default_transformations;
  delimiter_split := delimiter_split default_transformations;
  custom_expression := None;
|}.

(** The column with its custom expression removed. *)
Definition without_custom_expression (c : Column) : Column :=
  let t := transformations c in
  {| name := name c; data_type := data_type c; nullable := nullable c;
     transformations :=
       {| trim := trim t;
          strip_special_chars := strip_special_chars t;
          regex := regex t;
          case_normalization := case_normalization t;
          type_cast := type_cast t;
          null_strategy := null_strategy t;
          null_replacement := null_replacement t;
          where_filter := where_filter t;
          conditional := conditional t;
          delimiter_split := delimiter_split t;
          custom_expression := None |};
     notes := notes c |}.

(** A custom expression that is the empty string, on a trimmed column. *)
Definition empty_custom_with_trim : ColumnTransformations := {|
  trim := true;
  strip_special_chars := false;
  regex := regex default_transformations;
  case_normalization := "none";
  type_cast := "";
  null_strategy := "none";
  null_replacement := "";
  where_filter := where_filter default_transformations;
  conditional := conditional default_transformations;
  delimiter_split := delimiter_split default_transformations;
  custom_expression := Some "";
|}.

(** A template table with a slip: the trim template names a placeholder
    that no step supplies. *)
Definition misspelt_templates : gmap string (gmap string string) :=
  {[ "trim" := {[ "ansi" := "TRIM({column})" ]} ]}.

(** The column of the stacking test: trim, a regex replacement, upper case. *)
Definition trim_regex_upper : ColumnTransformations := {|
  trim := true;
  strip_special_chars := false;
  regex := {| regex_enabled := true; regex_pattern := "[0-9]+";
              regex_replacement := "X" |};
  case_normalization := "upper";
  type_cast := "";
  null_strategy := "none";
  null_replacement := "";
  where_filter := where_filter default_transformations;
  conditional := conditional default_transformations;
  delimiter_split := delimiter_split default_transformations;
  custom_expression := None;
|}.

Definition trim_upper : ColumnTransformations := {|
  trim := true;
  strip_special_chars := false;
  regex := regex default_transformations;
  case_normalization := "upper";
  type_cast := "";
  null_strategy := "none";
  null_replacement := "";
  where_filter := where_filter default_transformations;
  conditional := conditional default_transformations;
  delimiter_split := delimiter_split default_transformations;
  custom_expression := None;
|}.


(* ===================================================================== *)
(** ** compiler.py: the table assemblers *)
(* ===================================================================== *)

Module Assemblers.

(** The line feed and the double quote of the string literals. *)
Definition nl : string := String "010"%char "".
Definition dquote : string := String "034"%char "".

(** The part of a table spec the assemblers read: [table_spec["table"]],
    the column dictionaries already validated into [Column]s, and
    [table_spec.get("notes", {})]. *)
Record TableSpec := {
  table_name : string;
  table_layer : string;
  table_columns : list Column;
  table_notes : gmap string string;
}.

(** The dictionaries the three assemblers return. *)
Record SqlArtifact := {
  sql : string;
  sql_dialect : string;
  sql_warnings : list string;
  sql_columns : list Compiler.CompiledColumn;
}.

Record PysparkArtifact := {
  code : string;
  pyspark_warnings : list string;
  pyspark_columns : list Compiler.CompiledColumn;
}.

Record DbtArtifact := {
  model_sql : string;
  schema_yml : string;
  dbt_warnings : list string;
}.

(** [[w for r in col_results for w in r["warnings"]]]. *)
Definition all_warnings (col_results : list Compiler.CompiledColumn) : list string :=
  flat_map Compiler.warnings col_results.

(** One entry of the select list: [f"{r['expression']} AS {r['alias']}"]. *)
Definition select_entry (r : Compiler.CompiledColumn) : string :=
  Compiler.expression r +:+ " AS " +:+ Compiler.alias r.

(** One chained call: [f".withColumn('{r['alias']}', {r['expression']})"]. *)
Definition with_column (r : Compiler.CompiledColumn) : string :=
  ".withColumn('" +:+ Compiler.alias r +:+ "', " +:+ Compiler.expression r +:+ ")".

(** The qualified source of the SQL assembler; the catalog is left out
    when it is empty. *)
Definition source_of (catalog layer table_name : string) : string :=
  if PyStr.truthy catalog
  then catalog +:+ "." +:+ layer +:+ "." +:+ table_name
  else layer +:+ "." +:+ table_name.

(** The lines [_build_schema_yml] appends for one column. *)
Definition schema_column_lines (notes : gmap string string) (col : Column)
    : list string :=
  let note := default "" (notes !! name col) in
  ["      - name: " +:+ name col]
  ++ (if PyStr.truthy note
      then ["        description: " +:+ dquote +:+ note +:+ dquote]
      else [])
  ++ (if negb (nullable col)
      then ["        tests:"; "          - not_null"]
      else []).

(** The lines of the schema document by which its entries are counted:
    a test entry, the line that opens the tests of a column, and the
    starts of a description and of a column entry. *)
Definition not_null_line : string := "          - not_null".
Definition tests_line : string := "        tests:".
Definition description_prefix : string := "        description: ".
Definition name_prefix : string := "      - name: ".

(** The list [lines] of [_build_schema_yml] when the loop is over. *)
Definition schema_lines (table_name : string) (columns : list Column)
    (notes : gmap string string) : list string :=
  [ "version: 2"; ""; "models:"; "  - name: " +:+ table_name; "    columns:" ]
  ++ flat_map (schema_column_lines notes) columns.

(** The lines of a text, as [text.split("\n")] gives them, and the texts
    without a line feed. *)
Fixpoint split_lines (s : string) : list string :=
  match s with
  | EmptyString => [""]
  | String c r =>
      if Ascii.eqb c "010" then "" :: split_lines r
      else match split_lines r with
           | [] => [String c ""]
           | line :: lines => String c line :: lines
           end
  end.

Definition no_line_feed (s : string) : bool :=
  forallb (fun c => negb (Ascii.eqb c "010")) (list_ascii_of_string s).

(** [TransformCompiler._build_schema_yml]. *)
Definition _build_schema_yml (table_name : string) (columns : list Column)
    (notes : gmap string string) : string :=
  Compiler.join nl (schema_lines table_name columns notes) +:+ nl.

Section WithTemplates.

Variable TEMPLATES : gmap string (gmap string string).

(** [[self.compile_column(Column.model_validate(c), target, dialect) for c
    in table_spec["columns"]]]; [None] when one of the calls raises. *)
Definition compile_columns (target dialect : string) (columns : list Column)
    : option (list Compiler.CompiledColumn) :=
  mapM (fun c => Compiler.compile_column TEMPLATES c target dialect) columns.

(** [TransformCompiler.compile_table_sql]. *)
Definition compile_table_sql (table_spec : TableSpec) (dialect : string)
    (project_config : gmap string string) : option SqlArtifact :=
  let catalog := default "" (project_config !! "catalog") in
  let source := source_of catalog (table_layer table_spec) (table_name table_spec) in
  col_results ← compile_columns "sql" dialect (table_columns table_spec);
  let select_lines :=
    Compiler.join ("," +:+ nl +:+ "        ") (map select_entry col_results) in
  Some {| sql :=
            "WITH cleaned AS (" +:+ nl
            +:+ "    SELECT" +:+ nl
            +:+ "        " +:+ select_lines +:+ nl
            +:+ "    FROM " +:+ source +:+ nl
            +:+ ")" +:+ nl
            +:+ "SELECT * FROM cleaned";
          sql_dialect := dialect;
          sql_warnings := all_warnings col_results;
          sql_columns := col_results |}.

(** [textwrap.dedent], of the standard library of Python. *)
Variable dedent : string -> string.

(** [TransformCompiler.compile_table_pyspark]. *)
Definition compile_table_pyspark (table_spec : TableSpec)
    (project_config : gmap string string) : option PysparkArtifact :=
  col_results ← compile_columns "pyspark" "pyspark" (table_columns table_spec);
  let with_cols :=
    Compiler.join (nl +:+ "            ") (map with_column col_results) in
  Some {| code :=
            dedent
              ("            from pyspark.sql import DataFrame" +:+ nl
               +:+ "            from pyspark.sql import functions as F" +:+ nl
               +:+ nl
               +:+ nl
               +:+ "            def clean_" +:+ table_name table_spec +:+ "(" +:+ nl
               +:+ "                df: DataFrame," +:+ nl
               +:+ "            ) -> DataFrame:" +:+ nl
               +:+ "                return (" +:+ nl
               +:+ "                    df" +:+ nl
               +:+ "                    " +:+ with_cols +:+ nl
               +:+ "                )" +:+ nl
               +:+ "        ");
          pyspark_warnings := all_warnings col_results;
          pyspark_columns := col_results |}.

(** [TransformCompiler.compile_table_dbt]. *)
Definition compile_table_dbt (table_spec : TableSpec) (dialect : string)
    (project_config : gmap string string) : option DbtArtifact :=
  col_results ← compile_columns "sql" dialect (table_columns table_spec);
  let select_lines :=
    Compiler.join ("," +:+ nl +:+ "    ") (map select_entry col_results) in
  Some {| model_sql :=
            "WITH source AS (" +:+ nl
            +:+ "    SELECT * FROM {{ source('" +:+ table_layer table_spec
            +:+ "', '" +:+ table_name table_spec +:+ "') }}" +:+ nl
            +:+ ")," +:+ nl
            +:+ "cleaned AS (" +:+ nl
            +:+ "    SELECT" +:+ nl
            +:+ "    " +:+ select_lines +:+ nl
            +:+ "    FROM source" +:+ nl
            +:+ ")" +:+ nl
            +:+ "SELECT * FROM cleaned";
          schema_yml :=
            _build_schema_yml (table_name table_spec) (table_columns table_spec)
              (table_notes table_spec);
          dbt_warnings := all_warnings col_results |}.

End WithTemplates.

(** A column without custom expression and without active step. *)
Definition inert (c : Column) : Prop :=
  Compiler.custom_expression_set (transformations c) = false
  /\ Compiler.no_active_step (transformations c) = true.

(** The three columns of the structure tests, and a table of them. *)
Definition three_columns : list Column :=
  [plain_column "id" false; plain_column "name" true; plain_column "email" true].

Definition customers : TableSpec := {|
  table_name := "customers";
  table_layer := "bronze";
  table_columns := three_columns;
  table_notes := {[ "id" := "Primary key" ]};
|}.

(** A table whose phone column has a regex replacement. *)
Definition contacts : TableSpec := {|
  table_name := "contacts";
  table_layer := "bronze";
  table_columns :=
    [plain_column "id" false;
     {| name := "phone"; data_type := "string"; nullable := true;
        transformations := regex_only; notes := "" |}];
  table_notes := ∅;
|}.

End Assemblers.

(* ===================================================================== *)
(** ** executor.py: what the validation stores for a column *)
(* ===================================================================== *)

Module Validation.
Import Executor.

(** The entry [validate_table] stores under the name of a column. *)
Definition column_report_of (rows : list Row) (col : Column) : ColumnReport :=
  {| col_passed := forallb a_passed (column_results rows col);
     col_assertions := column_results rows col |}.

(** The calls a successful [execute_sql] makes on its connection. *)
Definition full_session (query : string) (data : list Row) (table_name : string)
    : list Event :=
  Connect :: register_events table_name data ++ [Execute query; Fetchall; Close].

(** Two columns of the same name: the first must not hold nulls, the
    second may. *)
Definition same_name_table : TableSpec := {|
  table_name := "test_table";
  table_columns := [plain_column "id" false; plain_column "id" true];
|}.

End Validation.

(* ===================================================================== *)
(** ** llm/base.py: reading the rows out of a model's answer *)
(* ===================================================================== *)

Module LlmBase.

(** A decoded JSON document: a list, a dictionary with its items in
    order, a string, or another atom by its text. *)
#[warnings="-register-all"] Inductive Json :=
| JAtom (text : string)
| JString (s : string)
| JList (items : list Json)
| JDict (entries : list (string * Json)).

Definition is_dict (j : Json) : bool :=
  match j with
  | JDict _ => true
  | _ => false
  end.

(** [isinstance(result, list) and all(isinstance(r, dict) for r in result)]. *)
Definition is_list_of_dicts (j : Json) : bool :=
  match j with
  | JList items => forallb is_dict items
  | _ => false
  end.

(** [s.rstrip()] and [s.strip()]. *)
Definition rstrip (s : string) : string :=
  String.rev (PyStr.lstrip (String.rev s)).

Definition strip (s : string) : string := rstrip (PyStr.lstrip s).

(** [s.find(c)] and [s.rfind(c)] for a character [c]; [None] is the
    result -1. *)
Fixpoint find (c : ascii) (s : string) : option nat :=
  match s with
  | EmptyString => None
  | String x r => if Ascii.eqb x c then Some 0 else S <$> find c r
  end.

Fixpoint rfind (c : ascii) (s : string) : option nat :=
  match s with
  | EmptyString => None
  | String x r =>
      match rfind c r with
      | Some i => Some (S i)
      | None => if Ascii.eqb x c then Some 0 else None
      end
  end.

Definition lbracket : ascii := "["%char.
Definition rbracket : ascii := "]"%char.

(** The match of [re.search(r"\[.*?\]", raw, re.DOTALL)].  The search
    takes the leftmost position where a match starts, and the lazy
    quantifier the shortest match there: the text from the first opening
    bracket to the first closing bracket after it.  When no closing bracket
    follows the first opening one, none follows a later one either, and
    there is no match. *)
Definition first_block (raw : string) : option string :=
  first ← find lbracket raw;
  close ← find rbracket (PyStr.drop (S first) raw);
  Some (String.substring first (close + 2)%nat raw).

(** The text of the third try: [raw[first : last + 1]] when
    [first != -1 and last != -1 and last > first]. *)
Definition bracket_span (raw : string) : option string :=
  first ← find lbracket raw;
  last ← rfind rbracket raw;
  if (first <? last)%nat
  then Some (String.substring first (last + 1 - first)%nat raw)
  else None.

(** The texts the three tries hand to the JSON decoder, in order. *)
Definition candidates (raw : string) : list string :=
  [strip raw] ++ option_list (first_block raw) ++ option_list (bracket_span raw).

Section WithDecoder.

(** [json.loads], of the standard library of Python; [None] when it raises
    [JSONDecodeError] or [ValueError], the exceptions the tries catch. *)
Variable json_loads : string -> option Json.

(** One try: decode the text and keep the result if it is a list of
    dictionaries. *)
Definition accept (text : string) : option Json :=
  match json_loads text with
  | Some result => if is_list_of_dicts result then Some result else None
  | None => None
  end.

(** [PromptBuilderMixin.parse_json_response]; [inl] carries the message of
    the [ValueError] it raises. *)
Definition parse_json_response (raw : string) : string + Json :=
  match accept (strip raw) with
  | Some result => inr result
  | None =>
      match first_block raw ≫= accept with
      | Some result => inr result
      | None =>
          match bracket_span raw ≫= accept with
          | Some result => inr result
          | None =>
              inl ("LLM returned invalid JSON: " +:+ String.substring 0 200 raw)
          end
      end
  end.

End WithDecoder.

(** A toy decoder that knows two array texts, to run the parser. *)
Definition toy_loads (text : string) : option Json :=
  if String.eqb text "[{}]" then Some (JList [JDict []])
  else if String.eqb text "[1]" then Some (JList [JAtom "1"])
  else None.

End LlmBase.

(* ===================================================================== *)
(** ** The directory of projects *)
(* ===================================================================== *)

(** The file system is outside the repository.  [Fs] fixes how the calls
    the project manager makes on it behave, for one process on a
    case-sensitive file system: a state maps the paths below the projects
    directory to a directory or to a file with its text.  In the states the
    operations build, every entry lies in a directory; the operations look
    no further than that. *)
Module Fs.

(** A path below the projects directory: its components, innermost
    first, so that the parent is the tail and [p / name] is [name :: p].
    The empty list is the projects directory, which
    [ProjectManager.__init__] has created. *)
Abbreviation Path := (list string).

Definition child (p : Path) (name : string) : Path := name :: p.

(** The names for which [p / name] is one component below [p]: not empty,
    not [.] or [..], without a separator or a NUL. *)
Definition plain_name (name : string) : bool :=
  negb (String.eqb name "") && negb (String.eqb name ".")
  && negb (String.eqb name "..")
  && forallb (fun c => negb (Ascii.eqb c "/") && negb (Ascii.eqb c "000"))
             (list_ascii_of_string name).

Definition plain_path (p : Path) : bool := forallb plain_name p.

Inductive Node :=
| Dir
| File (text : string).

Abbreviation FileSystem := (gmap Path Node).

Inductive Errno := ENOENT | EEXIST | ENOTDIR | EISDIR.

(** The exceptions that matter here: the two the code raises itself, those
    of the operating system by their errno ([FileNotFoundError] is
    [ENOENT]), and the others by their text. *)
Inductive Error :=
| ValueError (msg : string)
| FileNotFoundError (msg : string)
| OSError (errno : Errno) (path : Path)
| OtherError (msg : string).

(** Computations on the file system that may raise; what was written
    before an exception stays written. *)
Definition IO (A : Type) : Type := FileSystem -> (Error + A) * FileSystem.

Global Instance IO_ret : MRet IO := fun A x fs => (inr x, fs).

Global Instance IO_bind : MBind IO := fun A B f m fs =>
  match m fs with
  | (inl exc, fs') => (inl exc, fs')
  | (inr x, fs') => f x fs'
  end.

Definition raise {A} (exc : Error) : IO A := fun fs => (inl exc, fs).

Definition lift {A} (outcome : Error + A) : IO A := fun fs => (outcome, fs).

Definition node_at (fs : FileSystem) (p : Path) : option Node :=
  match p with
  | [] => Some Dir
  | _ :: _ => fs !! p
  end.

Definition is_dir (fs : FileSystem) (p : Path) : bool :=
  match node_at fs p with
  | Some Dir => true
  | _ => false
  end.

(** Every entry lies in a directory. *)
Definition well_formed (fs : FileSystem) : Prop :=
  forall (name : string) (p : Path),
    is_Some (fs !! child p name) -> is_dir fs p = true.

(** [Path.exists()]. *)
Definition path_exists (p : Path) : IO bool := fun fs =>
  (inr (match node_at fs p with Some _ => true | None => false end), fs).

(** The errno of reaching for a missing path: [ENOTDIR] below a file. *)
Fixpoint missing_errno (fs : FileSystem) (p : Path) : Errno :=
  match p with
  | [] => ENOENT
  | _ :: parent =>
      match node_at fs parent with
      | Some (File _) => ENOTDIR
      | Some Dir => ENOENT
      | None => missing_errno fs parent
      end
  end.

(** [os.mkdir(p)]. *)
Definition os_mkdir (p : Path) : IO unit := fun fs =>
  match p with
  | [] => (inl (OSError EEXIST p), fs)
  | _ :: parent =>
      match node_at fs parent with
      | Some Dir =>
          match fs !! p with
          | Some _ => (inl (OSError EEXIST p), fs)
          | None => (inr tt, <[p := Dir]> fs)
          end
      | _ => (inl (OSError (missing_errno fs p) p), fs)
      end
  end.

(** [Path.mkdir(parents=False, exist_ok=exist_ok)]: an existing directory
    is accepted only with [exist_ok]. *)
Definition mkdir (exist_ok : bool) (p : Path) : IO unit := fun fs =>
  match os_mkdir p fs with
  | (inl (OSError ENOENT q), fs') => (inl (OSError ENOENT q), fs')
  | (inl exc, fs') =>
      if exist_ok && is_dir fs' p then (inr tt, fs') else (inl exc, fs')
  | (inr _, fs') => (inr tt, fs')
  end.

(** [Path.mkdir(parents=True, exist_ok=exist_ok)]: when the parent is
    missing it is made first, with [exist_ok=True]. *)
Fixpoint mkdir_parents (exist_ok : bool) (p : Path) : IO unit := fun fs =>
  match os_mkdir p fs with
  | (inl (OSError ENOENT q), fs1) =>
      match p with
      | [] => (inl (OSError ENOENT q), fs1)
      | _ :: parent =>
          match mkdir_parents true parent fs1 with
          | (inl exc, fs2) => (inl exc, fs2)
          | (inr _, fs2) => mkdir exist_ok p fs2
          end
      end
  | (inl exc, fs1) =>
      if exist_ok && is_dir fs1 p then (inr tt, fs1) else (inl exc, fs1)
  | (inr _, fs1) => (inr tt, fs1)
  end.

(** [Path.write_text(text)]. *)
Definition write_text (p : Path) (text : string) : IO unit := fun fs =>
  match p with
  | [] => (inl (OSError EISDIR p), fs)
  | _ :: parent =>
      match node_at fs parent with
      | Some Dir =>
          match fs !! p with
          | Some Dir => (inl (OSError EISDIR p), fs)
          | _ => (inr tt, <[p := File text]> fs)
          end
      | _ => (inl (OSError (missing_errno fs p) p), fs)
      end
  end.

(** [Path.read_text()]. *)
Definition read_text (p : Path) : IO string := fun fs =>
  match node_at fs p with
  | Some (File text) => (inr text, fs)
  | Some Dir => (inl (OSError EISDIR p), fs)
  | None => (inl (OSError (missing_errno fs p) p), fs)
  end.

End Fs.

(* ===================================================================== *)
(** ** project_manager.py: projects and tables on disk *)
(* ===================================================================== *)

Module ProjectManager.
Import Fs.
Import LlmBase.

Record CreateProjectRequest := {
  req_name : string;
  req_platform : string;
  req_dialect : string;
  req_catalog : string;
  req_schema_layer : string;
}.

(** The fields [create_project] passes to [ProjectConfig]. *)
Record ProjectConfig := {
  cfg_name : string;
  cfg_platform : string;
  cfg_dialect : string;
  cfg_catalog : string;
  cfg_schema_layer : string;
  cfg_created_at : string;
}.

(** [Literal["bronze", "silver", "gold"]]. *)
Inductive Layer := bronze | silver | gold.

Definition layer_name (layer : Layer) : string :=
  match layer with
  | bronze => "bronze"
  | silver => "silver"
  | gold => "gold"
  end.

Record CreateTableRequest := {
  table_req_name : string;
  table_req_layer : Layer;
  table_req_columns : list Column;
}.

(** The dictionary [create_table] and [get_table_spec] return. *)
Record TableSpecDoc := {
  spec_project : Json;
  spec_table_name : string;
  spec_table_layer : string;
  spec_columns : Json;
  spec_notes : Json;
}.

(** The dictionary [get_synthetic_data] returns. *)
Record SyntheticData := {
  synthetic_data : list Executor.Row;
  synthetic_format : string;
  synthetic_row_count : nat;
}.

Definition _project_path (name : string) : Path := [name +:+ ".tforge"].

Definition _table_path (project_name layer table_name : string) : Path :=
  child (child (_project_path project_name) layer) table_name.

(** [Column(name=col.name, data_type=col.data_type, nullable=col.nullable)]. *)
Definition default_column (col : Column) : Column := {|
  name := name col; data_type := data_type col; nullable := nullable col;
  transformations := default_transformations; notes := "";
|}.

(** [d[key] = value] on a dictionary kept as its items in insertion
    order. *)
Fixpoint dict_set (key : string) (value : Json) (d : list (string * Json))
    : list (string * Json) :=
  match d with
  | [] => [(key, value)]
  | (k, v) :: rest =>
      if String.eqb k key then (k, value) :: rest
      else (k, v) :: dict_set key value rest
  end.

(** [{col.name: "" for col in req.columns}]. *)
Definition empty_notes (columns : list Column) : Json :=
  JDict (foldl (fun d col => dict_set (name col) (JString "") d) [] columns).

Definition _FORMATS : list string := ["csv"; "json"; "ndjson"; "xlsx"; "parquet"].

Definition synthetic_file (table_path : Path) (fmt : string) : Path :=
  child table_path ("synthetic_data." +:+ fmt).

Section WithCodecs.

(** [json.dumps(_, indent=2)] and [json.loads]; a [JSONDecodeError] is a
    [ValueError]. *)
Variable dumps : Json -> string.
Variable loads : string -> Error + Json.

(** [model_dump(mode="json")] of the two models of [app.models.spec],
    which is not among the sources; building a model from the fields of a
    request is taken to succeed. *)
Variable config_dump : ProjectConfig -> Json.
Variable column_dump : Column -> Json.

(** The pandas writers [pd.DataFrame(data).to_csv(out, ...)] and the like,
    by format, and the readers [pd.read_csv(candidate)] and the like
    followed by [to_dict(orient="records")], by format and by what is at
    the path. *)
Variable frame_write : string -> list Executor.Row -> Path -> IO unit.
Variable frame_read : string -> Node -> Error + list Executor.Row.

Definition load_json (p : Path) : IO Json :=
  text ← read_text p; lift (loads text).

(** [ProjectManager.create_project]; [now] is [datetime.now(timezone.utc)]. *)
Definition create_project (now : string) (req : CreateProjectRequest) : IO Json :=
  let project_path := _project_path (req_name req) in
  found ← path_exists project_path;
  if found : bool then
    raise (ValueError ("Project '" +:+ req_name req +:+ "' already exists"))
  else
    _ ← mkdir_parents false project_path;
    _ ← mkdir false (child project_path "bronze");
    _ ← mkdir false (child project_path "silver");
    _ ← mkdir false (child project_path "gold");
    let data := config_dump {|
      cfg_name := req_name req; cfg_platform := req_platform req;
      cfg_dialect := req_dialect req; cfg_catalog := req_catalog req;
      cfg_schema_layer := req_schema_layer req; cfg_created_at := now;
    |} in
    _ ← write_text (child project_path "project.json") (dumps data);
    mret data.

(** [ProjectManager.get_project]. *)
Definition get_project (name : string) : IO Json :=
  let config_file := child (_project_path name) "project.json" in
  found ← path_exists config_file;
  if found : bool then load_json config_file
  else raise (FileNotFoundError ("Project '" +:+ name +:+ "' not found")).

(** [ProjectManager.create_table]. *)
Definition create_table (project_name : string) (req : CreateTableRequest)
    : IO TableSpecDoc :=
  let project_path := _project_path project_name in
  found ← path_exists project_path;
  if found : bool then
    let layer := layer_name (table_req_layer req) in
    let table_path := _table_path project_name layer (table_req_name req) in
    _ ← mkdir_parents true table_path;
    let schema := JList (map column_dump (table_req_columns req)) in
    _ ← write_text (child table_path "schema.json") (dumps schema);
    let default_columns :=
      JList (map (fun col => column_dump (default_column col))
                 (table_req_columns req)) in
    _ ← write_text (child table_path "transformations.json")
                   (dumps default_columns);
    let notes := empty_notes (table_req_columns req) in
    _ ← write_text (child table_path "column_notes.json") (dumps notes);
    project ← get_project project_name;
    mret {| spec_project := project;
            spec_table_name := table_req_name req; spec_table_layer := layer;
            spec_columns := default_columns; spec_notes := notes |}
  else raise (FileNotFoundError ("Project '" +:+ project_name +:+ "' not found")).

(** [ProjectManager.get_table_spec]. *)
Definition get_table_spec (project_name layer table_name : string)
    : IO TableSpecDoc :=
  let table_path := _table_path project_name layer table_name in
  columns ← load_json (child table_path "transformations.json");
  notes ← load_json (child table_path "column_notes.json");
  project ← get_project project_name;
  mret {| spec_project := project;
          spec_table_name := table_name; spec_table_layer := layer;
          spec_columns := columns; spec_notes := notes |}.

(** [ProjectManager.save_transformations] and [save_column_notes]. *)
Definition save_transformations (project_name layer table_name : string)
    (columns : Json) : IO unit :=
  write_text (child (_table_path project_name layer table_name)
                    "transformations.json")
             (dumps columns).

Definition save_column_notes (project_name layer table_name : string)
    (notes : Json) : IO unit :=
  write_text (child (_table_path project_name layer table_name)
                    "column_notes.json")
             (dumps notes).

(** [ProjectManager.save_synthetic_data]. *)
Definition save_synthetic_data (project_name layer table_name : string)
    (data : list Executor.Row) (format : string) : IO unit :=
  if bool_decide (format ∈ _FORMATS) then
    frame_write format data
      (synthetic_file (_table_path project_name layer table_name) format)
  else raise (ValueError ("Unsupported format: " +:+ format)).

(** The loop of [get_synthetic_data] over the formats still to try. *)
Fixpoint read_first_synthetic (table_path : Path) (formats : list string)
    : IO SyntheticData :=
  match formats with
  | [] => raise (FileNotFoundError "No synthetic data found for this table")
  | fmt :: later => fun fs =>
      match node_at fs (synthetic_file table_path fmt) with
      | None => read_first_synthetic table_path later fs
      | Some node =>
          match frame_read fmt node with
          | inl exc => (inl exc, fs)
          | inr data =>
              (inr {| synthetic_data := data; synthetic_format := fmt;
                      synthetic_row_count := length data |}, fs)
          end
      end
  end.

(** [ProjectManager.get_synthetic_data]. *)
Definition get_synthetic_data (project_name layer table_name : string)
    : IO SyntheticData :=
  read_first_synthetic (_table_path project_name layer table_name) _FORMATS.

(** [ProjectManager.save_validation_results] and [get_validation_results]. *)
Definition save_validation_results (project_name layer table_name : string)
    (results : Json) : IO unit :=
  write_text (child (_table_path project_name layer table_name)
                    "validation_results.json")
             (dumps results).

Definition get_validation_results (project_name layer table_name : string)
    : IO Json :=
  let results_file :=
    child (_table_path project_name layer table_name)
          "validation_results.json" in
  found ← path_exists results_file;
  if found : bool then load_json results_file
  else raise (FileNotFoundError "Validation has not been run for this table").

End WithCodecs.

(** *** A sample project

    Codecs that are enough to run the manager on one small table: a column
    is dumped as its name, and the documents of the sample table are told
    apart by their kind. *)
Definition sample_config_dump (config : ProjectConfig) : Json :=
  JString (cfg_name config).

Definition sample_column_dump (col : Column) : Json := JString (name col).

Definition sample_dumps (doc : Json) : string :=
  match doc with
  | JList _ => "columns"
  | JDict _ => "notes"
  | JString s => s
  | JAtom text => text
  end.

Definition sample_loads (text : string) : Error + Json :=
  if String.eqb text "columns" then inr (JList [JString "id"])
  else if String.eqb text "notes" then inr (JDict [("id", JString "")])
  else inr (JString text).

Definition sample_write (fmt : string) (data : list Executor.Row) (out : Path)
    : IO unit :=
  write_text out fmt.

Definition sample_read (fmt : string) (node : Node)
    : Error + list Executor.Row :=
  match node with
  | File _ => inr []
  | Dir => inl (OtherError "is a directory")
  end.

Definition shop_request : CreateProjectRequest := {|
  req_name := "shop"; req_platform := "databricks"; req_dialect := "ansi";
  req_catalog := ""; req_schema_layer := "";
|}.

Definition orders_request : CreateTableRequest := {|
  table_req_name := "orders"; table_req_layer := bronze;
  table_req_columns := [plain_column "id" false];
|}.

(** The sample project after [create_project], and after [create_table]
    on top of it. *)
Definition shop_fs : FileSystem :=
  (create_project sample_dumps sample_config_dump "2024-01-01T00:00:00Z"
     shop_request ∅).2.

Definition orders_fs : FileSystem :=
  (create_table sample_dumps sample_loads sample_column_dump "shop"
     orders_request shop_fs).2.

(** The sample table with synthetic data saved as csv, with synthetic
    data saved as json and then as parquet, and with stored validation
    results. *)
Definition orders_csv_fs : FileSystem :=
  (save_synthetic_data sample_write "shop" "bronze" "orders" [] "csv"
     orders_fs).2.

Definition orders_json_parquet_fs : FileSystem :=
  (save_synthetic_data sample_write "shop" "bronze" "orders" [] "parquet"
     (save_synthetic_data sample_write "shop" "bronze" "orders" [] "json"
        orders_fs).2).2.

Definition validated_fs : FileSystem :=
  (save_validation_results sample_dumps "shop" "bronze" "orders"
     (JString "passed") orders_fs).2.

(** A project directory that has lost its [project.json]. *)
Definition bare_fs : FileSystem :=
  <[child (_project_path "shop") "bronze" := Dir]>
    (<[_project_path "shop" := Dir]> ∅).

End ProjectManager.

(* ===================================================================== *)
(** ** api/llm.py: checking the generated rows *)
(* ===================================================================== *)

Module LlmApi.

Definition string_le (a b : string) : Prop := String.leb a b = true.

Global Instance string_le_dec (a b : string) : Decision (string_le a b).
Proof. unfold string_le. apply _. Defined.

(** [sorted(column_names - row.keys())]: the names of the schema that are
    no key of the row, each once, in ascending order. *)
Definition missing_columns {A} (column_names : list string)
    (row : gmap string A) : list string :=
  merge_sort string_le
    (filter (fun n => row !! n = None) (remove_dups column_names)).

(** [f"Row {i} missing columns: {', '.join(sorted(missing))}"]. *)
Definition missing_warning (i : nat) (missing : list string) : string :=
  "Row " +:+ pretty (Z.of_nat i) +:+ " missing columns: "
  +:+ Compiler.join ", " missing.

(** The loop of [generate_data] over [enumerate(rows)], from row [i] on. *)
Fixpoint row_warnings_from {A} (column_names : list string) (i : nat)
    (rows : list (gmap string A)) : list string :=
  match rows with
  | [] => []
  | row :: later =>
      match missing_columns column_names row with
      | [] => row_warnings_from column_names (S i) later
      | missing =>
          missing_warning i missing
          :: row_warnings_from column_names (S i) later
      end
  end.

Definition row_warnings {A} (column_names : list string)
    (rows : list (gmap string A)) : list string :=
  row_warnings_from column_names 0 rows.

End LlmApi.

(* ===================================================================== *)
(** ** Properties of the string operations *)
(* ===================================================================== *)

Module PyStrFacts.
Import PyStr.

Example format_nested :
  format "UPPER({col})" {[ "col" := "TRIM(a)" ]} = Some "UPPER(TRIM(a))".
Proof. reflexivity. Qed.

Example format_two_fields :
  format "SPLIT_PART({col}, '{delimiter}', {index})"
    (<[ "col" := "a" ]> (<[ "delimiter" := "," ]> {[ "index" := pretty 2%Z ]}))
  = Some "SPLIT_PART(a, ',', 2)".
Proof. vm_compute. reflexivity. Qed.

Example format_doubled_braces :
  format "{{{col}}}" {[ "col" := "a" ]} = Some "{a}".
Proof. reflexivity. Qed.

Example format_missing_keyword :
  format "F({col}, {other})" {[ "col" := "a" ]} = None.
Proof. reflexivity. Qed.

Example format_single_closing_brace :
  format "F({col}}" {[ "col" := "a" ]} = None.
Proof. reflexivity. Qed.

Example replace_col_pattern :
  replace "F.upper(F.col('{col}'))" "F.col('{col}')" "{col}" = "F.upper({col})".
Proof. reflexivity. Qed.

Example lstrip_message :
  lstrip (drop 12 "__WARNING__: no regex") = "no regex".
Proof. reflexivity. Qed.

Lemma append_empty_l (s : string) : "" +:+ s = s.
Proof. reflexivity. Qed.

Lemma append_cons (c : ascii) (a b : string) :
  String c a +:+ b = String c (a +:+ b).
Proof. reflexivity. Qed.

Lemma append_empty_r (s : string) : s +:+ "" = s.
Proof.
  induction s as [|c s IH]; [done|]. by rewrite append_cons, IH.
Qed.

Lemma append_assoc (a b c : string) : (a +:+ b) +:+ c = a +:+ (b +:+ c).
Proof.
  induction a as [|x a IH]; [done|]. by rewrite !append_cons, IH.
Qed.

Lemma occurs_in_refl (x : string) : occurs_in x x.
Proof. exists "", "". by rewrite append_empty_l, append_empty_r. Qed.

Lemma occurs_in_trans (x y z : string) :
  occurs_in x y -> occurs_in y z -> occurs_in x z.
Proof.
  intros (a & b & ->) (a' & b' & ->).
  exists (a' +:+ a), (b +:+ b').
  by rewrite !append_assoc.
Qed.

Lemma occurs_in_app (x a b : string) : occurs_in x (a +:+ x +:+ b).
Proof. by exists a, b. Qed.

Lemma occurs_in_cons (x s : string) (c : ascii) :
  occurs_in x s -> occurs_in x (String c s).
Proof. intros (a & b & ->). by exists (String c a), b. Qed.

Lemma occurs_in_append_l (x s p : string) :
  occurs_in x s -> occurs_in x (p +:+ s).
Proof.
  intros (a & b & ->). exists (p +:+ a), b. by rewrite !append_assoc.
Qed.

(** A field of the template that is filled leaves its value in the
    result: formatting cannot lose a keyword the template mentions. *)
Lemma format_from_occurs (kw : gmap string string) (x v : string) :
  kw !! x = Some v ->
  forall (s : string) (mode : Mode) (r : string),
    format_from kw s mode = Some r ->
    mentions_from x s mode = true ->
    occurs_in v r.
Proof.
  intros Hx. induction s as [|c s IH]; intros mode r; [done|].
  assert (Hfield : forall name,
    (if Ascii.eqb c rbrace then
       match kw !! name with
       | Some v => String.append v <$> format_from kw s Text
       | None => None
       end
     else if Ascii.eqb c lbrace || compound_field_char c then None
     else format_from kw s (Field (name +:+ String c EmptyString))) = Some r ->
    (if Ascii.eqb c rbrace then String.eqb name x || mentions_from x s Text
     else if Ascii.eqb c lbrace || compound_field_char c then false
     else mentions_from x s (Field (name +:+ String c EmptyString))) = true ->
    occurs_in v r).
  { intros name. destruct (Ascii.eqb c rbrace).
    - destruct (kw !! name) as [w|] eqn:Hw; [|done].
      destruct (format_from kw s Text) as [r0|] eqn:Hr0; [|done].
      intros [= <-] [Hn|Hm]%orb_true_iff.
      + apply String.eqb_eq in Hn as ->.
        assert (w = v) as -> by congruence.
        exists "", r0. done.
      + apply occurs_in_append_l. by eapply IH.
    - destruct (Ascii.eqb c lbrace || compound_field_char c); [done|].
      apply IH. }
  simpl. destruct mode as [| | |name].
  - destruct (Ascii.eqb c lbrace); [apply IH|].
    destruct (Ascii.eqb c rbrace); [apply IH|].
    destruct (format_from kw s Text) as [r0|] eqn:Hr0; [|done].
    intros [= <-] Hm. apply occurs_in_cons. by eapply IH.
  - destruct (Ascii.eqb c lbrace); [|apply Hfield].
    destruct (format_from kw s Text) as [r0|] eqn:Hr0; [|done].
    intros [= <-] Hm. apply occurs_in_cons. by eapply IH.
  - destruct (Ascii.eqb c rbrace); [|done].
    destruct (format_from kw s Text) as [r0|] eqn:Hr0; [|done].
    intros [= <-] Hm. apply occurs_in_cons. by eapply IH.
  - apply Hfield.
Qed.

Lemma format_occurs (kw : gmap string string) (x v tmpl r : string) :
  kw !! x = Some v ->
  format tmpl kw = Some r ->
  mentions x tmpl = true ->
  occurs_in v r.
Proof. intros Hx. by apply format_from_occurs. Qed.

(** Literal text before the first field is copied as it is. *)
Lemma format_from_literal (kw : gmap string string) (pre rest : string) :
  brace_free pre = true ->
  format_from kw (pre +:+ rest) Text
  = String.append pre <$> format_from kw rest Text.
Proof.
  induction pre as [|c pre IH].
  - intros _. rewrite append_empty_l.
    by destruct (format_from kw rest Text).
  - intros [[Hl Hr]%andb_true_iff Hfree]%andb_true_iff.
    apply negb_true_iff in Hl, Hr.
    rewrite append_cons. simpl. rewrite Hl, Hr, IH by done.
    by destruct (format_from kw rest Text).
Qed.

(** A template that is literal text, then the column field, then more
    template: the text comes first and the value of [col] right after it. *)
Lemma format_col_hole (kw : gmap string string) (pre suf v : string) :
  brace_free pre = true ->
  kw !! "col" = Some v ->
  format (pre +:+ "{col}" +:+ suf) kw
  = (fun s => pre +:+ v +:+ s) <$> format suf kw.
Proof.
  intros Hfree Hcol. unfold format.
  rewrite format_from_literal by done.
  rewrite !append_cons, append_empty_l. simpl.
  change (kw !! _) with (kw !! "col"). rewrite Hcol.
  by destruct (format_from kw suf Text).
Qed.

End PyStrFacts.

(* ===================================================================== *)
(** ** Properties of the column expression compiler *)
(* ===================================================================== *)

Module CompilerFacts.
Import Compiler.

Section Steps.

Variable TEMPLATES : gmap string (gmap string string).
Variable column : Column.
Variable target dialect : string.

Local Abbreviation apply_ := (_apply TEMPLATES column target dialect).
Local Abbreviation step_ := (run_step TEMPLATES column target dialect).
Local Abbreviation steps_ := (run_steps TEMPLATES column target dialect).
Local Abbreviation tmpl_ key :=
  (lookup_template TEMPLATES key (tgt_dialect target dialect)).

Lemma warning_is_truthy (tmpl : string) :
  PyStr.startswith tmpl _WARNING_PREFIX = true -> PyStr.truthy tmpl = true.
Proof. by destruct tmpl. Qed.

Lemma is_warning_startswith (tmpl : string) :
  is_warning tmpl = PyStr.startswith tmpl _WARNING_PREFIX.
Proof.
  unfold is_warning.
  destruct (PyStr.startswith tmpl _WARNING_PREFIX) eqn:H.
  - by rewrite warning_is_truthy.
  - apply andb_false_r.
Qed.

(** An absent or empty template: the step is skipped. *)
Lemma apply_absent key extra st :
  PyStr.truthy (tmpl_ key) = false -> apply_ key extra st = Some st.
Proof. unfold _apply. by intros ->. Qed.

(** A warning marker: the message is appended, nothing else changes. *)
Lemma apply_warning key extra st :
  is_warning (tmpl_ key) = true ->
  apply_ key extra st
  = Some {| expr := expr st; pyspark_applied := pyspark_applied st;
            warnings_so_far :=
              warnings_so_far st ++ [warning_message (tmpl_ key)] |}.
Proof.
  intros [Ht Hw]%andb_true_iff. unfold _apply. by rewrite Ht, Hw.
Qed.

(** A real pattern on a non-dataframe target: the column placeholder is
    filled with the accumulated expression. *)
Lemma apply_real_sql key extra st :
  String.eqb target "pyspark" = false ->
  real_pattern (tmpl_ key) = true ->
  apply_ key extra st
  = (filled ← PyStr.format (tmpl_ key) (<["col" := expr st]> extra);
     Some {| expr := filled; pyspark_applied := pyspark_applied st;
             warnings_so_far := warnings_so_far st |}).
Proof.
  intros Hsql [Ht Hw%negb_true_iff]%andb_true_iff.
  unfold _apply. by rewrite Ht, Hw, Hsql.
Qed.

Lemma template_cases (tmpl : string) :
  PyStr.truthy tmpl = false \/ is_warning tmpl = true \/ real_pattern tmpl = true.
Proof.
  unfold is_warning, real_pattern.
  destruct (PyStr.truthy tmpl), (PyStr.startswith tmpl _WARNING_PREFIX); auto.
Qed.

(** What [_apply] does to the warnings, whatever the template. *)
Lemma apply_warnings key extra st st' :
  apply_ key extra st = Some st' ->
  warnings_so_far st'
  = (warnings_so_far st
     ++ (if is_warning (tmpl_ key) then [warning_message (tmpl_ key)] else []))%list.
Proof.
  rewrite is_warning_startswith. unfold _apply.
  destruct (PyStr.truthy (tmpl_ key)) eqn:Ht; simpl.
  - destruct (PyStr.startswith (tmpl_ key) _WARNING_PREFIX); simpl.
    + by intros [= <-].
    + rewrite app_nil_r.
      destruct (String.eqb target "pyspark"), (pyspark_applied st); simpl;
        intros Hf; apply bind_Some in Hf as (filled & _ & [= <-]); done.
  - destruct (PyStr.startswith (tmpl_ key) _WARNING_PREFIX) eqn:Hw.
    + by rewrite (warning_is_truthy _ Hw) in Ht.
    + intros [= <-]. by rewrite app_nil_r.
Qed.

Lemma run_step_warnings step st st' :
  step_ step st = Some st' ->
  warnings_so_far st'
  = (warnings_so_far st
     ++ step_warnings TEMPLATES column target dialect step)%list.
Proof.
  unfold run_step, step_warnings.
  destruct (step_call (transformations column) step) as [[key extra]|].
  - apply apply_warnings.
  - intros [= <-]. by rewrite app_nil_r.
Qed.

Lemma run_steps_warnings order : forall st st',
  steps_ order st = Some st' ->
  warnings_so_far st'
  = (warnings_so_far st
     ++ flat_map (step_warnings TEMPLATES column target dialect) order)%list.
Proof.
  induction order as [|step order IH]; intros st st'; simpl.
  - intros [= <-]. by rewrite app_nil_r.
  - destruct (step_ step st) as [st1|] eqn:H1; simpl; [|done].
    intros H2. rewrite (IH _ _ H2), (run_step_warnings _ _ _ H1).
    by rewrite app_assoc.
Qed.

Lemma run_steps_app order1 order2 st :
  steps_ (order1 ++ order2) st = steps_ order1 st ≫= steps_ order2.
Proof.
  revert st. induction order1 as [|step order1 IH]; intros st; simpl; [done|].
  destruct (step_ step st); simpl; [apply IH|done].
Qed.

Lemma run_steps_single step st : steps_ [step] st = step_ step st.
Proof. simpl. by destruct (step_ step st). Qed.

Lemma run_step_trim st :
  trim (transformations column) = true ->
  step_ "trim" st = apply_ "trim" ∅ st.
Proof. unfold run_step, step_call. simpl. by intros ->. Qed.

Lemma run_step_upper st :
  case_normalization (transformations column) = "upper" ->
  step_ "case_normalization" st = apply_ "case_upper" ∅ st.
Proof. unfold run_step, step_call. simpl. by intros ->. Qed.

(** Steps that make no call leave the state as it is. *)
Lemma run_steps_inactive order : forall st,
  (forall step, In step order -> step_call (transformations column) step = None) ->
  steps_ order st = Some st.
Proof.
  induction order as [|step order IH]; intros st Hnone; simpl; [done|].
  unfold run_step. rewrite Hnone by (by left). simpl.
  apply IH. intros s Hs. apply Hnone. by right.
Qed.

End Steps.

(** A column none of whose guards holds makes no call of [_apply]. *)
Lemma no_active_step_call (t : ColumnTransformations) (step : string) :
  no_active_step t = true -> step_call t step = None.
Proof.
  unfold no_active_step, step_call. intros H.
  repeat (apply andb_true_iff in H as [H ?]).
  repeat match goal with
         | Hn : negb _ = true |- _ => apply negb_true_iff in Hn
         end.
  repeat match goal with
         | Ho : _ || _ = false |- _ => apply orb_false_iff in Ho as [Ho ?]
         end.
  repeat match goal with
         | Hb : ?b = _ |- context [if ?b then _ else _] => rewrite Hb
         | Hb : ?b = _ |- context [if negb ?b then _ else _] => rewrite Hb
         end.
  simpl.
  destruct (conditional_enabled (conditional t)),
    (conditional_cases (conditional t)); simplify_eq/=;
    repeat case_match; done.
Qed.

(** C1.  A column whose custom expression is set compiles to that string,
    verbatim, under the column name as alias and with no warning, for
    every template table, target and dialect and whatever its other
    transformation fields are. *)
Theorem custom_expression_short_circuits
    (TEMPLATES : gmap string (gmap string string))
    (column : Column) (target dialect custom : string) :
  custom_expression (transformations column) = Some custom ->
  PyStr.truthy custom = true ->
  compile_column TEMPLATES column target dialect
  = Some (mkCompiledColumn (name column) custom (name column) [] target dialect).
Proof.
  intros Hc Ht. unfold compile_column, custom_expression_set.
  by rewrite Hc, Ht.
Qed.

Lemma custom_expression_short_circuits_witness :
  compile_column sample_templates
    (with_transformations "col_a" custom_with_trim) "sql" "snowflake_sql"
  = Some (mkCompiledColumn "col_a" "MY_CUSTOM_FUNC(col)" "col_a" []
            "sql" "snowflake_sql").
Proof.
  apply (custom_expression_short_circuits sample_templates
           (with_transformations "col_a" custom_with_trim)
           "sql" "snowflake_sql" "MY_CUSTOM_FUNC(col)");
    reflexivity.
Defined.

(** C6.  A column with no custom expression and no active step compiles
    to its bare reference and to no warning: the column name on a
    non-dataframe target, the column-reference construct on the dataframe
    target. *)
Theorem inert_column_compiles_to_bare_reference
    (TEMPLATES : gmap string (gmap string string))
    (column : Column) (target dialect : string) :
  custom_expression_set (transformations column) = false ->
  no_active_step (transformations column) = true ->
  compile_column TEMPLATES column target dialect
  = Some (mkCompiledColumn (name column)
            (if String.eqb target "pyspark"
             then "F.col('" +:+ name column +:+ "')"
             else name column)
            (name column) [] target dialect).
Proof.
  intros Hc Hn. unfold compile_column. rewrite Hc.
  rewrite run_steps_inactive; [done|].
  intros step _. by apply no_active_step_call.
Qed.

Lemma inert_column_compiles_to_bare_reference_witness :
  compile_column sample_templates (plain_column "email" true) "pyspark" "pyspark"
  = Some (mkCompiledColumn "email" "F.col('email')" "email" [] "pyspark" "pyspark")
  /\ compile_column sample_templates (plain_column "email" true) "sql" "ansi"
     = Some (mkCompiledColumn "email" "email" "email" [] "sql" "ansi").
Proof.
  split.
  - apply (inert_column_compiles_to_bare_reference sample_templates
             (plain_column "email" true) "pyspark" "pyspark"); reflexivity.
  - apply (inert_column_compiles_to_bare_reference sample_templates
             (plain_column "email" true) "sql" "ansi"); reflexivity.
Defined.

(** The slice and the [lstrip] by which [_apply] takes the message out of
    a warning marker: what follows the prefix, without the white space it
    starts with. *)
Lemma startswith_drop (p : string) : forall s : string,
  PyStr.startswith s p = true -> s = p +:+ PyStr.drop (String.length p) s.
Proof.
  unfold PyStr.startswith. induction p as [|c p IH]; intros s; [done|].
  destruct s as [|d s]; [done|]. simpl.
  destruct (ascii_dec c d) as [->|]; [|done]. intros Hprefix.
  rewrite PyStrFacts.append_cons. f_equal. by apply IH.
Qed.

Lemma lstrip_split (s : string) :
  exists blanks : string,
    s = blanks +:+ PyStr.lstrip s
    /\ forallb PyStr.isspace (list_ascii_of_string blanks) = true.
Proof.
  induction s as [|c s (blanks & Hs & Hblanks)]; [by exists ""|].
  cbn [PyStr.lstrip]. destruct (PyStr.isspace c) eqn:Hc.
  - exists (String c blanks). split.
    + rewrite PyStrFacts.append_cons. by f_equal.
    + simpl. by rewrite Hc.
  - by exists "".
Qed.

Lemma lstrip_idem (s : string) : PyStr.lstrip (PyStr.lstrip s) = PyStr.lstrip s.
Proof.
  induction s as [|c s IH]; [done|]. cbn [PyStr.lstrip].
  destruct (PyStr.isspace c) eqn:Hc; [done|]. cbn [PyStr.lstrip]. by rewrite Hc.
Qed.

Lemma warning_marker_message (tmpl : string) :
  is_warning tmpl = true ->
  exists blanks : string,
    tmpl = _WARNING_PREFIX +:+ blanks +:+ warning_message tmpl
    /\ forallb PyStr.isspace (list_ascii_of_string blanks) = true
    /\ PyStr.lstrip (warning_message tmpl) = warning_message tmpl.
Proof.
  rewrite is_warning_startswith. intros Hstart%startswith_drop.
  unfold warning_message.
  destruct (lstrip_split (PyStr.drop (String.length _WARNING_PREFIX) tmpl))
    as (blanks & Hrest & Hblanks).
  exists blanks. split; [|split; [done|apply lstrip_idem]].
  by rewrite <- Hrest.
Qed.

(** C5.  An active step whose template is a warning marker appends the
    message of the marker to the warnings and leaves the expression, and
    the rest of the state, as they were.  The message is the text of the
    template after the marker prefix and the white space that follows it.
    When the column has no custom expression, so that the steps are run,
    the message is among the warnings of the compiled column, which are
    exactly the messages of the active steps with a warning marker, in
    step order. *)
Theorem warning_marker_appends_message
    (TEMPLATES : gmap string (gmap string string))
    (column : Column) (target dialect step key : string)
    (extra : gmap string string) (st : CompileState) :
  step_call (transformations column) step = Some (key, extra) ->
  is_warning (lookup_template TEMPLATES key (tgt_dialect target dialect)) = true ->
  exists blanks message : string,
    lookup_template TEMPLATES key (tgt_dialect target dialect)
    = _WARNING_PREFIX +:+ blanks +:+ message
    /\ forallb PyStr.isspace (list_ascii_of_string blanks) = true
    /\ PyStr.lstrip message = message
    /\ run_step TEMPLATES column target dialect step st
       = Some {| expr := expr st;
                 pyspark_applied := pyspark_applied st;
                 warnings_so_far := warnings_so_far st ++ [message] |}
    /\ forall r : CompiledColumn,
         custom_expression_set (transformations column) = false ->
         In step TRANSFORM_ORDER ->
         compile_column TEMPLATES column target dialect = Some r ->
         warnings r
         = flat_map (step_warnings TEMPLATES column target dialect)
             TRANSFORM_ORDER
         /\ In message (warnings r).
Proof.
  intros Hcall Hw.
  destruct (warning_marker_message _ Hw) as (blanks & Hsplit & Hblanks & Hstripped).
  exists blanks,
    (warning_message (lookup_template TEMPLATES key (tgt_dialect target dialect))).
  split; [done|]. split; [done|]. split; [done|]. split.
  - unfold run_step. rewrite Hcall. by apply apply_warning.
  - intros r Hc Hin. unfold compile_column. rewrite Hc.
    destruct (run_steps _ _ _ _ TRANSFORM_ORDER _) as [st'|] eqn:Hrun; [|done].
    intros [= <-]. simpl.
    apply run_steps_warnings in Hrun.
    change (warnings_so_far (initial_state column target)) with (@nil string) in Hrun.
    rewrite app_nil_l in Hrun.
    split; [done|]. rewrite Hrun.
    apply in_flat_map. exists step. split; [done|].
    unfold step_warnings. rewrite Hcall. simpl. rewrite Hw. by left.
Qed.

Lemma warning_marker_appends_message_witness :
  run_step sample_templates (with_transformations "phone" regex_only)
    "sql" "tsql" "regex"
    (initial_state (with_transformations "phone" regex_only) "sql")
  = Some {| expr := "phone"; pyspark_applied := false;
            warnings_so_far := ["regex replace is not supported in T-SQL"] |}
  /\ compile_column sample_templates
       (with_transformations "phone" regex_only) "sql" "tsql"
     = Some (mkCompiledColumn "phone" "phone" "phone"
               ["regex replace is not supported in T-SQL"] "sql" "tsql")
  /\ In "regex replace is not supported in T-SQL"
       (warnings
          (mkCompiledColumn "phone" "phone" "phone"
             ["regex replace is not supported in T-SQL"] "sql" "tsql")).
Proof.
  destruct (warning_marker_appends_message sample_templates
              (with_transformations "phone" regex_only) "sql" "tsql"
              "regex" "regex_replace"
              (<["pattern" := "[0-9]+"]> {["repl" := "X"]})
              (initial_state (with_transformations "phone" regex_only) "sql")
              eq_refl eq_refl)
    as (blanks & message & _ & _ & _ & Hstep & Hcompiled).
  assert (message = "regex replace is not supported in T-SQL") as ->.
  { vm_compute in Hstep. by injection Hstep as <-. }
  split; [exact Hstep|]. split; [vm_compute; reflexivity|].
  apply (Hcompiled
           (mkCompiledColumn "phone" "phone" "phone"
              ["regex replace is not supported in T-SQL"] "sql" "tsql")
           eq_refl);
    [do 2 right; left; reflexivity | vm_compute; reflexivity].
Defined.

(** C9, as the code has it.  Of the steps, only the conditional looks at
    its data.  A conditional with an empty list of cases is inactive
    whether it is enabled or not: its step leaves the expression and the
    warnings as they were, and the column compiles as it does with the
    conditional switched off.  The regex, the where filter and the
    delimiter split are switched by their flag alone: when enabled they
    make their call of [_apply] with the pattern, the condition or the
    delimiter as it is, empty or not.  Such a call adds the warning of a
    warning marker, and on a non-dataframe target it fills a real pattern
    and makes it the expression. *)
Theorem only_conditional_guards_on_its_data
    (TEMPLATES : gmap string (gmap string string))
    (column : Column) (target dialect : string) :
  (conditional_cases (conditional (transformations column)) = [] ->
   (forall st : CompileState,
       run_step TEMPLATES column target dialect "conditional" st = Some st)
   /\ compile_column TEMPLATES column target dialect
      = compile_column TEMPLATES (disable_conditional column) target dialect)
  /\ (regex_enabled (regex (transformations column)) = true ->
      forall st : CompileState,
        run_step TEMPLATES column target dialect "regex" st
        = _apply TEMPLATES column target dialect "regex_replace"
            (<["pattern" := regex_pattern (regex (transformations column))]>
               {["repl" := regex_replacement (regex (transformations column))]})
            st)
  /\ (where_enabled (where_filter (transformations column)) = true ->
      forall st : CompileState,
        run_step TEMPLATES column target dialect "where_filter" st
        = _apply TEMPLATES column target dialect "where_filter"
            {["condition" := where_condition (where_filter (transformations column))]}
            st)
  /\ (split_enabled (delimiter_split (transformations column)) = true ->
      forall st : CompileState,
        run_step TEMPLATES column target dialect "delimiter_split" st
        = _apply TEMPLATES column target dialect "delimiter_split"
            (<["delimiter" := split_delimiter (delimiter_split (transformations column))]>
               {["index" := pretty (split_index (delimiter_split (transformations column)))]})
            st)
  /\ (forall (key : string) (extra : gmap string string) (st : CompileState),
        (is_warning (lookup_template TEMPLATES key (tgt_dialect target dialect))
         = true ->
         _apply TEMPLATES column target dialect key extra st
         = Some {| expr := expr st;
                   pyspark_applied := pyspark_applied st;
                   warnings_so_far :=
                     warnings_so_far st ++
                     [warning_message
                        (lookup_template TEMPLATES key
                           (tgt_dialect target dialect))] |})
        /\ (target <> "pyspark" ->
            real_pattern (lookup_template TEMPLATES key dialect) = true ->
            _apply TEMPLATES column target dialect key extra st
            = (filled ← PyStr.format (lookup_template TEMPLATES key dialect)
                          (<["col" := expr st]> extra);
               Some {| expr := filled;
                       pyspark_applied := pyspark_applied st;
                       warnings_so_far := warnings_so_far st |}))).
Proof.
  split; [|split; [|split; [|split]]].
  - intros Hcases.
    assert (Hcall : forall step,
      step_call (transformations column) step
      = step_call (transformations (disable_conditional column)) step).
    { intros step. unfold step_call, disable_conditional. simpl.
      rewrite Hcases.
      by destruct (conditional_enabled (conditional (transformations column))). }
    assert (Hstep : forall step st,
      run_step TEMPLATES column target dialect step st
      = run_step TEMPLATES (disable_conditional column) target dialect step st).
    { intros step st. unfold run_step. by rewrite Hcall. }
    split.
    + intros st. unfold run_step, step_call. simpl. rewrite Hcases.
      by destruct (conditional_enabled (conditional (transformations column))).
    + unfold compile_column.
      replace (custom_expression_set (transformations (disable_conditional column)))
        with (custom_expression_set (transformations column)) by done.
      destruct (custom_expression_set (transformations column)); [done|].
      assert (Hsteps : forall order st,
        run_steps TEMPLATES column target dialect order st
        = run_steps TEMPLATES (disable_conditional column) target dialect order st).
      { induction order as [|step order IH]; intros st; simpl; [done|].
        rewrite Hstep.
        destruct (run_step TEMPLATES (disable_conditional column) target dialect step st);
          simpl; [apply IH|done]. }
      by rewrite Hsteps.
  - intros Hon st. unfold run_step, step_call. simpl. by rewrite Hon.
  - intros Hon st. unfold run_step, step_call. simpl. by rewrite Hon.
  - intros Hon st. unfold run_step, step_call. simpl. by rewrite Hon.
  - intros key extra st. split.
    + apply apply_warning.
    + intros Hsql%String.eqb_neq Hreal.
      assert (tgt_dialect target dialect = dialect) as Hd
        by (unfold tgt_dialect; by rewrite Hsql).
      rewrite <- Hd in Hreal.
      rewrite (apply_real_sql _ _ _ _ _ _ _ Hsql Hreal). by rewrite Hd.
Qed.

Lemma only_conditional_guards_on_its_data_witness :
  run_step sample_templates
    (with_transformations "col_a" conditional_without_cases) "sql" "ansi"
    "conditional"
    {| expr := "TRIM(col_a)"; pyspark_applied := false; warnings_so_far := [] |}
  = Some {| expr := "TRIM(col_a)"; pyspark_applied := false;
            warnings_so_far := [] |}
  /\ run_step sample_templates
       (with_transformations "col_a" empty_where_filter) "sql" "ansi"
       "where_filter"
       {| expr := "col_a"; pyspark_applied := false; warnings_so_far := [] |}
     = Some {| expr := "CASE WHEN  THEN col_a END"; pyspark_applied := false;
               warnings_so_far := [] |}.
Proof.
  split.
  - destruct (only_conditional_guards_on_its_data sample_templates
                (with_transformations "col_a" conditional_without_cases)
                "sql" "ansi") as [Hconditional _].
    apply (Hconditional eq_refl).
  - destruct (only_conditional_guards_on_its_data sample_templates
                (with_transformations "col_a" empty_where_filter)
                "sql" "ansi") as (_ & _ & Hwhere & _ & Hcall).
    rewrite (Hwhere eq_refl).
    destruct (Hcall "where_filter" {["condition" := ""]}
                {| expr := "col_a"; pyspark_applied := false;
                   warnings_so_far := [] |}) as [_ Hreal].
    etransitivity; [exact (Hreal ltac:(discriminate) eq_refl)|].
    vm_compute. reflexivity.
Defined.

(** The steps of a column that has only its regex on come to the one
    call of the regex step. *)
Lemma regex_with_steps (TEMPLATES : gmap string (gmap string string))
    (n pattern replacement target dialect : string) (st : CompileState) :
  run_steps TEMPLATES (with_transformations n (regex_with pattern replacement))
    target dialect TRANSFORM_ORDER st
  = _apply TEMPLATES (with_transformations n (regex_with pattern replacement))
      target dialect "regex_replace"
      (<["pattern" := pattern]> {["repl" := replacement]}) st.
Proof.
  change TRANSFORM_ORDER
    with ((["trim"; "strip_special"] ++ ["regex"])
          ++ ["case_normalization"; "type_cast"; "null_strategy";
              "where_filter"; "conditional"; "delimiter_split"])%list.
  rewrite !run_steps_app.
  rewrite run_steps_inactive
    by (intros step [<-|[<-|[]]]; reflexivity).
  cbn [mbind option_bind]. rewrite run_steps_single.
  change (run_step TEMPLATES
            (with_transformations n (regex_with pattern replacement))
            target dialect "regex" st)
    with (_apply TEMPLATES
            (with_transformations n (regex_with pattern replacement))
            target dialect "regex_replace"
            (<["pattern" := pattern]> {["repl" := replacement]}) st).
  destruct (_apply _ _ _ _ _ _ st) as [st'|]; [|done].
  cbn [mbind option_bind]. apply run_steps_inactive.
  intros step [<-|[<-|[<-|[<-|[<-|[<-|[]]]]]]]; reflexivity.
Qed.

(** C9, as stated, fails.  The test [test_tsql_regex_warning] of the
    repository requires that the column [phone] with its regex on
    compiles, for [tsql], to at least one warning.  Under every template
    table that meets this, in that dialect or another, the same column
    with an empty pattern, the data the step needs, compiles to the same
    result: its regex step is not inactive and contributes the warning. *)
Lemma empty_regex_pattern_still_warns :
  regex_pattern (regex (regex_with "" "X")) = ""
  /\ forall (TEMPLATES : gmap string (gmap string string))
            (dialect pattern replacement : string) (r : CompiledColumn),
       compile_column TEMPLATES
         (with_transformations "phone" (regex_with pattern replacement))
         "sql" dialect = Some r ->
       warnings r <> [] ->
       compile_column TEMPLATES
         (with_transformations "phone" (regex_with "" replacement))
         "sql" dialect = Some r.
Proof.
  split; [done|]. intros TEMPLATES dialect pattern replacement r.
  unfold compile_column.
  change (custom_expression_set (transformations (with_transformations _ _)))
    with false.
  cbn iota. rewrite !regex_with_steps.
  destruct (_apply _ (with_transformations "phone" (regex_with pattern _))
              _ _ _ _ _) as [st|] eqn:Happly; [|done].
  cbn [mbind option_bind]. intros [= <-]. cbn [warnings]. intros Hwarn.
  pose proof (apply_warnings _ _ _ _ _ _ _ _ Happly) as Hw.
  destruct (is_warning (lookup_template TEMPLATES "regex_replace"
                          (tgt_dialect "sql" dialect))) eqn:Hmarker;
    [|by rewrite Hw in Hwarn].
  rewrite (apply_warning _ _ _ _ _ _ _ Hmarker) in Happly.
  rewrite (apply_warning _ _ _ _ _ _ _ Hmarker).
  by injection Happly as <-.
Qed.

(** A where filter, too, is applied when its condition is empty. *)
Example where_filter_with_empty_condition_is_applied :
  where_condition (where_filter empty_where_filter) = ""
  /\ run_step sample_templates
       (with_transformations "col_a" empty_where_filter) "sql" "ansi"
       "where_filter"
       {| expr := "col_a"; pyspark_applied := false; warnings_so_far := [] |}
     = Some {| expr := "CASE WHEN  THEN col_a END"; pyspark_applied := false;
               warnings_so_far := [] |}
  /\ compile_column sample_templates
       (with_transformations "col_a" empty_where_filter) "sql" "ansi"
     = Some (mkCompiledColumn "col_a" "CASE WHEN  THEN col_a END" "col_a" []
               "sql" "ansi").
Proof. repeat split; vm_compute; reflexivity. Qed.

Section Wrapping.

Variable TEMPLATES : gmap string (gmap string string).
Variable column : Column.
Variable target dialect : string.

(** A non-dataframe target. *)
Hypothesis not_pyspark : target <> "pyspark".

(** Every active step whose template is a real pattern has the column
    placeholder in it. *)
Hypothesis patterns_mention_col :
  forall (step key : string) (extra : gmap string string),
    step_call (transformations column) step = Some (key, extra) ->
    real_pattern (lookup_template TEMPLATES key dialect) = true ->
    PyStr.mentions "col" (lookup_template TEMPLATES key dialect) = true.

Lemma sql_target : String.eqb target "pyspark" = false.
Proof. by apply String.eqb_neq. Qed.

Lemma sql_tgt_dialect : tgt_dialect target dialect = dialect.
Proof. unfold tgt_dialect. by rewrite sql_target. Qed.

(** On a non-dataframe target a step nests the accumulated expression:
    what occurred in the expression before the step occurs in it after. *)
Lemma run_step_keeps_occurrence (x step : string) (st st' : CompileState) :
  run_step TEMPLATES column target dialect step st = Some st' ->
  PyStr.occurs_in x (expr st) ->
  PyStr.occurs_in x (expr st').
Proof.
  unfold run_step.
  destruct (step_call (transformations column) step) as [[key extra]|] eqn:Hcall;
    [|by intros [= <-]].
  pose proof (patterns_mention_col step key extra Hcall) as Hm.
  rewrite <- sql_tgt_dialect in Hm.
  destruct (template_cases
              (lookup_template TEMPLATES key (tgt_dialect target dialect)))
    as [Ha|[Hw|Hr]].
  - rewrite apply_absent by done. by intros [= <-].
  - rewrite apply_warning by done. by intros [= <-].
  - rewrite apply_real_sql by (done || apply sql_target).
    intros (filled & Hf & [= <-])%bind_Some Hocc. simpl.
    eapply PyStrFacts.occurs_in_trans; [exact Hocc|].
    eapply PyStrFacts.format_occurs; [|exact Hf|by apply Hm].
    apply lookup_insert_eq.
Qed.

Lemma run_steps_keep_occurrence (x : string) (order : list string) :
  forall st st' : CompileState,
    run_steps TEMPLATES column target dialect order st = Some st' ->
    PyStr.occurs_in x (expr st) ->
    PyStr.occurs_in x (expr st').
Proof.
  induction order as [|step order IH]; intros st st'; simpl.
  - by intros [= <-].
  - intros (st1 & H1 & H2)%bind_Some Hocc.
    eapply IH; [exact H2|]. by eapply run_step_keeps_occurrence.
Qed.

(** C2.  For a column without custom expression, with trim active and the
    case normalisation set to upper, on a non-dataframe target and a
    dialect whose trim and upper templates are real patterns, the upper
    template being literal text, the column placeholder and a remainder,
    and whose other patterns in use keep the column placeholder: the
    compiled expression holds the text of the upper template, then what
    the placeholder was filled with, then the filled remainder; and the
    filling holds the trim expression.  The upper syntax comes before the
    trim syntax and wraps it, because the later step is filled with the
    expression accumulated by the earlier ones. *)
Theorem upper_wraps_trim (before_col after_col trimmed : string)
    (r : CompiledColumn) :
  custom_expression_set (transformations column) = false ->
  trim (transformations column) = true ->
  case_normalization (transformations column) = "upper" ->
  real_pattern (lookup_template TEMPLATES "trim" dialect) = true ->
  PyStr.format (lookup_template TEMPLATES "trim" dialect)
    (<["col" := name column]> ∅) = Some trimmed ->
  real_pattern (lookup_template TEMPLATES "case_upper" dialect) = true ->
  lookup_template TEMPLATES "case_upper" dialect
  = before_col +:+ "{col}" +:+ after_col ->
  PyStr.brace_free before_col = true ->
  compile_column TEMPLATES column target dialect = Some r ->
  exists inner filled_after : string,
    PyStr.occurs_in trimmed inner
    /\ PyStr.format after_col (<["col" := inner]> ∅) = Some filled_after
    /\ PyStr.occurs_in (before_col +:+ inner +:+ filled_after) (expression r).
Proof.
  intros Hcustom Htrim Hcase Hreal_t Hfmt_t Hreal_u Hshape Hfree.
  unfold compile_column. rewrite Hcustom.
  change TRANSFORM_ORDER
    with (["trim"] ++ ["strip_special"; "regex"]
          ++ ["case_normalization"]
          ++ ["type_cast"; "null_strategy"; "where_filter"; "conditional";
              "delimiter_split"])%list.
  intros (st & Hrun & [= <-])%bind_Some. simpl expression.
  rewrite run_steps_app in Hrun.
  apply bind_Some in Hrun as (st1 & H1 & Hrun).
  rewrite run_steps_app in Hrun.
  apply bind_Some in Hrun as (st2 & H2 & Hrun).
  rewrite run_steps_app in Hrun.
  apply bind_Some in Hrun as (st3 & H3 & H4).
  (* the trim step *)
  rewrite run_steps_single, run_step_trim in H1 by done.
  rewrite <- sql_tgt_dialect in Hreal_t, Hfmt_t.
  rewrite apply_real_sql in H1 by (done || apply sql_target).
  unfold initial_state, initial_expr in H1. rewrite sql_target in H1.
  simpl in H1. rewrite Hfmt_t in H1. simpl in H1.
  injection H1 as <-.
  (* the steps between trim and the case normalisation *)
  eapply run_steps_keep_occurrence in H2;
    [|apply PyStrFacts.occurs_in_refl]. simpl in H2.
  (* the case normalisation step *)
  rewrite run_steps_single, run_step_upper in H3 by done.
  rewrite <- sql_tgt_dialect in Hreal_u, Hshape.
  rewrite apply_real_sql in H3 by (done || apply sql_target).
  rewrite Hshape in H3.
  rewrite (PyStrFacts.format_col_hole _ before_col after_col (expr st2))
    in H3 by (done || apply lookup_insert_eq).
  apply bind_Some in H3 as (filled & Hfilled & [= <-]).
  apply fmap_Some in Hfilled as (filled_after & Hafter & ->).
  (* the steps after it *)
  exists (expr st2), filled_after. split; [done|]. split; [done|].
  eapply run_steps_keep_occurrence; [exact H4|].
  apply PyStrFacts.occurs_in_refl.
Qed.

End Wrapping.

(** With trim and upper the only active steps, the compiler returns, and
    returns the upper template filled with the trim expression. *)
Lemma trim_then_upper_exact
    (TEMPLATES : gmap string (gmap string string))
    (column : Column) (target dialect trimmed wrapped : string) :
  target <> "pyspark" ->
  custom_expression_set (transformations column) = false ->
  trim (transformations column) = true ->
  case_normalization (transformations column) = "upper" ->
  (forall step, step <> "trim" -> step <> "case_normalization" ->
                step_call (transformations column) step = None) ->
  real_pattern (lookup_template TEMPLATES "trim" dialect) = true ->
  PyStr.format (lookup_template TEMPLATES "trim" dialect)
    (<["col" := name column]> ∅) = Some trimmed ->
  real_pattern (lookup_template TEMPLATES "case_upper" dialect) = true ->
  PyStr.format (lookup_template TEMPLATES "case_upper" dialect)
    (<["col" := trimmed]> ∅) = Some wrapped ->
  compile_column TEMPLATES column target dialect
  = Some (mkCompiledColumn (name column) wrapped (name column) [] target dialect).
Proof.
  intros Hsql%String.eqb_neq Hcustom Htrim Hcase Hothers Hreal_t Hfmt_t Hreal_u Hfmt_u.
  assert (Hd : tgt_dialect target dialect = dialect)
    by (unfold tgt_dialect; by rewrite Hsql).
  rewrite <- Hd in Hreal_t, Hfmt_t, Hreal_u, Hfmt_u.
  unfold compile_column. rewrite Hcustom.
  change TRANSFORM_ORDER
    with (["trim"] ++ ["strip_special"; "regex"]
          ++ ["case_normalization"]
          ++ ["type_cast"; "null_strategy"; "where_filter"; "conditional";
              "delimiter_split"])%list.
  rewrite run_steps_app, run_steps_single, run_step_trim by done.
  rewrite apply_real_sql by done.
  unfold initial_state, initial_expr. rewrite Hsql. simpl expr.
  rewrite Hfmt_t. cbn [mbind option_bind].
  rewrite run_steps_app, run_steps_inactive; cbn [mbind option_bind].
  2: { intros step [<-|[<-|[]]]; by apply Hothers. }
  rewrite run_steps_app, run_steps_single, run_step_upper by done.
  rewrite apply_real_sql by done. simpl expr. rewrite Hfmt_u. cbn [mbind option_bind].
  rewrite run_steps_inactive; [done|].
  intros step [<-|[<-|[<-|[<-|[<-|[]]]]]]; by apply Hothers.
Qed.

(** The hypothesis of the wrapping theorem on the sample table: each
    pattern an active step of the stacking column uses has the column
    placeholder. *)
Lemma sample_patterns_mention_col :
  forall (step key : string) (extra : gmap string string),
    step_call trim_regex_upper step = Some (key, extra) ->
    real_pattern (lookup_template sample_templates key "ansi") = true ->
    PyStr.mentions "col" (lookup_template sample_templates key "ansi") = true.
Proof.
  intros step key extra. unfold step_call. simpl.
  repeat case_match; try done; by intros [= <- <-].
Qed.

Lemma upper_wraps_trim_witness :
  exists inner filled_after : string,
    PyStr.occurs_in "TRIM(col_a)" inner
    /\ PyStr.format ")" (<["col" := inner]> ∅) = Some filled_after
    /\ PyStr.occurs_in ("UPPER(" +:+ inner +:+ filled_after)
         "UPPER(REGEXP_REPLACE(TRIM(col_a), '[0-9]+', 'X'))".
Proof.
  apply (upper_wraps_trim sample_templates
           (with_transformations "col_a" trim_regex_upper) "sql" "ansi"
           ltac:(discriminate) sample_patterns_mention_col
           "UPPER(" ")" "TRIM(col_a)"
           (mkCompiledColumn "col_a"
              "UPPER(REGEXP_REPLACE(TRIM(col_a), '[0-9]+', 'X'))" "col_a" []
              "sql" "ansi"));
    vm_compute; reflexivity.
Defined.

Example compile_trim_upper_ansi :
  expression <$>
    compile_column sample_templates
      (with_transformations "col_a" trim_upper) "sql" "ansi"
  = Some "UPPER(TRIM(col_a))".
Proof. vm_compute. reflexivity. Qed.

Example compile_trim_upper_pyspark :
  expression <$>
    compile_column sample_templates
      (with_transformations "col_a" trim_upper) "pyspark" "ansi"
  = Some "F.upper(F.trim(F.col('col_a')))".
Proof. vm_compute. reflexivity. Qed.

Example compile_trim_upper_tsql :
  compile_column sample_templates
    (with_transformations "col_a" trim_upper) "sql" "tsql"
  = Some (mkCompiledColumn "col_a" "UPPER(LTRIM(RTRIM(col_a)))" "col_a" []
            "sql" "tsql").
Proof.
  apply (trim_then_upper_exact sample_templates
           (with_transformations "col_a" trim_upper) "sql" "tsql"
           "LTRIM(RTRIM(col_a))"); try (vm_compute; reflexivity).
  - discriminate.
  - intros step Ht Hc. unfold step_call. simpl.
    destruct (String.eqb_spec step "trim"); [done|].
    destruct (String.eqb_spec step "case_normalization"); [done|].
    repeat case_match; done.
Qed.

End CompilerFacts.

(* ===================================================================== *)
(** ** Properties of the execution and validation engine *)
(* ===================================================================== *)

Module ExecutorFacts.
Import Executor.

(** *** One call of [execute_sql], stage by stage *)

(** [execute_sql] in direct style: the first stage that raises decides
    the result, and the events logged are those up to that stage. *)
Lemma execute_sql_session_stages (engine : Engine) (query : string)
    (data : list Row) (table_name : string) :
  execute_sql_session engine query data table_name
  = match engine_connect engine with
    | Some exc => (failure_result exc, [Connect])
    | None =>
        let reg := register_events table_name data in
        match match data with
              | [] => None
              | _ :: _ => engine_register engine table_name data
              end with
        | Some exc => (failure_result exc, Connect :: reg)
        | None =>
            match engine_execute engine (registered table_name data) query with
            | inl exc => (failure_result exc, Connect :: reg ++ [Execute query])
            | inr out =>
                match out_fetchall out with
                | inl exc =>
                    (failure_result exc,
                     Connect :: reg ++ [Execute query; Fetchall])
                | inr rows_raw =>
                    let rows := map (dict_zip (out_description out)) rows_raw in
                    match engine_close engine with
                    | Some exc =>
                        (failure_result exc,
                         Connect :: reg ++ [Execute query; Fetchall; Close])
                    | None =>
                        ({| success := true; rows := rows;
                            columns := out_description out;
                            row_count := Z.of_nat (length rows);
                            error := "" |},
                         Connect :: reg ++ [Execute query; Fetchall; Close])
                    end
                end
            end
        end
    end.
Proof.
  unfold execute_sql_session, execute_sql_try, duckdb_connect, conn_register,
    conn_execute, conn_fetchall, conn_close, add_relation, with_relations,
    log, raise_if, outcome_of, fresh_session, registered, register_events.
  unfold mbind, M_bind, mret, M_ret. simpl.
  destruct (engine_connect engine) as [exc|]; [done|].
  destruct data as [|row data]; simpl.
  - destruct (engine_execute engine ∅ query) as [exc|out]; [done|].
    destruct (out_fetchall out) as [exc|rows_raw]; [done|].
    by destruct (engine_close engine).
  - destruct (engine_register engine table_name (row :: data)) as [exc|]; [done|].
    rewrite insert_empty.
    destruct (engine_execute engine _ query) as [exc|out]; [done|].
    destruct (out_fetchall out) as [exc|rows_raw]; [done|].
    by destruct (engine_close engine).
Qed.

(** Every failure has the shape of the [except] branch. *)
Lemma execute_sql_failure_shape (engine : Engine) (query : string)
    (data : list Row) (table_name : string) :
  success (execute_sql engine query data table_name) = false ->
  exists exc : string,
    execute_sql engine query data table_name = failure_result exc.
Proof.
  unfold execute_sql. rewrite execute_sql_session_stages.
  destruct (engine_connect engine); simpl; [eauto|].
  destruct (match data with [] => None | _ :: _ => _ end); simpl; [eauto|].
  destruct (engine_execute engine _ query) as [exc|out]; simpl; [eauto|].
  destruct (out_fetchall out); simpl; [eauto|].
  destruct (engine_close engine); simpl; [eauto|done].
Qed.

(** The connection is closed exactly when the call succeeds, for an
    engine whose [close] does not raise. *)
Lemma connection_closed_iff_success (engine : Engine) (query : string)
    (data : list Row) (table_name : string) :
  engine_close engine = None ->
  In Close (execute_sql_events engine query data table_name)
  <-> success (execute_sql engine query data table_name) = true.
Proof.
  intros Hclose. unfold execute_sql_events, execute_sql.
  rewrite execute_sql_session_stages, Hclose.
  destruct (engine_connect engine); simpl; [split; [by intros [|[]]|done]|].
  destruct data as [|row data]; simpl.
  - destruct (engine_execute engine ∅ query) as [exc|out]; simpl;
      [split; [by intros [|[|[]]]|done]|].
    destruct (out_fetchall out); simpl; [split; [by intros [|[|[|[]]]]|done]|].
    split; [done|]. intros _. do 3 right. by left.
  - destruct (engine_register engine table_name (row :: data)); simpl;
      [split; [by intros [|[|[]]]|done]|].
    destruct (engine_execute engine _ query) as [exc|out]; simpl;
      [split; [by intros [|[|[|[]]]]|done]|].
    destruct (out_fetchall out); simpl;
      [split; [by intros [|[|[|[|[]]]]]|done]|].
    split; [done|]. intros _. do 4 right. by left.
Qed.

(** A successful call connects, registers the rows if there are any, runs
    the one query, fetches and closes, in this order. *)
Lemma successful_call_events (engine : Engine) (query : string)
    (data : list Row) (table_name : string) :
  success (execute_sql engine query data table_name) = true ->
  execute_sql_events engine query data table_name
  = (Connect :: register_events table_name data
     ++ [Execute query; Fetchall; Close])%list.
Proof.
  unfold execute_sql_events, execute_sql.
  rewrite execute_sql_session_stages.
  destruct (engine_connect engine); simpl; [done|].
  destruct (match data with [] => None | _ :: _ => _ end); simpl; [done|].
  destruct (engine_execute engine _ query) as [exc|out]; simpl; [done|].
  destruct (out_fetchall out); simpl; [done|].
  destruct (engine_close engine); simpl; done.
Qed.

(** C3.  The claim asks for the connection to be closed on every path.
    On a query over a relation that was never registered the call
    connects, runs the query, and returns the failure dictionary with the
    connection still open: [conn.close()] is the last statement of the
    [try] block and the [except] branch does not call it. *)
Theorem failed_query_leaves_connection_open :
  execute_sql_session toy_engine "SELECT id FROM nonexistent_table_xyz" [] "customers"
  = (failure_result
       "Catalog Error: Table with name nonexistent_table_xyz does not exist!",
     [Connect; Execute "SELECT id FROM nonexistent_table_xyz"])
  /\ ~ In Close
        (execute_sql_events toy_engine "SELECT id FROM nonexistent_table_xyz"
           [] "customers").
Proof.
  split; [vm_compute; reflexivity|].
  rewrite connection_closed_iff_success by done. vm_compute. discriminate.
Qed.

Lemma toy_messages_nonempty : messages_nonempty toy_engine.
Proof.
  unfold messages_nonempty, toy_engine. simpl.
  repeat split; try done.
  - intros rels query. unfold toy_execute. by repeat case_match.
  - intros rels query out. unfold toy_execute.
    repeat case_match; try done. by intros [= <-].
Qed.

(** A stage that raised refutes [stages_succeed]. *)
Local Ltac refute_stages :=
  split; [done|];
  intros (? & ? & ? & ? & ? & ? & ?); simplify_eq; congruence.

(** C7.  [execute_sql] always returns a dictionary.  It reports success
    exactly when no stage of the call raises; every failure, at whatever
    stage, gives [success] false, the text of the exception as [error]
    (non-empty, as the texts of the engine are), no rows, no columns and a
    row count of 0.  With an empty row list nothing is registered, so the
    query runs on an empty relation namespace and the exception the
    engine raises for it is the failure that is returned. *)
Theorem execute_sql_failure_is_structured (engine : Engine) (query : string)
    (data : list Row) (table_name : string) :
  messages_nonempty engine ->
  (success (execute_sql engine query data table_name) = true
   <-> stages_succeed engine query data table_name)
  /\ (success (execute_sql engine query data table_name) = false ->
      error (execute_sql engine query data table_name) <> ""
      /\ rows (execute_sql engine query data table_name) = []
      /\ columns (execute_sql engine query data table_name) = []
      /\ row_count (execute_sql engine query data table_name) = 0%Z)
  /\ (data = [] ->
      (forall name, ~ In (Register name)
                       (execute_sql_events engine query data table_name))
      /\ forall exc,
           engine_connect engine = None ->
           engine_execute engine ∅ query = inl exc ->
           execute_sql engine query data table_name = failure_result exc).
Proof.
  intros (Hconnect & Hregister & Hexecute & Hfetch & Hclose).
  unfold execute_sql, execute_sql_events, stages_succeed.
  rewrite execute_sql_session_stages.
  split; [|split].
  - destruct (engine_connect engine) as [exc|]; simpl; [refute_stages|].
    destruct data as [|row data]; simpl.
    + destruct (engine_execute engine ∅ query) as [exc|out] eqn:Hq;
        simpl; [refute_stages|].
      destruct (out_fetchall out) as [exc|rows_raw] eqn:Hf;
        simpl; [refute_stages|].
      destruct (engine_close engine) as [exc|]; simpl; [refute_stages|].
      split; [|done]. intros _. split; [done|]. split; [done|].
      by exists out, rows_raw.
    + destruct (engine_register engine table_name (row :: data)) as [exc|] eqn:Hr;
        simpl.
      { split; [done|]. intros (_ & Hr' & _). by specialize (Hr' ltac:(done)). }
      destruct (engine_execute engine _ query) as [exc|out] eqn:Hq;
        simpl; [refute_stages|].
      destruct (out_fetchall out) as [exc|rows_raw] eqn:Hf;
        simpl; [refute_stages|].
      destruct (engine_close engine) as [exc|]; simpl; [refute_stages|].
      split; [|done]. intros _. split; [done|]. split; [done|].
      by exists out, rows_raw.
  - destruct (engine_connect engine) as [exc|]; simpl.
    { intros _. repeat split; try done. by intros ->. }
    destruct data as [|row data]; simpl.
    + destruct (engine_execute engine ∅ query) as [exc|out] eqn:Hq; simpl.
      { intros _. repeat split; try done. intros ->. by eapply Hexecute. }
      destruct (out_fetchall out) as [exc|rows_raw] eqn:Hf; simpl.
      { intros _. repeat split; try done. intros ->. by eapply Hfetch. }
      destruct (engine_close engine) as [exc|]; simpl; [|done].
      intros _. repeat split; try done. by intros ->.
    + destruct (engine_register engine table_name (row :: data)) as [exc|] eqn:Hr;
        simpl.
      { intros _. repeat split; try done. intros ->. by eapply Hregister. }
      destruct (engine_execute engine _ query) as [exc|out] eqn:Hq; simpl.
      { intros _. repeat split; try done. intros ->. by eapply Hexecute. }
      destruct (out_fetchall out) as [exc|rows_raw] eqn:Hf; simpl.
      { intros _. repeat split; try done. intros ->. by eapply Hfetch. }
      destruct (engine_close engine) as [exc|]; simpl; [|done].
      intros _. repeat split; try done. by intros ->.
  - intros ->. simpl. split.
    + intros name.
      destruct (engine_connect engine); simpl; [by intros [|[]]|].
      destruct (engine_execute engine ∅ query) as [exc|out]; simpl;
        [by intros [|[|[]]]|].
      destruct (out_fetchall out); simpl; [by intros [|[|[|[]]]]|].
      destruct (engine_close engine); simpl; by intros [|[|[|[|[]]]]].
    + intros exc -> ->. done.
Qed.

Lemma execute_sql_failure_is_structured_witness :
  execute_sql toy_engine "SELECT id FROM customers" [] "customers"
  = failure_result "Catalog Error: Table with name customers does not exist!"
  /\ error (execute_sql toy_engine "SELECT id FROM customers" [] "customers") <> ""
  /\ ~ In (Register "customers")
        (execute_sql_events toy_engine "SELECT id FROM customers" [] "customers").
Proof.
  destruct (execute_sql_failure_is_structured toy_engine
              "SELECT id FROM customers" [] "customers" toy_messages_nonempty)
    as (_ & Hshape & Hempty).
  destruct (Hempty eq_refl) as [Hreg Hfail].
  split; [apply Hfail; reflexivity|].
  split; [apply Hshape; reflexivity | apply Hreg].
Defined.

(** *** Assertions and the validation report *)

Lemma count_where_app {A} (f : A -> bool) (l1 l2 : list A) :
  count_where f (l1 ++ l2) = count_where f l1 + count_where f l2.
Proof. induction l1 as [|x l1 IH]; simpl; [done|]. rewrite IH. lia. Qed.

Lemma count_where_le {A} (f : A -> bool) (l : list A) :
  count_where f l <= length l.
Proof. induction l as [|x l IH]; simpl; [done|]. destruct (f x); lia. Qed.

(** All elements are counted exactly when all of them satisfy the test. *)
Lemma count_where_all {A} (f : A -> bool) (l : list A) :
  count_where f l = length l <-> forall x, In x l -> f x = true.
Proof.
  induction l as [|x l IH]; simpl; [naive_solver|].
  pose proof (count_where_le f l) as Hle.
  destruct (f x) eqn:Hx; split.
  - intros Hc y [<-|Hy]; [done|]. apply IH; [lia|done].
  - intros Hall. f_equal. apply IH. intros y Hy. apply Hall. by right.
  - lia.
  - intros Hall. specialize (Hall x (or_introl eq_refl)). congruence.
Qed.

Lemma count_where_map {A B} (f : B -> bool) (g : A -> B) (l : list A) :
  count_where f (map g l) = count_where (fun x => f (g x)) l.
Proof. induction l as [|x l IH]; simpl; [done|]. by rewrite IH. Qed.

(** The loop over the columns appends the results of each column, in
    column order. *)
Lemma validate_columns_results (rows : list Row) (cols : list Column) :
  forall (all_results : list AssertionResult) (report : gmap string ColumnReport),
    fst (validate_columns rows cols all_results report)
    = (all_results ++ flat_map (column_results rows) cols)%list.
Proof.
  induction cols as [|col cols IH]; intros all_results report;
    cbn [validate_columns flat_map fst].
  - by rewrite app_nil_r.
  - by rewrite IH, app_assoc.
Qed.

Lemma flat_map_column_results (rows : list Row) (cols : list Column) :
  flat_map (column_results rows) cols
  = map (fun a => run_assertion a rows) (flat_map generate_assertions cols).
Proof.
  induction cols as [|col cols IH]; cbn [flat_map map]; [done|].
  by rewrite map_app, IH.
Qed.

(** The results of a validation are the derived assertions, each run on
    the rows of the execution step. *)
Lemma table_results_run (engine : Engine) (table_spec : TableSpec)
    (compiled_sql : string) (synthetic_data : list Row) :
  table_results engine table_spec compiled_sql synthetic_data
  = map (fun a =>
           run_assertion a
             (rows (execute_sql engine compiled_sql synthetic_data
                      (table_name table_spec))))
      (table_assertions table_spec).
Proof.
  unfold table_results, table_assertions.
  by rewrite validate_columns_results, flat_map_column_results.
Qed.

(** The fields of the report, in terms of the results. *)
Lemma report_of_fields (exec_result : ExecResult) (table_spec : TableSpec) :
  let results :=
    fst (validate_columns (rows exec_result) (table_columns table_spec) [] ∅) in
  passed (report_of exec_result table_spec)
  = (Z.of_nat (count_where a_passed results) =? Z.of_nat (length results))%Z
    && (0 <? Z.of_nat (length results))%Z
  /\ total_assertions (report_of exec_result table_spec)
     = Z.of_nat (length results)
  /\ passed_count (report_of exec_result table_spec)
     = Z.of_nat (count_where a_passed results)
  /\ execution (report_of exec_result table_spec)
     = {| exec_success := success exec_result;
          exec_row_count := row_count exec_result;
          exec_error := error exec_result |}.
Proof.
  unfold report_of.
  by destruct (validate_columns _ _ _ _) as [all_results report].
Qed.

(** The pass flag of the report, in terms of the derived assertions. *)
Lemma validate_table_passed (engine : Engine)
    (table_spec : TableSpec) (compiled_sql : string)
    (synthetic_data : list Row) :
  passed (validate_table engine table_spec compiled_sql synthetic_data) = true
  <-> table_assertions table_spec <> []
      /\ forall a : Assertion,
           In a (table_assertions table_spec) ->
           a_passed
             (run_assertion a
                (rows (execute_sql engine compiled_sql synthetic_data
                         (table_name table_spec)))) = true.
Proof.
  unfold validate_table.
  destruct (report_of_fields
              (execute_sql engine compiled_sql synthetic_data (table_name table_spec))
              table_spec) as (Hpassed & _).
  fold (table_results engine table_spec compiled_sql synthetic_data) in Hpassed.
  rewrite table_results_run, length_map, count_where_map in Hpassed.
  rewrite Hpassed, andb_true_iff, Z.eqb_eq, Z.ltb_lt, Nat2Z.inj_iff.
  rewrite count_where_all.
  split.
  - intros [Hall Hpos]. split; [|done].
    intros Hnil. rewrite Hnil in Hpos. simpl in Hpos. lia.
  - intros [Hne Hall]. split; [done|].
    destruct (table_assertions table_spec); [done|]. simpl. lia.
Qed.

(** The row-count assertion of a column asks for one row. *)
Lemma generated_row_count_min (column : Column) (min : Z) (description : string) :
  In (RowCountGte min description) (generate_assertions column) -> min = 1%Z.
Proof.
  unfold generate_assertions.
  destruct (nullable column), (PyStr.truthy (type_cast (transformations column))),
    (regex_enabled (regex (transformations column))); simpl;
    (intros [H|H]; [by inversion H|]);
    repeat (destruct H as [H|H]; [discriminate|]); done.
Qed.

(** C8.  The report passes exactly when at least one assertion was
    derived for the table and every derived assertion passes on the rows
    of the execution step; the execution entry of the report is the
    success flag, the row count and the error text of that step, whatever
    the assertions give; the total is the number of derived assertions. *)
Theorem report_passed_iff_all_assertions_pass (engine : Engine)
    (table_spec : TableSpec) (compiled_sql : string)
    (synthetic_data : list Row) :
  (passed (validate_table engine table_spec compiled_sql synthetic_data) = true
   <-> table_assertions table_spec <> []
       /\ forall a : Assertion,
            In a (table_assertions table_spec) ->
            a_passed
              (run_assertion a
                 (rows (execute_sql engine compiled_sql synthetic_data
                          (table_name table_spec)))) = true)
  /\ execution (validate_table engine table_spec compiled_sql synthetic_data)
     = {| exec_success :=
            success (execute_sql engine compiled_sql synthetic_data
                       (table_name table_spec));
          exec_row_count :=
            row_count (execute_sql engine compiled_sql synthetic_data
                         (table_name table_spec));
          exec_error :=
            error (execute_sql engine compiled_sql synthetic_data
                     (table_name table_spec)) |}
  /\ total_assertions (validate_table engine table_spec compiled_sql synthetic_data)
     = Z.of_nat (length (table_assertions table_spec)).
Proof.
  split; [apply validate_table_passed|].
  unfold validate_table.
  destruct (report_of_fields
              (execute_sql engine compiled_sql synthetic_data (table_name table_spec))
              table_spec) as (_ & Htotal & _ & Hexec).
  fold (table_results engine table_spec compiled_sql synthetic_data) in Htotal.
  rewrite table_results_run, length_map in Htotal.
  done.
Qed.

(** C4, as stated, fails: a table of two columns derives two row-count
    assertions, one for each column, not one for the table, and the
    validation runs both. *)
Lemma two_columns_two_row_count_assertions :
  count_type "row_count_gte" (table_assertions two_column_table) = 2
  /\ count_type "row_count_gte" (table_assertions two_column_table) <> 1
  /\ map a_type
       (table_results toy_engine two_column_table "SELECT id FROM test_table"
          three_rows)
     = ["row_count_gte"; "not_null"; "row_count_gte"].
Proof. split; [reflexivity|]. split; [discriminate | vm_compute; reflexivity]. Qed.

(** C4, as the code has it.  The assertions derived from one column hold
    exactly one row-count assertion, of minimum 1, a [not_null] assertion
    exactly when the column is not nullable, a [type_check] assertion
    exactly when a type cast is configured and a [no_error] assertion
    exactly when the regex is enabled; a table derives one row-count
    assertion for each of its columns. *)
Theorem assertions_of_a_column (column : Column) (table_spec : TableSpec) :
  count_type "row_count_gte" (generate_assertions column) = 1
  /\ (forall min description,
        In (RowCountGte min description) (generate_assertions column) ->
        min = 1%Z)
  /\ count_type "not_null" (generate_assertions column)
     = (if nullable column then 0 else 1)
  /\ count_type "type_check" (generate_assertions column)
     = (if PyStr.truthy (type_cast (transformations column)) then 1 else 0)
  /\ count_type "no_error" (generate_assertions column)
     = (if regex_enabled (regex (transformations column)) then 1 else 0)
  /\ count_type "row_count_gte" (table_assertions table_spec)
     = length (table_columns table_spec).
Proof.
  assert (Hone : forall c, count_type "row_count_gte" (generate_assertions c) = 1).
  { intros c. unfold generate_assertions, count_type.
    by destruct (nullable c), (PyStr.truthy (type_cast (transformations c))),
      (regex_enabled (regex (transformations c))). }
  split; [apply Hone|].
  split; [|split; [|split; [|split]]].
  - intros min description. apply generated_row_count_min.
  - unfold generate_assertions, count_type.
    by destruct (nullable column), (PyStr.truthy (type_cast (transformations column))),
      (regex_enabled (regex (transformations column))).
  - unfold generate_assertions, count_type.
    by destruct (nullable column), (PyStr.truthy (type_cast (transformations column))),
      (regex_enabled (regex (transformations column))).
  - unfold generate_assertions, count_type.
    by destruct (nullable column), (PyStr.truthy (type_cast (transformations column))),
      (regex_enabled (regex (transformations column))).
  - unfold table_assertions, count_type.
    induction (table_columns table_spec) as [|c cols IH]; [done|].
    cbn [flat_map length]. rewrite count_where_app, IH.
    fold (count_type "row_count_gte" (generate_assertions c)).
    by rewrite Hone.
Qed.

(** C10, as the code has it.  When the compiled SQL fails to execute on a
    table with at least one column, the validation still runs every derived
    assertion, on an empty list of rows: each row-count assertion fails,
    each [not_null], [type_check] and [no_error] assertion is reported as
    passed, and the report as a whole does not pass.  Every column that is
    not nullable, has a type cast or has its regex enabled then contributes
    a result that reads passed; a table whose columns are all nullable,
    without cast and without regex, has no such result. *)
Theorem failed_execution_still_runs_assertions (engine : Engine)
    (table_spec : TableSpec) (compiled_sql : string)
    (synthetic_data : list Row) :
  table_columns table_spec <> [] ->
  success (execute_sql engine compiled_sql synthetic_data (table_name table_spec))
  = false ->
  table_results engine table_spec compiled_sql synthetic_data
  = map (fun a => run_assertion a []) (table_assertions table_spec)
  /\ (forall min description,
        In (RowCountGte min description) (table_assertions table_spec) ->
        a_passed (run_assertion (RowCountGte min description) []) = false)
  /\ (forall col description,
        In (NotNull col description) (table_assertions table_spec) ->
        a_passed (run_assertion (NotNull col description) []) = true)
  /\ (forall col expected description,
        In (TypeCheck col expected description) (table_assertions table_spec) ->
        a_passed (run_assertion (TypeCheck col expected description) []) = true)
  /\ (forall col description,
        In (NoError col description) (table_assertions table_spec) ->
        a_passed (run_assertion (NoError col description) []) = true)
  /\ passed (validate_table engine table_spec compiled_sql synthetic_data) = false
  /\ (forall column,
        In column (table_columns table_spec) ->
        nullable column = false
        \/ PyStr.truthy (type_cast (transformations column)) = true
        \/ regex_enabled (regex (transformations column)) = true ->
        exists r : AssertionResult,
          In r (table_results engine table_spec compiled_sql synthetic_data)
          /\ a_passed r = true)
  /\ ((forall column,
         In column (table_columns table_spec) ->
         nullable column = true
         /\ PyStr.truthy (type_cast (transformations column)) = false
         /\ regex_enabled (regex (transformations column)) = false) ->
      forall r : AssertionResult,
        In r (table_results engine table_spec compiled_sql synthetic_data) ->
        a_passed r = false).
Proof.
  intros Hcols Hfail.
  destruct (execute_sql_failure_shape _ _ _ _ Hfail) as [exc Hexc].
  assert (Hrows : rows (execute_sql engine compiled_sql synthetic_data
                          (table_name table_spec)) = [])
    by (by rewrite Hexc).
  assert (Hresults :
    table_results engine table_spec compiled_sql synthetic_data
    = map (fun a => run_assertion a []) (table_assertions table_spec))
    by (by rewrite table_results_run, Hrows).
  assert (Hrow_count : forall min description,
    In (RowCountGte min description) (table_assertions table_spec) ->
    a_passed (run_assertion (RowCountGte min description) []) = false).
  { intros min description (c & _ & Hin)%in_flat_map.
    by rewrite (generated_row_count_min _ _ _ Hin). }
  split; [done|]. split; [done|]. do 3 (split; [done|]). split; [|split].
  - apply not_true_iff_false. rewrite validate_table_passed, Hrows.
    intros [_ Hall].
    destruct (table_columns table_spec) as [|c cols] eqn:Hc; [done|].
    assert (Hin : In (RowCountGte 1 "output has at least 1 row")
                    (table_assertions table_spec)).
    { unfold table_assertions. rewrite Hc. cbn [flat_map].
      apply in_app_iff. left. unfold generate_assertions. by left. }
    specialize (Hall _ Hin). by rewrite (Hrow_count _ _ Hin) in Hall.
  - intros column Hin Hsome. rewrite Hresults.
    assert (Hex : exists a, In a (generate_assertions column)
                            /\ a_passed (run_assertion a []) = true).
    { unfold generate_assertions.
      destruct Hsome as [Hn|[Ht|Hr]].
      - exists (NotNull (name column) (name column +:+ " has no nulls")).
        split; [|done]. rewrite Hn.
        apply in_app_iff. right. apply in_app_iff. left. by left.
      - exists (TypeCheck (name column) (type_cast (transformations column))
                  (name column +:+ " cast to "
                   +:+ type_cast (transformations column))).
        split; [|done]. rewrite Ht.
        apply in_app_iff. right. apply in_app_iff. right.
        apply in_app_iff. left. by left.
      - exists (NoError (name column) "regex applied without errors").
        split; [|done]. rewrite Hr.
        apply in_app_iff. right. apply in_app_iff. right.
        apply in_app_iff. right. by left. }
    destruct Hex as (a & Ha & Hp).
    exists (run_assertion a []). split; [|done].
    apply in_map_iff. exists a. split; [done|].
    apply in_flat_map. by exists column.
  - intros Hplain r. rewrite Hresults.
    intros (a & <- & (column & Hcolumn & Ha)%in_flat_map)%in_map_iff.
    destruct (Hplain column Hcolumn) as (Hn & Ht & Hr).
    unfold generate_assertions in Ha. rewrite Hn, Ht, Hr in Ha.
    by destruct Ha as [<-|[]].
Qed.

Lemma failed_execution_still_runs_assertions_witness :
  passed (validate_table toy_engine two_column_table
            "SELECT id FROM test_table" []) = false
  /\ exists r : AssertionResult,
       In r (table_results toy_engine two_column_table
               "SELECT id FROM test_table" [])
       /\ a_passed r = true.
Proof.
  destruct (failed_execution_still_runs_assertions toy_engine two_column_table
              "SELECT id FROM test_table" [] ltac:(discriminate) eq_refl)
    as (_ & _ & _ & _ & _ & Hpassed & Hsome & _).
  split; [exact Hpassed|].
  apply (Hsome (plain_column "id" false)); [by left | by left].
Defined.

(** C10, as stated, fails: on a table of one nullable column without cast
    or regex a failed execution leaves one result, the failed row-count
    assertion, so that no result reads passed; and this whatever the engine
    is and whatever made the execution fail. *)
Lemma nullable_table_has_no_passed_result :
  length (table_columns nullable_table) = 1
  /\ success (execute_sql toy_engine "SELECT id FROM test_table" []
                (table_name nullable_table)) = false
  /\ map (fun r => (a_type r, a_passed r))
       (table_results toy_engine nullable_table "SELECT id FROM test_table" [])
     = [("row_count_gte", false)]
  /\ forall (engine : Engine) (compiled_sql : string)
            (synthetic_data : list Row),
       success (execute_sql engine compiled_sql synthetic_data
                  (table_name nullable_table)) = false ->
       map a_passed
         (table_results engine nullable_table compiled_sql synthetic_data)
       = [false].
Proof.
  split; [done|]. split; [done|]. split; [by vm_compute|].
  intros engine compiled_sql synthetic_data Hfail.
  destruct (execute_sql_failure_shape _ _ _ _ Hfail) as [exc Hexc].
  rewrite table_results_run, Hexc. reflexivity.
Qed.

Example validate_with_nulls :
  let report :=
    validate_table toy_engine two_column_table "SELECT id FROM test_table"
      three_rows in
  passed report = false
  /\ total_assertions report = 3%Z
  /\ passed_count report = 2%Z
  /\ execution report
     = {| exec_success := true; exec_row_count := 3; exec_error := "" |}.
Proof. vm_compute. done. Qed.

Example validate_null_count_detail :
  map a_detail
    (table_results toy_engine two_column_table "SELECT id FROM test_table"
       three_rows)
  = [""; "1 null(s) found in 'id'"; ""].
Proof. vm_compute. reflexivity. Qed.

End ExecutorFacts.

(* ===================================================================== *)
(** ** More on the column expression compiler *)
(* ===================================================================== *)

Module CompilerMoreFacts.
Import Compiler.

Section Steps.

Variable TEMPLATES : gmap string (gmap string string).
Variable column : Column.
Variable target dialect : string.

(** A step that is inactive, or whose template is absent or a warning
    marker, changes the warnings only. *)
Lemma run_step_without_pattern (step : string) (st : CompileState) :
  (forall key extra,
      step_call (transformations column) step = Some (key, extra) ->
      real_pattern (lookup_template TEMPLATES key (tgt_dialect target dialect))
      = false) ->
  run_step TEMPLATES column target dialect step st
  = Some {| expr := expr st; pyspark_applied := pyspark_applied st;
            warnings_so_far :=
              warnings_so_far st
              ++ step_warnings TEMPLATES column target dialect step |}.
Proof.
  intros Hno. unfold run_step, step_warnings.
  destruct (step_call (transformations column) step) as [[key extra]|] eqn:Hcall.
  - specialize (Hno key extra eq_refl).
    destruct (CompilerFacts.template_cases
                (lookup_template TEMPLATES key (tgt_dialect target dialect)))
      as [Ha|[Hw|Hr]]; [| |congruence].
    + rewrite CompilerFacts.apply_absent by done.
      unfold is_warning. rewrite Ha. simpl. rewrite app_nil_r. by destruct st.
    + rewrite CompilerFacts.apply_warning by done. by rewrite Hw.
  - rewrite app_nil_r. by destruct st.
Qed.

Lemma run_steps_without_pattern (order : list string) :
  forall st : CompileState,
    (forall step key extra,
        In step order ->
        step_call (transformations column) step = Some (key, extra) ->
        real_pattern (lookup_template TEMPLATES key (tgt_dialect target dialect))
        = false) ->
    run_steps TEMPLATES column target dialect order st
    = Some {| expr := expr st; pyspark_applied := pyspark_applied st;
              warnings_so_far :=
                warnings_so_far st
                ++ flat_map (step_warnings TEMPLATES column target dialect) order |}.
Proof.
  induction order as [|step order IH]; intros st Hno.
  - simpl. rewrite app_nil_r. by destruct st.
  - cbn [run_steps flat_map].
    rewrite run_step_without_pattern by (intros; eapply Hno; [by left|done]).
    cbn [mbind option_bind]. rewrite IH by (intros; eapply Hno; [by right|done]).
    simpl. by rewrite <- app_assoc.
Qed.

End Steps.

(** X1.  When no active step of a column without custom expression has a
    real pattern in the dialect (each template is absent, empty or a
    warning marker), compilation cannot fail: the expression is the bare
    column reference and the warnings are the messages of the markers, in
    step order.  An absent template contributes nothing. *)
Theorem column_without_patterns_keeps_reference
    (TEMPLATES : gmap string (gmap string string))
    (column : Column) (target dialect : string) :
  custom_expression_set (transformations column) = false ->
  (forall step key extra,
      step_call (transformations column) step = Some (key, extra) ->
      real_pattern (lookup_template TEMPLATES key (tgt_dialect target dialect))
      = false) ->
  compile_column TEMPLATES column target dialect
  = Some (mkCompiledColumn (name column) (initial_expr column target) (name column)
            (flat_map (step_warnings TEMPLATES column target dialect)
               TRANSFORM_ORDER)
            target dialect).
Proof.
  intros Hcustom Hno. unfold compile_column. rewrite Hcustom.
  rewrite run_steps_without_pattern by (intros; by eapply Hno).
  done.
Qed.

Lemma strip_and_regex_no_pattern_tsql :
  forall step key extra,
    step_call strip_and_regex step = Some (key, extra) ->
    real_pattern (lookup_template sample_templates key "tsql") = false.
Proof.
  intros step key extra. unfold step_call. simpl.
  repeat case_match; try done; by intros [= <- <-].
Qed.

Lemma column_without_patterns_keeps_reference_witness :
  compile_column sample_templates
    (with_transformations "phone" strip_and_regex) "sql" "tsql"
  = Some (mkCompiledColumn "phone" "phone" "phone"
            ["regex replace is not supported in T-SQL"] "sql" "tsql").
Proof.
  apply (column_without_patterns_keeps_reference sample_templates
           (with_transformations "phone" strip_and_regex) "sql" "tsql"
           eq_refl strip_and_regex_no_pattern_tsql).
Defined.

(** [_apply] reads the target and the dialect through the test
    [target == "pyspark"] and the effective dialect only. *)
Lemma apply_effective_dialect
    (TEMPLATES : gmap string (gmap string string)) (column : Column)
    (target1 dialect1 target2 dialect2 key : string)
    (extra : gmap string string) (st : CompileState) :
  String.eqb target1 "pyspark" = String.eqb target2 "pyspark" ->
  tgt_dialect target1 dialect1 = tgt_dialect target2 dialect2 ->
  _apply TEMPLATES column target1 dialect1 key extra st
  = _apply TEMPLATES column target2 dialect2 key extra st.
Proof. intros Ht Hd. unfold _apply. by rewrite Ht, Hd. Qed.

Lemma run_steps_effective_dialect
    (TEMPLATES : gmap string (gmap string string)) (column : Column)
    (target1 dialect1 target2 dialect2 : string) (order : list string) :
  String.eqb target1 "pyspark" = String.eqb target2 "pyspark" ->
  tgt_dialect target1 dialect1 = tgt_dialect target2 dialect2 ->
  forall st : CompileState,
    run_steps TEMPLATES column target1 dialect1 order st
    = run_steps TEMPLATES column target2 dialect2 order st.
Proof.
  intros Ht Hd. induction order as [|step order IH]; intros st; [done|].
  cbn [run_steps]. unfold run_step.
  destruct (step_call (transformations column) step) as [[key extra]|].
  - rewrite (apply_effective_dialect _ _ _ _ _ _ _ _ _ Ht Hd).
    destruct (_apply _ _ _ _ _ _ _); simpl; [apply IH|done].
  - simpl. apply IH.
Qed.

(** X2.  The expression and the warnings of a compiled column depend on
    the target only through the test [target == "pyspark"], and on the
    dialect only through the effective dialect.  For the dataframe target
    the dialect the caller passes is ignored; any two targets other than
    ["pyspark"] compile alike. *)
Theorem compile_column_effective_dialect
    (TEMPLATES : gmap string (gmap string string)) (column : Column)
    (target1 dialect1 target2 dialect2 : string) :
  String.eqb target1 "pyspark" = String.eqb target2 "pyspark" ->
  tgt_dialect target1 dialect1 = tgt_dialect target2 dialect2 ->
  expression <$> compile_column TEMPLATES column target1 dialect1
  = expression <$> compile_column TEMPLATES column target2 dialect2
  /\ warnings <$> compile_column TEMPLATES column target1 dialect1
     = warnings <$> compile_column TEMPLATES column target2 dialect2.
Proof.
  intros Ht Hd. unfold compile_column.
  destruct (custom_expression_set (transformations column)); [done|].
  unfold initial_state, initial_expr.
  rewrite (run_steps_effective_dialect _ _ _ _ _ _ _ Ht Hd), Ht.
  by destruct (run_steps _ _ _ _ _ _).
Qed.

Lemma compile_column_effective_dialect_witness :
  expression <$> compile_column sample_templates
                   (with_transformations "col_a" trim_upper) "pyspark" "tsql"
  = expression <$> compile_column sample_templates
                     (with_transformations "col_a" trim_upper) "pyspark" "ansi"
  /\ expression <$> compile_column sample_templates
                      (with_transformations "col_a" trim_upper) "dbt" "ansi"
     = expression <$> compile_column sample_templates
                        (with_transformations "col_a" trim_upper) "sql" "ansi".
Proof.
  split.
  - apply (compile_column_effective_dialect sample_templates
             (with_transformations "col_a" trim_upper)
             "pyspark" "tsql" "pyspark" "ansi" eq_refl eq_refl).
  - apply (compile_column_effective_dialect sample_templates
             (with_transformations "col_a" trim_upper)
             "dbt" "ansi" "sql" "ansi" eq_refl eq_refl).
Defined.

(** A field whose name is no keyword makes the formatting fail. *)
Lemma format_from_missing_field (kw : gmap string string) (x : string) :
  kw !! x = None ->
  forall (s : string) (mode : PyStr.Mode),
    PyStr.mentions_from x s mode = true ->
    PyStr.format_from kw s mode = None.
Proof.
  intros Hx. induction s as [|c s IH]; intros mode; [done|].
  assert (Hfield : forall name,
    (if Ascii.eqb c PyStr.rbrace
     then String.eqb name x || PyStr.mentions_from x s PyStr.Text
     else if Ascii.eqb c PyStr.lbrace || PyStr.compound_field_char c then false
     else PyStr.mentions_from x s (PyStr.Field (name +:+ String c EmptyString)))
    = true ->
    (if Ascii.eqb c PyStr.rbrace then
       match kw !! name with
       | Some v => String.append v <$> PyStr.format_from kw s PyStr.Text
       | None => None
       end
     else if Ascii.eqb c PyStr.lbrace || PyStr.compound_field_char c then None
     else PyStr.format_from kw s (PyStr.Field (name +:+ String c EmptyString)))
    = None).
  { intros name. destruct (Ascii.eqb c PyStr.rbrace).
    - intros [Hn|Hm]%orb_true_iff.
      + apply String.eqb_eq in Hn as ->. by rewrite Hx.
      + rewrite (IH _ Hm). by destruct (kw !! name).
    - destruct (Ascii.eqb c PyStr.lbrace || PyStr.compound_field_char c); [done|].
      apply IH. }
  simpl. destruct mode as [| | |name].
  - destruct (Ascii.eqb c PyStr.lbrace); [apply IH|].
    destruct (Ascii.eqb c PyStr.rbrace); [apply IH|].
    intros Hm. by rewrite (IH _ Hm).
  - destruct (Ascii.eqb c PyStr.lbrace); [|exact (Hfield EmptyString)].
    intros Hm. by rewrite (IH _ Hm).
  - destruct (Ascii.eqb c PyStr.rbrace); [|done].
    intros Hm. by rewrite (IH _ Hm).
  - apply Hfield.
Qed.

(** A step that raises makes the loop raise, wherever it stands in the
    order. *)
Lemma run_steps_raise (TEMPLATES : gmap string (gmap string string))
    (column : Column) (target dialect step : string) (order : list string) :
  In step order ->
  (forall st, run_step TEMPLATES column target dialect step st = None) ->
  forall st, run_steps TEMPLATES column target dialect order st = None.
Proof.
  intros Hin Hraise. induction order as [|s order IH]; intros st; [done|].
  cbn [run_steps]. destruct Hin as [->|Hin].
  - by rewrite Hraise.
  - destruct (run_step TEMPLATES column target dialect s st); simpl; [|done].
    by apply IH.
Qed.

(** X17.  A slip in a template is a hard failure, not a warning: when an
    active step of a column without custom expression has, on a
    non-dataframe target, a real pattern that names a placeholder the step
    does not supply (neither [col] nor one of its own parameters),
    [str.format] raises and so does [compile_column]. *)
Theorem unsupplied_placeholder_raises
    (TEMPLATES : gmap string (gmap string string)) (column : Column)
    (target dialect step key placeholder : string)
    (extra : gmap string string) :
  target <> "pyspark" ->
  custom_expression_set (transformations column) = false ->
  In step TRANSFORM_ORDER ->
  step_call (transformations column) step = Some (key, extra) ->
  real_pattern (lookup_template TEMPLATES key dialect) = true ->
  PyStr.mentions placeholder (lookup_template TEMPLATES key dialect) = true ->
  placeholder <> "col" ->
  extra !! placeholder = None ->
  compile_column TEMPLATES column target dialect = None.
Proof.
  intros Hsql%String.eqb_neq Hcustom Hin Hcall Hreal Hmentions Hcol Hextra.
  assert (Hd : tgt_dialect target dialect = dialect)
    by (unfold tgt_dialect; by rewrite Hsql).
  unfold compile_column. rewrite Hcustom.
  rewrite (run_steps_raise _ _ _ _ step); [done|done|].
  intros st. unfold run_step. rewrite Hcall.
  rewrite CompilerFacts.apply_real_sql by (by rewrite ?Hd).
  rewrite Hd. unfold PyStr.format.
  rewrite (format_from_missing_field _ placeholder); [done| |done].
  by rewrite lookup_insert_ne.
Qed.

Lemma unsupplied_placeholder_raises_witness :
  compile_column misspelt_templates
    (with_transformations "col_a" trim_upper) "sql" "ansi" = None.
Proof.
  apply (unsupplied_placeholder_raises misspelt_templates
           (with_transformations "col_a" trim_upper) "sql" "ansi"
           "trim" "trim" "column" ∅);
    first [discriminate | reflexivity | by left].
Defined.

(** X18.  A custom expression that is the empty string is no custom
    expression: the column compiles as it does without one, through the
    steps. *)
Theorem empty_custom_expression_is_ignored
    (TEMPLATES : gmap string (gmap string string)) (column : Column)
    (target dialect : string) :
  custom_expression (transformations column) = Some "" ->
  compile_column TEMPLATES column target dialect
  = compile_column TEMPLATES (without_custom_expression column) target dialect.
Proof.
  intros Hempty. unfold compile_column, custom_expression_set.
  rewrite Hempty. simpl PyStr.truthy. cbv iota.
  assert (Hsteps : forall order st,
    run_steps TEMPLATES column target dialect order st
    = run_steps TEMPLATES (without_custom_expression column) target dialect order st).
  { induction order as [|step order IH]; intros st; [done|].
    cbn [run_steps].
    replace (run_step TEMPLATES (without_custom_expression column) target dialect
               step st)
      with (run_step TEMPLATES column target dialect step st) by done.
    destruct (run_step TEMPLATES column target dialect step st); simpl;
      [apply IH|done]. }
  by rewrite Hsteps.
Qed.

Lemma empty_custom_expression_is_ignored_witness :
  compile_column sample_templates
    (with_transformations "col_a" empty_custom_with_trim) "sql" "ansi"
  = compile_column sample_templates
      (without_custom_expression
         (with_transformations "col_a" empty_custom_with_trim)) "sql" "ansi".
Proof.
  apply (empty_custom_expression_is_ignored sample_templates
           (with_transformations "col_a" empty_custom_with_trim) "sql" "ansi"
           eq_refl).
Defined.

Example empty_custom_expression_compiles_steps :
  expression <$> compile_column sample_templates
                   (with_transformations "col_a" empty_custom_with_trim)
                   "sql" "ansi"
  = Some "TRIM(col_a)".
Proof. vm_compute. reflexivity. Qed.

End CompilerMoreFacts.

(* ===================================================================== *)
(** ** The dataframe target: how later steps chain *)
(* ===================================================================== *)

Module PysparkFacts.
Import PyStr Compiler.

Lemma brace_free_app (a b : string) :
  brace_free (a +:+ b) = brace_free a && brace_free b.
Proof.
  induction a as [|c a IH]; [done|].
  rewrite PyStrFacts.append_cons. simpl. rewrite IH.
  by rewrite !andb_assoc.
Qed.

(** Text without braces is its own formatting. *)
Lemma format_brace_free (kw : gmap string string) (s : string) :
  brace_free s = true -> format s kw = Some s.
Proof.
  intros Hfree. unfold format.
  rewrite <- (PyStrFacts.append_empty_r s) at 1.
  rewrite PyStrFacts.format_from_literal by done. simpl.
  by rewrite PyStrFacts.append_empty_r.
Qed.

Lemma prefix_get (p : string) : forall (s : string) (n : nat) (c : ascii),
  String.prefix p s = true -> String.get n p = Some c -> String.get n s = Some c.
Proof.
  induction p as [|x p IH]; intros s n c; [done|].
  destruct s as [|y s]; [done|]. simpl.
  destruct (ascii_dec x y) as [->|]; [|done].
  destruct n as [|n]; [done|]. apply IH.
Qed.

Lemma brace_free_get (s : string) : forall n : nat,
  brace_free s = true -> String.get n s <> Some lbrace.
Proof.
  induction s as [|c s IH]; intros n; [done|]. simpl.
  intros [[Hl _]%andb_true_iff Hfree]%andb_true_iff.
  destruct n as [|n]; [|by apply IH].
  intros [= ->]. by rewrite Ascii.eqb_refl in Hl.
Qed.

(** The column pattern starts at no position of text without braces. *)
Lemma pattern_not_in_brace_free (s : string) :
  brace_free s = true -> String.prefix _PYSPARK_COL_PATTERN s = false.
Proof.
  intros Hfree. apply not_true_is_false. intros Hp.
  by apply (brace_free_get s 7 Hfree), (prefix_get _ _ _ _ Hp).
Qed.

Lemma replace_from_hit (old new : string) (c : ascii) (r : string) :
  String.prefix old (String c r) = true ->
  replace_from old new 0 (String c r)
  = new +:+ replace_from old new (String.length old - 1) r.
Proof. intros H. cbn [replace_from]. by rewrite H. Qed.

Lemma replace_from_miss (old new : string) (c : ascii) (r : string) :
  String.prefix old (String c r) = false ->
  replace_from old new 0 (String c r) = String c (replace_from old new 0 r).
Proof. intros H. cbn [replace_from]. by rewrite H. Qed.

Lemma replace_from_skip (old new : string) (k : nat) (c : ascii) (r : string) :
  replace_from old new (S k) (String c r) = replace_from old new k r.
Proof. reflexivity. Qed.

Lemma replace_brace_free (s new : string) :
  brace_free s = true -> replace s _PYSPARK_COL_PATTERN new = s.
Proof.
  unfold replace. induction s as [|c s IH]; [done|].
  intros Hfree.
  rewrite replace_from_miss by by apply pattern_not_in_brace_free.
  simpl in Hfree. apply andb_true_iff in Hfree as [_ Hfree].
  by rewrite IH.
Qed.

(** Nor does it start inside text without braces that the pattern follows:
    its eighth character is the opening brace, and the seven before it are
    none. *)
Lemma pattern_not_before_pattern (c : ascii) (pre rest : string) :
  brace_free (String c pre) = true ->
  String.prefix _PYSPARK_COL_PATTERN
    (String c pre +:+ _PYSPARK_COL_PATTERN +:+ rest) = false.
Proof.
  intros Hfree. apply not_true_is_false. intros Hp.
  pose proof (prefix_get _ _ 7 lbrace Hp eq_refl) as Hget.
  destruct (decide (7 < String.length (String c pre))) as [Hlt|Hge].
  - rewrite <- append_correct1 in Hget by done.
    by apply (brace_free_get _ 7 Hfree).
  - assert (Hlen : exists k, 7 = k + String.length (String c pre) /\ k < 7).
    { exists (7 - String.length (String c pre)). simpl in *. lia. }
    destruct Hlen as (k & Hk & Hk7). rewrite Hk in Hget.
    rewrite <- append_correct2 in Hget.
    rewrite <- append_correct1 in Hget by (simpl; lia).
    do 7 (destruct k as [|k]; [done|]). lia.
Qed.

(** In a template that is text, the column pattern and text, the pattern
    is the one thing replaced. *)
Lemma replace_single_pattern (pre suf new : string) :
  brace_free pre = true ->
  brace_free suf = true ->
  replace (pre +:+ _PYSPARK_COL_PATTERN +:+ suf) _PYSPARK_COL_PATTERN new
  = pre +:+ new +:+ suf.
Proof.
  intros Hpre Hsuf. unfold replace.
  induction pre as [|c pre IH].
  - rewrite !PyStrFacts.append_empty_l.
    pose proof (replace_brace_free suf new Hsuf) as Hrest. unfold replace in Hrest.
    unfold _PYSPARK_COL_PATTERN at 2.
    rewrite !PyStrFacts.append_cons, PyStrFacts.append_empty_l.
    rewrite replace_from_hit by (destruct suf; vm_compute; reflexivity).
    change (String.length _PYSPARK_COL_PATTERN - 1) with 13.
    do 13 rewrite replace_from_skip.
    by rewrite Hrest.
  - rewrite PyStrFacts.append_cons.
    rewrite replace_from_miss
      by (rewrite <- PyStrFacts.append_cons; by apply pattern_not_before_pattern).
    rewrite !PyStrFacts.append_cons.
    simpl in Hpre. apply andb_true_iff in Hpre as [_ Hpre].
    by rewrite IH.
Qed.

(** X3.  On the dataframe target, a step whose template is text, the
    column pattern [F.col('{col}')] and text (no other brace) builds a
    method chain: the first step applied fills the pattern with the bare
    column name, every later one replaces the whole pattern by the
    expression accumulated so far.  Either way the step sets the flag
    [pyspark_applied] and leaves the warnings alone. *)
Theorem pyspark_steps_chain
    (TEMPLATES : gmap string (gmap string string)) (column : Column)
    (dialect key before_col after_col : string)
    (extra : gmap string string) (st : CompileState) :
  lookup_template TEMPLATES key "pyspark"
  = before_col +:+ _PYSPARK_COL_PATTERN +:+ after_col ->
  brace_free before_col = true ->
  brace_free after_col = true ->
  real_pattern (lookup_template TEMPLATES key "pyspark") = true ->
  _apply TEMPLATES column "pyspark" dialect key extra st
  = Some {| expr :=
              before_col
              +:+ (if pyspark_applied st then expr st
                   else "F.col('" +:+ name column +:+ "')")
              +:+ after_col;
            pyspark_applied := true;
            warnings_so_far := warnings_so_far st |}.
Proof.
  intros Hshape Hbefore Hafter [Ht Hw%negb_true_iff]%andb_true_iff.
  unfold _apply.
  change (tgt_dialect "pyspark" dialect) with "pyspark".
  rewrite Ht, Hw. simpl negb. cbv iota.
  change (String.eqb "pyspark" "pyspark") with true. cbv iota.
  rewrite Hshape.
  destruct (pyspark_applied st) eqn:Happlied; simpl negb; cbv iota.
  - rewrite replace_single_pattern by done.
    rewrite (PyStrFacts.format_col_hole _ before_col after_col (expr st))
      by (done || apply lookup_insert_eq).
    by rewrite format_brace_free.
  - change _PYSPARK_COL_PATTERN with ("F.col('" +:+ "{col}" +:+ "')").
    rewrite !PyStrFacts.append_assoc, <- (PyStrFacts.append_assoc before_col).
    rewrite (PyStrFacts.format_col_hole _ (before_col +:+ "F.col('")
               ("')" +:+ after_col) (name column)).
    + rewrite format_brace_free by (by rewrite brace_free_app, Hafter).
      simpl. by rewrite !PyStrFacts.append_assoc.
    + by rewrite brace_free_app, Hbefore.
    + apply lookup_insert_eq.
Qed.

Lemma pyspark_steps_chain_witness :
  _apply sample_templates (with_transformations "col_a" trim_upper)
    "pyspark" "ansi" "trim" ∅
    {| expr := "F.col('col_a')"; pyspark_applied := false; warnings_so_far := [] |}
  = Some {| expr := "F.trim(" +:+ "F.col('" +:+ "col_a" +:+ "')" +:+ ")";
            pyspark_applied := true; warnings_so_far := [] |}
  /\ _apply sample_templates (with_transformations "col_a" trim_upper)
       "pyspark" "ansi" "case_upper" ∅
       {| expr := "F.trim(F.col('col_a'))"; pyspark_applied := true;
          warnings_so_far := [] |}
     = Some {| expr := "F.upper(" +:+ "F.trim(F.col('col_a'))" +:+ ")";
               pyspark_applied := true; warnings_so_far := [] |}.
Proof.
  split.
  - apply (pyspark_steps_chain sample_templates
             (with_transformations "col_a" trim_upper) "ansi" "trim"
             "F.trim(" ")" ∅
             {| expr := "F.col('col_a')"; pyspark_applied := false;
                warnings_so_far := [] |});
      vm_compute; reflexivity.
  - apply (pyspark_steps_chain sample_templates
             (with_transformations "col_a" trim_upper) "ansi" "case_upper"
             "F.upper(" ")" ∅
             {| expr := "F.trim(F.col('col_a'))"; pyspark_applied := true;
                warnings_so_far := [] |});
      vm_compute; reflexivity.
Defined.

End PysparkFacts.

(* ===================================================================== *)
(** ** Properties of the table assemblers *)
(* ===================================================================== *)

Module AssemblerFacts.
Import Compiler Assemblers.

(** What [compile_column] always copies into its result. *)
Lemma compile_column_labels (TEMPLATES : gmap string (gmap string string))
    (c : Column) (tgt dia : string) (r : CompiledColumn) :
  compile_column TEMPLATES c tgt dia = Some r ->
  column_name r = name c /\ alias r = name c /\ target r = tgt /\ dialect r = dia.
Proof.
  unfold compile_column.
  destruct (custom_expression_set (transformations c)).
  - by intros [= <-].
  - intros (st & _ & [= <-])%bind_Some. done.
Qed.

Lemma inert_compile_column (TEMPLATES : gmap string (gmap string string))
    (c : Column) (tgt dia : string) :
  inert c ->
  compile_column TEMPLATES c tgt dia
  = Some (mkCompiledColumn (name c) (initial_expr c tgt) (name c) [] tgt dia).
Proof.
  intros [Hc Hn]. unfold compile_column. rewrite Hc.
  rewrite CompilerFacts.run_steps_inactive; [done|].
  intros step _. by apply CompilerFacts.no_active_step_call.
Qed.

Lemma mapM_total {A B} (f : A -> option B) (g : A -> B) (l : list A) :
  Forall (fun x => f x = Some (g x)) l -> mapM f l = Some (map g l).
Proof.
  intros Hall. apply mapM_Some. induction Hall; constructor; done.
Qed.

Section WithTemplates.

Variable TEMPLATES : gmap string (gmap string string).

(** X4.  The SQL assembler returns exactly when every column of the table
    compiles for the SQL target in the dialect; its columns are then the
    compiled columns in table order, each aliased by its own name, and its
    warnings are theirs, column after column.  A table without columns
    compiles, to no warning. *)
Theorem table_sql_compiles_iff_columns_do (table_spec : TableSpec)
    (dialect : string) (project_config : gmap string string) :
  (is_Some (compile_table_sql TEMPLATES table_spec dialect project_config)
   <-> Forall (fun c => is_Some (compile_column TEMPLATES c "sql" dialect))
         (table_columns table_spec))
  /\ forall r : SqlArtifact,
       compile_table_sql TEMPLATES table_spec dialect project_config = Some r ->
       Forall2 (fun c cr => compile_column TEMPLATES c "sql" dialect = Some cr
                            /\ alias cr = name c)
         (table_columns table_spec) (sql_columns r)
       /\ sql_warnings r = flat_map warnings (sql_columns r)
       /\ sql_dialect r = dialect.
Proof.
  unfold compile_table_sql, compile_columns. split.
  - pose proof (mapM_is_Some
                  (fun c => compile_column TEMPLATES c "sql" dialect)
                  (table_columns table_spec)) as Hiff.
    unfold compose in Hiff. rewrite <- Hiff.
    destruct (mapM _ (table_columns table_spec)); simpl.
    + split; by eauto.
    + split; intros []; done.
  - intros r (col_results & Hmap & [= <-])%bind_Some. simpl.
    split; [|done]. apply mapM_Some_1 in Hmap.
    eapply Forall2_impl; [exact Hmap|]. intros c cr Hc. cbv beta in Hc.
    split; [done|].
    by apply (compile_column_labels _ _ _ _ _ Hc).
Qed.

(** X5.  The model bundle compiles the columns as the SQL assembler does:
    it returns exactly when the SQL assembler returns for the same
    dialect, with the same warnings, and it does not read the project
    configuration. *)
Theorem dbt_compiles_as_sql (table_spec : TableSpec) (dialect : string)
    (config1 config2 : gmap string string) :
  (is_Some (compile_table_dbt TEMPLATES table_spec dialect config1)
   <-> is_Some (compile_table_sql TEMPLATES table_spec dialect config2))
  /\ (forall (a : SqlArtifact) (b : DbtArtifact),
        compile_table_sql TEMPLATES table_spec dialect config2 = Some a ->
        compile_table_dbt TEMPLATES table_spec dialect config1 = Some b ->
        dbt_warnings b = sql_warnings a)
  /\ compile_table_dbt TEMPLATES table_spec dialect config1
     = compile_table_dbt TEMPLATES table_spec dialect config2.
Proof.
  unfold compile_table_dbt, compile_table_sql.
  destruct (compile_columns TEMPLATES "sql" dialect (table_columns table_spec));
    simpl.
  - split; [split; by eauto|]. split; [|done]. by intros a b [= <-] [= <-].
  - split; [split; intros []; done|]. done.
Qed.

(** X6.  A table none of whose columns has a custom expression or an
    active step (as every table is when it has just been created) compiles,
    in every dialect and with every template table, to a select list that
    passes each column through under its own name, and to no warning. *)
Theorem default_table_sql_is_pass_through (table_spec : TableSpec)
    (dialect : string) (project_config : gmap string string) :
  Forall inert (table_columns table_spec) ->
  exists r : SqlArtifact,
    compile_table_sql TEMPLATES table_spec dialect project_config = Some r
    /\ map select_entry (sql_columns r)
       = map (fun c => name c +:+ " AS " +:+ name c) (table_columns table_spec)
    /\ sql_warnings r = []
    /\ sql r
       = "WITH cleaned AS (" +:+ nl
         +:+ "    SELECT" +:+ nl
         +:+ "        "
         +:+ join ("," +:+ nl +:+ "        ")
               (map (fun c => name c +:+ " AS " +:+ name c)
                  (table_columns table_spec)) +:+ nl
         +:+ "    FROM "
         +:+ source_of (default "" (project_config !! "catalog"))
               (table_layer table_spec) (table_name table_spec) +:+ nl
         +:+ ")" +:+ nl
         +:+ "SELECT * FROM cleaned".
Proof.
  intros Hinert. unfold compile_table_sql, compile_columns.
  rewrite (mapM_total _
             (fun c => mkCompiledColumn (name c) (name c) (name c) [] "sql" dialect)).
  2: { eapply Forall_impl; [exact Hinert|]. intros c Hc.
       by rewrite inert_compile_column. }
  eexists. split; [reflexivity|]. cbn [mbind option_bind sql_columns sql_warnings sql].
  rewrite map_map.
  split; [done|]. split; [|done].
  unfold all_warnings. clear Hinert.
  induction (table_columns table_spec) as [|c cols IH]; [done|].
  simpl. exact IH.
Qed.

Section Pyspark.

Variable dedent : string -> string.

(** X7.  The dataframe assembler returns exactly when every column
    compiles for the dataframe target.  Its code is then what
    [textwrap.dedent] makes of a module text whose function chains onto
    [df] one [withColumn] call for each column, in table order, under the
    name of the column and with its compiled expression; a column without
    custom expression and without active step is mapped to itself. *)
Theorem table_pyspark_chains_every_column (table_spec : TableSpec)
    (project_config : gmap string string) :
  (is_Some (compile_table_pyspark TEMPLATES dedent table_spec project_config)
   <-> Forall (fun c => is_Some (compile_column TEMPLATES c "pyspark" "pyspark"))
         (table_columns table_spec))
  /\ forall r : PysparkArtifact,
       compile_table_pyspark TEMPLATES dedent table_spec project_config = Some r ->
       Forall2 (fun c cr =>
                  compile_column TEMPLATES c "pyspark" "pyspark" = Some cr
                  /\ alias cr = name c
                  /\ (inert c ->
                      with_column cr
                      = ".withColumn('" +:+ name c +:+ "', "
                        +:+ ("F.col('" +:+ name c +:+ "')") +:+ ")"))
         (table_columns table_spec) (pyspark_columns r)
       /\ pyspark_warnings r = flat_map warnings (pyspark_columns r)
       /\ code r
          = dedent
              ("            from pyspark.sql import DataFrame" +:+ nl
               +:+ "            from pyspark.sql import functions as F" +:+ nl
               +:+ nl
               +:+ nl
               +:+ "            def clean_" +:+ table_name table_spec +:+ "(" +:+ nl
               +:+ "                df: DataFrame," +:+ nl
               +:+ "            ) -> DataFrame:" +:+ nl
               +:+ "                return (" +:+ nl
               +:+ "                    df" +:+ nl
               +:+ "                    "
               +:+ join (nl +:+ "            ")
                     (map (fun cr => ".withColumn('" +:+ alias cr +:+ "', "
                                     +:+ expression cr +:+ ")")
                        (pyspark_columns r)) +:+ nl
               +:+ "                )" +:+ nl
               +:+ "        ")
       /\ (Forall inert (table_columns table_spec) ->
           map (fun cr => ".withColumn('" +:+ alias cr +:+ "', "
                          +:+ expression cr +:+ ")")
             (pyspark_columns r)
           = map (fun c => ".withColumn('" +:+ name c +:+ "', "
                           +:+ ("F.col('" +:+ name c +:+ "')") +:+ ")")
               (table_columns table_spec)).
Proof.
  unfold compile_table_pyspark, compile_columns. split.
  - pose proof (mapM_is_Some
                  (fun c => compile_column TEMPLATES c "pyspark" "pyspark")
                  (table_columns table_spec)) as Hiff.
    unfold compose in Hiff. rewrite <- Hiff.
    destruct (mapM _ (table_columns table_spec)); simpl.
    + split; by eauto.
    + split; intros []; done.
  - intros r (col_results & Hmap & [= <-])%bind_Some.
    cbn [pyspark_columns pyspark_warnings code].
    apply mapM_Some_1 in Hmap.
    split; [|split; [done|split; [done|]]].
    + eapply Forall2_impl; [exact Hmap|]. intros c cr Hc. cbv beta in Hc.
      split; [done|].
      split; [by apply (compile_column_labels _ _ _ _ _ Hc)|].
      intros Hinert. rewrite inert_compile_column in Hc by done.
      by injection Hc as <-.
    + intros Hinert. clear -Hmap Hinert.
      induction Hmap as [|c cr cols crs Hc _ IH]; [done|].
      apply Forall_cons in Hinert as [Hinert_c Hinert].
      cbn [map]. rewrite IH by done. f_equal.
      rewrite inert_compile_column in Hc by done.
      by injection Hc as <-.
Qed.

End Pyspark.
End WithTemplates.

Lemma three_columns_inert : Forall inert three_columns.
Proof. repeat constructor. Qed.

Lemma default_table_sql_is_pass_through_witness :
  sql <$> compile_table_sql sample_templates customers "snowflake_sql" ∅
  = Some ("WITH cleaned AS (" +:+ nl
          +:+ "    SELECT" +:+ nl
          +:+ "        id AS id," +:+ nl
          +:+ "        name AS name," +:+ nl
          +:+ "        email AS email" +:+ nl
          +:+ "    FROM bronze.customers" +:+ nl
          +:+ ")" +:+ nl
          +:+ "SELECT * FROM cleaned").
Proof.
  destruct (default_table_sql_is_pass_through sample_templates customers
              "snowflake_sql" ∅ three_columns_inert)
    as (r & Hr & _ & _ & Hsql).
  rewrite Hr. cbn [fmap option_fmap option_map]. rewrite Hsql.
  vm_compute. reflexivity.
Defined.

(** The text the dataframe assembler hands to [textwrap.dedent] for the
    table of the structure test: the calls after the first start twelve
    columns in. *)
Example customers_pyspark_source :
  code <$> compile_table_pyspark sample_templates (fun text => text) customers ∅
  = Some ("            from pyspark.sql import DataFrame" +:+ nl
          +:+ "            from pyspark.sql import functions as F" +:+ nl
          +:+ nl
          +:+ nl
          +:+ "            def clean_customers(" +:+ nl
          +:+ "                df: DataFrame," +:+ nl
          +:+ "            ) -> DataFrame:" +:+ nl
          +:+ "                return (" +:+ nl
          +:+ "                    df" +:+ nl
          +:+ "                    .withColumn('id', F.col('id'))" +:+ nl
          +:+ "            .withColumn('name', F.col('name'))" +:+ nl
          +:+ "            .withColumn('email', F.col('email'))" +:+ nl
          +:+ "                )" +:+ nl
          +:+ "        ").
Proof. vm_compute. reflexivity. Qed.

Example contacts_sql_tsql :
  sql_warnings <$> compile_table_sql sample_templates contacts "tsql" ∅
  = Some ["regex replace is not supported in T-SQL"]
  /\ dbt_warnings <$> compile_table_dbt sample_templates contacts "tsql" ∅
     = Some ["regex replace is not supported in T-SQL"]
  /\ sql <$> compile_table_sql sample_templates contacts "ansi"
               {[ "catalog" := "main" ]}
     = Some ("WITH cleaned AS (" +:+ nl
             +:+ "    SELECT" +:+ nl
             +:+ "        id AS id," +:+ nl
             +:+ "        REGEXP_REPLACE(phone, '[0-9]+', 'X') AS phone" +:+ nl
             +:+ "    FROM main.bronze.contacts" +:+ nl
             +:+ ")" +:+ nl
             +:+ "SELECT * FROM cleaned").
Proof. repeat split; vm_compute; reflexivity. Qed.

(** *** The schema document of the model bundle *)

Lemma count_where_flat_map {A B} (f : B -> bool) (g : A -> list B)
    (h : A -> bool) (l : list A) :
  (forall x, Executor.count_where f (g x) = if h x then 1 else 0) ->
  Executor.count_where f (flat_map g l) = Executor.count_where h l.
Proof.
  intros Hone. induction l as [|x l IH]; [done|].
  cbn [flat_map Executor.count_where].
  by rewrite ExecutorFacts.count_where_app, Hone, IH.
Qed.

Lemma schema_column_counts (notes : gmap string string) (col : Column) :
  Executor.count_where (String.eqb not_null_line) (schema_column_lines notes col)
  = (if nullable col then 0 else 1)
  /\ Executor.count_where (String.eqb tests_line) (schema_column_lines notes col)
     = (if nullable col then 0 else 1)
  /\ Executor.count_where (String.prefix description_prefix)
       (schema_column_lines notes col)
     = (if PyStr.truthy (default "" (notes !! name col)) then 1 else 0)
  /\ Executor.count_where (String.prefix name_prefix)
       (schema_column_lines notes col)
     = 1.
Proof.
  unfold schema_column_lines.
  destruct (PyStr.truthy (default "" (notes !! name col))), (nullable col),
    (name col); repeat split; vm_compute; reflexivity.
Qed.

Lemma schema_lines_counts (table_name : string)
    (columns : list Column) (notes : gmap string string) :
  Executor.count_where (String.eqb not_null_line)
    (schema_lines table_name columns notes)
  = Executor.count_where (fun c => negb (nullable c)) columns
  /\ Executor.count_where (String.eqb tests_line)
       (schema_lines table_name columns notes)
     = Executor.count_where (fun c => negb (nullable c)) columns
  /\ Executor.count_where (String.prefix description_prefix)
       (schema_lines table_name columns notes)
     = Executor.count_where
         (fun c => PyStr.truthy (default "" (notes !! name c))) columns
  /\ Executor.count_where (String.prefix name_prefix)
       (schema_lines table_name columns notes)
     = length columns.
Proof.
  unfold schema_lines. rewrite !ExecutorFacts.count_where_app.
  assert (Hheader : forall f,
    f "version: 2" = false -> f "" = false -> f "models:" = false ->
    f ("  - name: " +:+ table_name) = false -> f "    columns:" = false ->
    Executor.count_where f
      ["version: 2"; ""; "models:"; "  - name: " +:+ table_name; "    columns:"]
    = 0).
  { intros f H1 H2 H3 H4 H5. simpl. by rewrite H1, H2, H3, H4, H5. }
  rewrite !Hheader by (destruct table_name; vm_compute; reflexivity).
  cbn [Nat.add].
  rewrite (count_where_flat_map _ _ (fun c => negb (nullable c)))
    by (intros c; destruct (schema_column_counts notes c) as (-> & _);
        by destruct (nullable c)).
  rewrite (count_where_flat_map _ _ (fun c => negb (nullable c)))
    by (intros c; destruct (schema_column_counts notes c) as (_ & -> & _);
        by destruct (nullable c)).
  rewrite (count_where_flat_map _ _
             (fun c => PyStr.truthy (default "" (notes !! name c))))
    by (intros c; by destruct (schema_column_counts notes c) as (_ & _ & -> & _)).
  rewrite (count_where_flat_map _ _ (fun _ => true))
    by (intros c; by destruct (schema_column_counts notes c) as (_ & _ & _ & ->)).
  repeat split. induction columns as [|c columns IH]; simpl; [done|by rewrite IH].
Qed.

(** The lines of a text that was joined from lines without a line feed. *)
Lemma no_line_feed_app (a b : string) :
  no_line_feed (a +:+ b) = no_line_feed a && no_line_feed b.
Proof.
  unfold no_line_feed. induction a as [|c a IH]; [done|].
  rewrite PyStrFacts.append_cons. cbn [list_ascii_of_string forallb].
  by rewrite IH, andb_assoc.
Qed.

Lemma split_lines_cons (line rest : string) :
  no_line_feed line = true ->
  split_lines (line +:+ nl +:+ rest) = line :: split_lines rest.
Proof.
  unfold no_line_feed. induction line as [|c line IH]; [done|].
  cbn [list_ascii_of_string forallb].
  intros [Hc Hline%IH]%andb_true_iff. apply negb_true_iff in Hc.
  rewrite PyStrFacts.append_cons. cbn [split_lines]. by rewrite Hc, Hline.
Qed.

Lemma split_lines_join (first : string) (lines : list string) :
  Forall (fun line => no_line_feed line = true) (first :: lines) ->
  split_lines (join nl (first :: lines) +:+ nl) = ((first :: lines) ++ [""])%list.
Proof.
  revert first. induction lines as [|second lines IH]; intros first Hall.
  - apply Forall_cons in Hall as [Hfirst _]. cbn [join app].
    replace (first +:+ nl) with (first +:+ nl +:+ "")
      by (by rewrite PyStrFacts.append_empty_r).
    by rewrite split_lines_cons.
  - apply Forall_cons in Hall as [Hfirst Hall].
    change (join nl (first :: second :: lines))
      with (first +:+ nl +:+ join nl (second :: lines)).
    rewrite !PyStrFacts.append_assoc.
    rewrite split_lines_cons by done. by rewrite IH.
Qed.

Lemma schema_lines_no_line_feed (table_name : string)
    (columns : list Column) (notes : gmap string string) :
  no_line_feed table_name = true ->
  Forall (fun c => no_line_feed (name c) = true
                   /\ no_line_feed (default "" (notes !! name c)) = true)
    columns ->
  Forall (fun line => no_line_feed line = true)
    (schema_lines table_name columns notes).
Proof.
  intros Htable Hcolumns. unfold schema_lines. apply Forall_app. split.
  - repeat constructor. by rewrite no_line_feed_app, Htable.
  - apply Forall_flat_map. eapply Forall_impl; [exact Hcolumns|].
    intros c [Hname Hnote]. unfold schema_column_lines.
    repeat (apply Forall_app; split).
    + repeat constructor. by rewrite no_line_feed_app, Hname.
    + destruct (PyStr.truthy _); repeat constructor.
      by rewrite !no_line_feed_app, Hnote.
    + destruct (negb _); by repeat constructor.
Qed.

(** X8.  When neither the table name, nor a column name, nor a note holds
    a line feed, the lines of the schema document are the header, then for
    every column its name entry, its description and its test, and an
    empty last line.  Every column then has one name entry, a not-null
    test (a [tests:] line and a [not_null] line) exactly when it is not
    nullable, and a description exactly when the notes hold a non-empty
    text under its name. *)
Theorem schema_yml_lists_tests_and_descriptions (table_name : string)
    (columns : list Column) (notes : gmap string string) :
  no_line_feed table_name = true ->
  Forall (fun c => no_line_feed (name c) = true
                   /\ no_line_feed (default "" (notes !! name c)) = true)
    columns ->
  split_lines (_build_schema_yml table_name columns notes)
  = (["version: 2"; ""; "models:"; "  - name: " +:+ table_name; "    columns:"]
     ++ flat_map (schema_column_lines notes) columns ++ [""])%list
  /\ Executor.count_where (String.eqb not_null_line)
       (split_lines (_build_schema_yml table_name columns notes))
     = Executor.count_where (fun c => negb (nullable c)) columns
  /\ Executor.count_where (String.eqb tests_line)
       (split_lines (_build_schema_yml table_name columns notes))
     = Executor.count_where (fun c => negb (nullable c)) columns
  /\ Executor.count_where (String.prefix description_prefix)
       (split_lines (_build_schema_yml table_name columns notes))
     = Executor.count_where
         (fun c => PyStr.truthy (default "" (notes !! name c))) columns
  /\ Executor.count_where (String.prefix name_prefix)
       (split_lines (_build_schema_yml table_name columns notes))
     = length columns.
Proof.
  intros Htable Hcolumns.
  assert (Hlines :
    split_lines (_build_schema_yml table_name columns notes)
    = (schema_lines table_name columns notes ++ [""])%list).
  { unfold _build_schema_yml.
    pose proof (schema_lines_no_line_feed _ _ _ Htable Hcolumns) as Hall.
    unfold schema_lines in Hall |- *. cbn [app] in Hall |- *.
    by rewrite split_lines_join. }
  rewrite Hlines. split.
  - unfold schema_lines. by rewrite <- app_assoc.
  - rewrite !ExecutorFacts.count_where_app.
    destruct (schema_lines_counts table_name columns notes)
      as (-> & -> & -> & ->).
    repeat split; cbn; lia.
Qed.

Lemma schema_yml_lists_tests_and_descriptions_witness :
  split_lines (_build_schema_yml "customers" three_columns
                 {[ "id" := "Primary key" ]})
  = [ "version: 2"; ""; "models:"; "  - name: customers"; "    columns:";
      "      - name: id";
      "        description: " +:+ dquote +:+ "Primary key" +:+ dquote;
      "        tests:"; "          - not_null";
      "      - name: name"; "      - name: email"; "" ].
Proof.
  destruct (schema_yml_lists_tests_and_descriptions "customers" three_columns
              {[ "id" := "Primary key" ]} eq_refl) as [Hlines _].
  - repeat constructor.
  - rewrite Hlines. vm_compute. reflexivity.
Defined.

(** Without the condition the counts differ: a note with line feeds gives
    a nullable column a not-null test. *)
Example note_with_line_feed_adds_test :
  let columns := [plain_column "email" true] in
  let notes : gmap string string :=
    {[ "email" := "address" +:+ dquote +:+ nl +:+ "        tests:" +:+ nl
                  +:+ "          - not_null" +:+ nl
                  +:+ "        meta: " +:+ dquote ]} in
  Executor.count_where (fun c => negb (nullable c)) columns = 0
  /\ Executor.count_where (String.eqb not_null_line)
       (split_lines (_build_schema_yml "customers" columns notes))
     = 1.
Proof. vm_compute. done. Qed.

Example customers_schema_yml :
  _build_schema_yml "customers" three_columns {[ "id" := "Primary key" ]}
  = "version: 2" +:+ nl
    +:+ nl
    +:+ "models:" +:+ nl
    +:+ "  - name: customers" +:+ nl
    +:+ "    columns:" +:+ nl
    +:+ "      - name: id" +:+ nl
    +:+ "        description: " +:+ dquote +:+ "Primary key" +:+ dquote +:+ nl
    +:+ "        tests:" +:+ nl
    +:+ "          - not_null" +:+ nl
    +:+ "      - name: name" +:+ nl
    +:+ "      - name: email" +:+ nl.
Proof. vm_compute. reflexivity. Qed.

End AssemblerFacts.

(* ===================================================================== *)
(** ** More on the execution and validation engine *)
(* ===================================================================== *)

Module ExecutorMoreFacts.
Import Executor Validation.

(** *** Result rows *)

(** Inserting pairs from the left: the value under a key is that of the
    last pair with this key. *)
Lemma foldl_insert_lookup (l : list (string * Value)) (k : string) (v : Value) :
  foldl (fun (d : Row) kv => <[fst kv := snd kv]> d) ∅ l !! k = Some v
  <-> exists i : nat,
        l !! i = Some (k, v)
        /\ forall j kv, i < j -> l !! j = Some kv -> fst kv <> k.
Proof.
  induction l as [|[k' v'] l IH] using rev_ind.
  - simpl. rewrite lookup_empty. split; [done|]. by intros (i & Hi & _).
  - rewrite foldl_app. simpl.
    destruct (decide (k' = k)) as [->|Hne].
    + rewrite lookup_insert_eq. split.
      * intros [= <-]. exists (length l). split.
        { by rewrite lookup_app_r, Nat.sub_diag by lia. }
        intros j kv Hj Hkv. apply lookup_lt_Some in Hkv.
        rewrite length_app in Hkv. simpl in Hkv. lia.
      * intros (i & Hi & Hlast).
        destruct (decide (i = length l)) as [->|Hi'].
        { rewrite lookup_app_r, Nat.sub_diag in Hi by lia. by injection Hi as <-. }
        exfalso. apply (Hlast (length l) (k, v')); [|by rewrite
          lookup_app_r, Nat.sub_diag by lia|done].
        apply lookup_lt_Some in Hi. rewrite length_app in Hi. simpl in Hi. lia.
    + rewrite lookup_insert_ne by done. rewrite IH. split.
      * intros (i & Hi & Hlast). exists i. split.
        { by apply lookup_app_l_Some. }
        intros j kv Hj Hkv.
        destruct (decide (j < length l)) as [Hlt|Hge].
        { rewrite lookup_app_l in Hkv by done. by eapply Hlast. }
        pose proof (lookup_lt_Some _ _ _ Hkv) as Hlen.
        rewrite length_app in Hlen. simpl in Hlen.
        assert (j = length l) as -> by lia.
        rewrite lookup_app_r, Nat.sub_diag in Hkv by lia.
        by injection Hkv as <-.
      * intros (i & Hi & Hlast).
        destruct (decide (i < length l)) as [Hlt|Hge].
        { exists i. rewrite lookup_app_l in Hi by done. split; [done|].
          intros j kv Hj Hkv. apply (Hlast j kv Hj). by apply lookup_app_l_Some. }
        pose proof (lookup_lt_Some _ _ _ Hi) as Hlen.
        rewrite length_app in Hlen. simpl in Hlen.
        assert (i = length l) as -> by lia.
        rewrite lookup_app_r, Nat.sub_diag in Hi by lia.
        by injection Hi as -> ->.
Qed.

Lemma zip_lookup (columns : list string) (row : list Value) (i : nat)
    (k : string) (v : Value) :
  zip columns row !! i = Some (k, v)
  <-> columns !! i = Some k /\ row !! i = Some v.
Proof.
  rewrite lookup_zip_with_Some. split.
  - by intros (x & y & [= <- <-] & ? & ?).
  - intros [? ?]. by exists k, v.
Qed.

(** X9.  A result row maps a column name to the value at the last
    position where the description holds this name and the raw row has a
    value: a repeated column name keeps the later value, and a name is a
    key only if it is in the description.  With distinct names the row
    holds every value under its own name. *)
Theorem dict_zip_lookup (columns : list string) (row : list Value)
    (k : string) (v : Value) :
  (dict_zip columns row !! k = Some v
   <-> exists i : nat,
         columns !! i = Some k /\ row !! i = Some v
         /\ forall j, i < j -> j < length row -> columns !! j <> Some k)
  /\ (NoDup columns ->
      forall i, columns !! i = Some k -> row !! i = Some v ->
                dict_zip columns row !! k = Some v).
Proof.
  assert (Hiff : dict_zip columns row !! k = Some v
    <-> exists i : nat,
          columns !! i = Some k /\ row !! i = Some v
          /\ forall j, i < j -> j < length row -> columns !! j <> Some k).
  { unfold dict_zip. rewrite foldl_insert_lookup. split.
    - intros (i & Hi & Hlast). apply zip_lookup in Hi as [Hc Hr].
      exists i. split; [done|]. split; [done|].
      intros j Hj Hlen Hcj.
      destruct (lookup_lt_is_Some_2 row j Hlen) as [w Hw].
      apply (Hlast j (k, w)); [done| |done]. by apply zip_lookup.
    - intros (i & Hc & Hr & Hlast). exists i. split; [by apply zip_lookup|].
      intros j [k' w] Hj Hkv <-. apply zip_lookup in Hkv as [Hcj Hrj].
      apply (Hlast j Hj); [|done]. by eapply lookup_lt_Some. }
  split; [exact Hiff|].
  intros Hnodup i Hc Hr. apply Hiff. exists i. split; [done|]. split; [done|].
  intros j Hj _ Hcj.
  pose proof (NoDup_lookup _ _ _ _ Hnodup Hc Hcj). lia.
Qed.

Example dict_zip_repeated_name :
  dict_zip ["id"; "id"] [VInt 1; VInt 2] !! "id" = Some (VInt 2).
Proof. vm_compute. reflexivity. Qed.

Lemma dict_zip_keys (columns : list string) (row : list Value)
    (k : string) (v : Value) :
  dict_zip columns row !! k = Some v -> In k columns.
Proof.
  unfold dict_zip. rewrite foldl_insert_lookup.
  intros (i & [Hc _]%zip_lookup & _).
  apply list_elem_of_In. by eapply list_elem_of_lookup_2.
Qed.

(** The row count of a result is the number of its rows. *)
Lemma row_count_is_length (engine : Engine) (query : string)
    (data : list Row) (table_name : string) :
  row_count (execute_sql engine query data table_name)
  = Z.of_nat (length (rows (execute_sql engine query data table_name))).
Proof.
  unfold execute_sql. rewrite ExecutorFacts.execute_sql_session_stages.
  destruct (engine_connect engine); simpl; [done|].
  destruct (match data with [] => None | _ :: _ => _ end); simpl; [done|].
  destruct (engine_execute engine _ query) as [exc|out]; simpl; [done|].
  destruct (out_fetchall out); simpl; [done|].
  by destruct (engine_close engine).
Qed.

(** X10.  A successful call ran the query against the relations
    [registered]: the given rows under the table name and nothing else, or
    no relation at all for an empty row list.  Its columns are the
    description of the engine, its rows the raw rows keyed by it (so the
    keys of a row are among the columns), its error text is empty; and in
    every result, failed or not, the row count is the number of rows. *)
Theorem execute_sql_success_shape (engine : Engine) (query : string)
    (data : list Row) (table_name : string) :
  row_count (execute_sql engine query data table_name)
  = Z.of_nat (length (rows (execute_sql engine query data table_name)))
  /\ (success (execute_sql engine query data table_name) = true ->
      error (execute_sql engine query data table_name) = ""
      /\ (exists (out : QueryOutput) (rows_raw : list (list Value)),
            engine_execute engine (registered table_name data) query = inr out
            /\ out_fetchall out = inr rows_raw
            /\ columns (execute_sql engine query data table_name)
               = out_description out
            /\ rows (execute_sql engine query data table_name)
               = map (dict_zip (out_description out)) rows_raw)
      /\ forall (row : Row) (k : string),
           In row (rows (execute_sql engine query data table_name)) ->
           is_Some (row !! k) ->
           In k (columns (execute_sql engine query data table_name))).
Proof.
  split; [apply row_count_is_length|].
  unfold execute_sql. rewrite ExecutorFacts.execute_sql_session_stages.
  destruct (engine_connect engine); simpl; [done|].
  destruct (match data with [] => None | _ :: _ => _ end); simpl; [done|].
  destruct (engine_execute engine _ query) as [exc|out]; simpl; [done|].
  destruct (out_fetchall out) as [exc|rows_raw] eqn:Hf; simpl; [done|].
  destruct (engine_close engine); simpl; [done|].
  intros _. split; [done|]. split; [by exists out, rows_raw|].
  intros row k (raw & <- & _)%in_map_iff [v Hv].
  apply (dict_zip_keys _ _ _ _ Hv).
Qed.

(** *** The calls on the connection *)

(** X11.  Whatever the engine does, the calls [execute_sql] makes on its
    connection are an initial segment of: connect, register the rows (only
    when there are some), execute the query, fetch, close.  The call
    connects once, first, runs no query but the one it was given, and runs
    it at most once. *)
Theorem execute_sql_events_in_order (engine : Engine) (query : string)
    (data : list Row) (table_name : string) :
  execute_sql_events engine query data table_name
    `prefix_of` full_session query data table_name
  /\ exists rest : list Event,
       execute_sql_events engine query data table_name = Connect :: rest.
Proof.
  unfold execute_sql_events, full_session.
  rewrite ExecutorFacts.execute_sql_session_stages.
  destruct (engine_connect engine); simpl.
  { split; [|by eexists]. apply prefix_cons, prefix_nil. }
  destruct (match data with [] => None | _ :: _ => _ end); simpl.
  { split; [|by eexists]. apply prefix_cons, prefix_app_r. done. }
  destruct (engine_execute engine _ query) as [exc|out]; simpl.
  { split; [|by eexists]. apply prefix_cons, prefix_app, prefix_cons, prefix_nil. }
  destruct (out_fetchall out); simpl.
  { split; [|by eexists].
    apply prefix_cons, prefix_app, prefix_cons, prefix_cons, prefix_nil. }
  destruct (engine_close engine); simpl; (split; [done|by eexists]).
Qed.

(** *** Assertions *)

Lemma count_where_none {A} (f : A -> bool) (l : list A) :
  count_where f l = 0 <-> forall x, In x l -> f x = false.
Proof.
  induction l as [|x l IH]; simpl; [naive_solver|].
  destruct (f x) eqn:Hx; split.
  - done.
  - intros Hall. specialize (Hall x (or_introl eq_refl)). congruence.
  - intros Hc y [<-|Hy]; [done|]. by apply IH.
  - intros Hall. apply IH. intros y Hy. apply Hall. by right.
Qed.

(** X12.  A [not_null] assertion passes exactly when every row holds, under
    the column, a value that is not [None]; a row without the key counts as
    a null.  When it fails, the detail gives the number of such rows. *)
Theorem not_null_passes_iff (col description : string) (rows : list Row) :
  (a_passed (run_assertion (NotNull col description) rows) = true
   <-> forall r : Row, In r rows -> exists v, r !! col = Some v /\ v <> VNone)
  /\ (a_passed (run_assertion (NotNull col description) rows) = false ->
      a_detail (run_assertion (NotNull col description) rows)
      = pretty (Z.of_nat (count_where (fun r : Row => is_none (r !! col)) rows))
        +:+ " null(s) found in '" +:+ col +:+ "'").
Proof.
  simpl. split.
  - rewrite Nat.eqb_eq, count_where_none. split.
    + intros Hall r Hr. specialize (Hall r Hr). cbv beta in Hall.
      destruct (r !! col) as [[]|]; simpl in Hall; try done; by eexists.
    + intros Hall r Hr. destruct (Hall r Hr) as (v & -> & Hv). by destruct v.
  - by intros ->.
Qed.

(** *** The validation report *)

Lemma generate_assertions_length (column : Column) :
  1 <= length (generate_assertions column) <= 4.
Proof.
  unfold generate_assertions.
  destruct (nullable column), (PyStr.truthy (type_cast (transformations column))),
    (regex_enabled (regex (transformations column))); simpl; lia.
Qed.

Lemma table_assertions_length (table_spec : TableSpec) :
  length (table_columns table_spec) <= length (table_assertions table_spec)
  <= 4 * length (table_columns table_spec).
Proof.
  unfold table_assertions.
  induction (table_columns table_spec) as [|c cols IH]; [simpl; lia|].
  cbn [flat_map]. rewrite length_app. cbn [length].
  pose proof (generate_assertions_length c). lia.
Qed.

(** X13.  In every report the passed and the failed counts add up to the
    total, the passed count lies between 0 and the total, and the total
    lies between the number of columns and four times that number: each
    column derives its row-count assertion and at most three more. *)
Theorem report_counts_add_up (engine : Engine) (table_spec : TableSpec)
    (compiled_sql : string) (synthetic_data : list Row) :
  (passed_count (validate_table engine table_spec compiled_sql synthetic_data)
   + failed_count (validate_table engine table_spec compiled_sql synthetic_data)
   = total_assertions (validate_table engine table_spec compiled_sql synthetic_data))%Z
  /\ (0 <= passed_count (validate_table engine table_spec compiled_sql synthetic_data)
       <= total_assertions
            (validate_table engine table_spec compiled_sql synthetic_data))%Z
  /\ (Z.of_nat (length (table_columns table_spec))
       <= total_assertions
            (validate_table engine table_spec compiled_sql synthetic_data)
       <= 4 * Z.of_nat (length (table_columns table_spec)))%Z.
Proof.
  unfold validate_table.
  assert (Hfail : forall exec_result,
    failed_count (report_of exec_result table_spec)
    = (total_assertions (report_of exec_result table_spec)
       - passed_count (report_of exec_result table_spec))%Z).
  { intros exec_result. unfold report_of. by destruct (validate_columns _ _ _ _). }
  destruct (ExecutorFacts.report_of_fields
              (execute_sql engine compiled_sql synthetic_data (table_name table_spec))
              table_spec) as (_ & Htotal & Hpassed & _).
  fold (table_results engine table_spec compiled_sql synthetic_data)
    in Htotal, Hpassed.
  rewrite ExecutorFacts.table_results_run in Htotal, Hpassed.
  rewrite length_map in Htotal.
  pose proof (ExecutorFacts.count_where_le a_passed
    (map (fun a => run_assertion a
                     (rows (execute_sql engine compiled_sql synthetic_data
                              (table_name table_spec))))
       (table_assertions table_spec))) as Hle.
  rewrite length_map in Hle.
  pose proof (table_assertions_length table_spec).
  rewrite Hfail, Htotal, Hpassed. lia.
Qed.

(** X14.  A report passes only if the execution step succeeded and gave at
    least one row: a failed query, or one without result rows, never
    validates, whatever the columns are. *)
Theorem report_passes_only_with_rows (engine : Engine) (table_spec : TableSpec)
    (compiled_sql : string) (synthetic_data : list Row) :
  passed (validate_table engine table_spec compiled_sql synthetic_data) = true ->
  exec_success
    (execution (validate_table engine table_spec compiled_sql synthetic_data))
  = true
  /\ (1 <= exec_row_count
             (execution
                (validate_table engine table_spec compiled_sql synthetic_data)))%Z.
Proof.
  intros [Hne Hall]%ExecutorFacts.validate_table_passed.
  unfold validate_table.
  destruct (ExecutorFacts.report_of_fields
              (execute_sql engine compiled_sql synthetic_data (table_name table_spec))
              table_spec) as (_ & _ & _ & ->).
  simpl.
  assert (Hlen : (1 <= Z.of_nat (length (rows (execute_sql engine compiled_sql
                                     synthetic_data (table_name table_spec)))))%Z).
  { unfold table_assertions in Hne, Hall.
    destruct (table_columns table_spec) as [|c cols]; [done|].
    specialize (Hall (RowCountGte 1 "output has at least 1 row")).
    cbn [flat_map] in Hall. rewrite in_app_iff in Hall.
    specialize (Hall (or_introl (or_introl eq_refl))).
    simpl in Hall. by apply Z.leb_le in Hall. }
  split; [|by rewrite row_count_is_length].
  destruct (success (execute_sql engine compiled_sql synthetic_data
                       (table_name table_spec))) eqn:Hs; [done|].
  destruct (ExecutorFacts.execute_sql_failure_shape _ _ _ _ Hs) as [exc Hexc].
  rewrite Hexc in Hlen. simpl in Hlen. lia.
Qed.

Lemma report_passes_only_with_rows_witness :
  exec_success
    (execution (validate_table toy_engine two_column_table
                  "SELECT id FROM test_table" [id_row (VInt 1); id_row (VInt 2)]))
  = true
  /\ (1 <= exec_row_count
             (execution (validate_table toy_engine two_column_table
                           "SELECT id FROM test_table"
                           [id_row (VInt 1); id_row (VInt 2)])))%Z.
Proof.
  apply (report_passes_only_with_rows toy_engine two_column_table
           "SELECT id FROM test_table" [id_row (VInt 1); id_row (VInt 2)]).
  vm_compute. reflexivity.
Defined.

(** The loop over the columns stores, under a name, the entry of the last
    column of this name, and keeps what was stored under other names. *)
Lemma validate_columns_report_lookup (rows : list Row) (n : string)
    (cols : list Column) :
  forall (all_results : list AssertionResult) (report : gmap string ColumnReport),
    snd (validate_columns rows cols all_results report) !! n
    = match last (filter (fun c => name c = n) cols) with
      | Some c => Some (column_report_of rows c)
      | None => report !! n
      end.
Proof.
  induction cols as [|c cols IH]; intros all_results report; [done|].
  cbn [validate_columns]. rewrite IH. rewrite filter_cons.
  destruct (decide (name c = n)) as [Hn|Hn].
  - rewrite last_cons.
    destruct (last (filter (fun c0 => name c0 = n) cols)); [done|].
    rewrite <- Hn. by rewrite lookup_insert_eq.
  - destruct (last (filter (fun c0 => name c0 = n) cols)); [done|].
    by rewrite lookup_insert_ne.
Qed.

Lemma columns_report_lookup (engine : Engine) (table_spec : TableSpec)
    (compiled_sql : string) (synthetic_data : list Row) (n : string) :
  columns_report (validate_table engine table_spec compiled_sql synthetic_data) !! n
  = column_report_of
      (rows (execute_sql engine compiled_sql synthetic_data (table_name table_spec)))
    <$> last (filter (fun c => name c = n) (table_columns table_spec)).
Proof.
  unfold validate_table, report_of.
  pose proof (validate_columns_report_lookup
                (rows (execute_sql engine compiled_sql synthetic_data
                         (table_name table_spec)))
                n (table_columns table_spec) [] ∅) as Hlookup.
  destruct (validate_columns _ _ _ _) as [all_results report]. simpl in *.
  rewrite Hlookup, lookup_empty.
  by destruct (last _).
Qed.

(** X15.  The per-column part of the report is keyed by column name: a
    name is a key exactly when a column of the table has it, and the entry
    under it is that of the last such column.  When two columns share a
    name, the results of the earlier one are counted in the totals and are
    not listed. *)
Theorem columns_report_keeps_last_column (engine : Engine)
    (table_spec : TableSpec) (compiled_sql : string)
    (synthetic_data : list Row) (n : string) :
  columns_report (validate_table engine table_spec compiled_sql synthetic_data) !! n
  = column_report_of
      (rows (execute_sql engine compiled_sql synthetic_data (table_name table_spec)))
    <$> last (filter (fun c => name c = n) (table_columns table_spec))
  /\ (is_Some
        (columns_report
           (validate_table engine table_spec compiled_sql synthetic_data) !! n)
      <-> exists c, In c (table_columns table_spec) /\ name c = n).
Proof.
  split; [apply columns_report_lookup|].
  rewrite columns_report_lookup, fmap_is_Some. split.
  - intros [c Hc]. apply last_Some_elem_of in Hc.
    apply list_elem_of_filter in Hc as [Hn Hc].
    exists c. split; [by apply list_elem_of_In|done].
  - intros (c & Hc & Hn).
    destruct (last (filter (fun c0 => name c0 = n) (table_columns table_spec)))
      eqn:Hlast; [by eexists|].
    apply last_None in Hlast.
    assert (c ∈ filter (fun c0 => name c0 = n) (table_columns table_spec))
      by (apply list_elem_of_filter; split; [done|by apply list_elem_of_In]).
    rewrite Hlast in H. by apply elem_of_nil in H.
Qed.

Example same_name_report :
  size (columns_report
          (validate_table toy_engine same_name_table "SELECT id FROM test_table"
             three_rows)) = 1
  /\ total_assertions
       (validate_table toy_engine same_name_table "SELECT id FROM test_table"
          three_rows) = 3%Z
  /\ col_passed
       <$> columns_report
             (validate_table toy_engine same_name_table
                "SELECT id FROM test_table" three_rows) !! "id"
     = Some true
  /\ passed (validate_table toy_engine same_name_table
               "SELECT id FROM test_table" three_rows) = false.
Proof. repeat split; vm_compute; reflexivity. Qed.

Lemma last_filter_name (cols : list Column) (c : Column) :
  NoDup (map name cols) -> In c cols ->
  last (filter (fun c0 => name c0 = name c) cols) = Some c.
Proof.
  induction cols as [|c0 cols IH]; [done|].
  cbn [map]. intros [Hnotin Hnodup]%NoDup_cons [->|Hin].
  - rewrite filter_cons_True by done. rewrite last_cons.
    destruct (last (filter (fun c0 => name c0 = name c) cols)) as [c1|] eqn:Hlast;
      [|done].
    apply last_Some_elem_of, list_elem_of_filter in Hlast as [Hn Hc1].
    exfalso. apply Hnotin. rewrite <- Hn.
    apply list_elem_of_In, in_map, list_elem_of_In, Hc1.
  - rewrite filter_cons_False.
    + by apply IH.
    + intros Heq. apply Hnotin. rewrite Heq.
      by apply list_elem_of_In, in_map.
Qed.

(** X16.  When the report passes, every entry of its per-column part
    passes.  For a table with at least one column and no repeated column
    name the converse holds: the report passes when all its column entries
    do. *)
Theorem report_passes_with_its_columns (engine : Engine)
    (table_spec : TableSpec) (compiled_sql : string)
    (synthetic_data : list Row) :
  (passed (validate_table engine table_spec compiled_sql synthetic_data) = true ->
   forall n cr,
     columns_report
       (validate_table engine table_spec compiled_sql synthetic_data) !! n = Some cr ->
     col_passed cr = true)
  /\ (NoDup (map name (table_columns table_spec)) ->
      table_columns table_spec <> [] ->
      (forall n cr,
          columns_report
            (validate_table engine table_spec compiled_sql synthetic_data) !! n
          = Some cr ->
          col_passed cr = true) ->
      passed (validate_table engine table_spec compiled_sql synthetic_data) = true).
Proof.
  split.
  - intros [_ Hall]%ExecutorFacts.validate_table_passed n cr.
    rewrite columns_report_lookup.
    intros (c & Hc & ->)%fmap_Some.
    apply last_Some_elem_of, list_elem_of_filter in Hc as [_ Hc].
    apply list_elem_of_In in Hc.
    unfold column_report_of, column_results. cbn [col_passed].
    apply forallb_forall. intros r (a & <- & Ha)%in_map_iff.
    apply Hall. unfold table_assertions. apply in_flat_map. by exists c.
  - intros Hnodup Hne Hentries. apply ExecutorFacts.validate_table_passed. split.
    + unfold table_assertions.
      destruct (table_columns table_spec) as [|c cols]; [done|].
      cbn [flat_map]. unfold generate_assertions. done.
    + intros a (c & Hc & Ha)%in_flat_map.
      specialize (Hentries (name c)
                    (column_report_of
                       (rows (execute_sql engine compiled_sql synthetic_data
                                (table_name table_spec))) c)).
      rewrite columns_report_lookup, last_filter_name in Hentries by done.
      specialize (Hentries eq_refl).
      unfold column_report_of, column_results in Hentries.
      cbn [col_passed] in Hentries.
      rewrite forallb_forall in Hentries.
      apply Hentries. apply in_map_iff. by exists a.
Qed.

End ExecutorMoreFacts.

(* ===================================================================== *)
(** ** Properties of the answer parser *)
(* ===================================================================== *)

Module LlmBaseFacts.
Import LlmBase.

Section WithDecoder.

Variable json_loads : string -> option Json.

Lemma accept_sound (text : string) (result : Json) :
  accept json_loads text = Some result ->
  json_loads text = Some result /\ is_list_of_dicts result = true.
Proof.
  unfold accept. destruct (json_loads text) as [j|]; [|done].
  destruct (is_list_of_dicts j) eqn:Hj; [|done]. by intros [= <-].
Qed.

(** The first element of a list that a partial function accepts is
    determined by the list. *)
Lemma first_accepted_unique {A B} (f : A -> option B)
    (pre pre' post post' : list A) (x x' : A) :
  (pre ++ x :: post = pre' ++ x' :: post')%list ->
  Forall (fun c => f c = None) pre -> is_Some (f x) ->
  Forall (fun c => f c = None) pre' -> is_Some (f x') ->
  x = x'.
Proof.
  revert pre'. induction pre as [|c pre IH]; intros pre' Heq Hpre Hx Hpre' Hx'.
  - destruct pre' as [|c' pre']; simplify_eq/=; [done|].
    apply Forall_cons in Hpre' as [Hnone _]. rewrite Hnone in Hx.
    by destruct Hx.
  - apply Forall_cons in Hpre as [Hnone Hpre].
    destruct pre' as [|c' pre']; simplify_eq/=.
    + rewrite Hnone in Hx'. by destruct Hx'.
    + apply Forall_cons in Hpre' as [_ Hpre']. by eapply IH.
Qed.

(** Either the first accepted candidate is returned, or none is accepted
    and the error is raised. *)
Lemma parse_json_response_cases (raw : string) :
  (exists result pre text post,
      parse_json_response json_loads raw = inr result
      /\ candidates raw = (pre ++ text :: post)%list
      /\ Forall (fun c => accept json_loads c = None) pre
      /\ accept json_loads text = Some result)
  \/ (parse_json_response json_loads raw
      = inl ("LLM returned invalid JSON: " +:+ String.substring 0 200 raw)
      /\ Forall (fun c => accept json_loads c = None) (candidates raw)).
Proof.
  unfold parse_json_response, candidates.
  destruct (accept json_loads (strip raw)) as [r1|] eqn:H1.
  { left. exists r1, [], (strip raw). eexists. by repeat split. }
  destruct (first_block raw) as [b|]; simpl.
  - destruct (accept json_loads b) as [r2|] eqn:H2.
    { left. exists r2, [strip raw], b. eexists.
      repeat split; try done; by repeat constructor. }
    destruct (bracket_span raw) as [sp|]; simpl.
    + destruct (accept json_loads sp) as [r3|] eqn:H3.
      { left. exists r3, [strip raw; b], sp, [].
        repeat split; try done; by repeat constructor. }
      right. split; [done|]. by repeat constructor.
    + right. split; [done|]. by repeat constructor.
  - destruct (bracket_span raw) as [sp|]; simpl.
    + destruct (accept json_loads sp) as [r3|] eqn:H3.
      { left. exists r3, [strip raw], sp, [].
        repeat split; try done; by repeat constructor. }
      right. split; [done|]. by repeat constructor.
    + right. split; [done|]. by repeat constructor.
Qed.

(** X19.  [parse_json_response] hands up to three texts to the decoder, in
    order: the stripped answer, the first bracketed block, the span from
    the first opening to the last closing bracket.  It returns the result
    of the first text that is accepted, that is, decoded to a list of
    dictionaries; it raises exactly when none is accepted, and the message
    then ends with the first 200 characters of the answer. *)
Theorem parse_json_response_tries_candidates (raw : string) :
  (forall result,
      parse_json_response json_loads raw = inr result
      <-> exists pre text post,
            candidates raw = (pre ++ text :: post)%list
            /\ Forall (fun c => accept json_loads c = None) pre
            /\ accept json_loads text = Some result)
  /\ (forall msg,
        parse_json_response json_loads raw = inl msg
        <-> msg = "LLM returned invalid JSON: " +:+ String.substring 0 200 raw
            /\ Forall (fun c => accept json_loads c = None) (candidates raw))
  /\ (forall text result,
        accept json_loads text = Some result
        <-> json_loads text = Some result /\ is_list_of_dicts result = true).
Proof.
  split; [|split].
  - intros result. split.
    + intros Hparse.
      destruct (parse_json_response_cases raw)
        as [(r & pre & text & post & Hr & Hcand & Hpre & Htext)|[Hraise _]];
        [|congruence].
      assert (r = result) as -> by congruence. by exists pre, text, post.
    + intros (pre & text & post & Hcand & Hpre & Htext).
      destruct (parse_json_response_cases raw)
        as [(r & pre' & text' & post' & Hr & Hcand' & Hpre' & Htext')
           |[_ Hnone]].
      * rewrite Hcand in Hcand'.
        assert (text = text') as <-
          by (by eapply (first_accepted_unique (accept json_loads))).
        congruence.
      * rewrite Hcand in Hnone. apply Forall_app in Hnone as [_ Hnone].
        apply Forall_cons in Hnone as [Hnone _]. congruence.
  - intros msg. split.
    + intros Hparse.
      destruct (parse_json_response_cases raw)
        as [(r & _ & _ & _ & Hr & _)|[Hraise Hnone]]; [congruence|].
      split; [congruence|done].
    + intros [-> Hnone].
      destruct (parse_json_response_cases raw)
        as [(r & pre & text & post & _ & Hcand & _ & Htext)|[Hraise _]];
        [|done].
      rewrite Hcand in Hnone. apply Forall_app in Hnone as [_ Hnone].
      apply Forall_cons in Hnone as [Hnone _]. congruence.
  - intros text result. split; [apply accept_sound|].
    intros [Hloads Hdicts]. unfold accept. by rewrite Hloads, Hdicts.
Qed.

End WithDecoder.

Lemma find_Some (c : ascii) (s : string) : forall i : nat,
  find c s = Some i ->
  String.get i s = Some c /\ forall j, j < i -> String.get j s <> Some c.
Proof.
  induction s as [|x s IH]; intros i; [done|]. simpl.
  destruct (Ascii.eqb x c) eqn:Hx.
  - intros [= <-]. apply Ascii.eqb_eq in Hx as ->. split; [done|]. lia.
  - destruct (find c s) as [k|]; [|done]. intros [= <-].
    destruct (IH k eq_refl) as [Hget Hbefore]. split; [done|].
    intros [|j] Hj; simpl.
    + intros [= ->]. by rewrite Ascii.eqb_refl in Hx.
    + apply Hbefore. lia.
Qed.

Lemma find_None (c : ascii) (s : string) :
  find c s = None -> forall j, String.get j s <> Some c.
Proof.
  induction s as [|x s IH]; [by intros _ [|j]|]. simpl.
  destruct (Ascii.eqb x c) eqn:Hx; [done|].
  destruct (find c s) as [k|]; [done|]. intros _ [|j]; simpl.
  - intros [= ->]. by rewrite Ascii.eqb_refl in Hx.
  - by apply IH.
Qed.

Lemma rfind_Some (c : ascii) (s : string) : forall i : nat,
  rfind c s = Some i ->
  String.get i s = Some c /\ forall j, i < j -> String.get j s <> Some c.
Proof.
  induction s as [|x s IH]; intros i; [done|]. simpl.
  destruct (rfind c s) as [k|] eqn:Hr.
  - intros [= <-]. destruct (IH k eq_refl) as [Hget Hafter]. split; [done|].
    intros [|j] Hj; [lia|]. simpl. apply Hafter. lia.
  - destruct (Ascii.eqb x c) eqn:Hx; [|done]. intros [= <-].
    apply Ascii.eqb_eq in Hx as ->. split; [done|].
    intros [|j] Hj; [lia|]. simpl. clear IH Hj. revert j.
    induction s as [|y s IHs]; intros j; [by destruct j|].
    simpl in Hr. destruct (rfind c s) as [k|]; [done|].
    destruct (Ascii.eqb y c) eqn:Hy; [done|]. destruct j as [|j]; simpl.
    + intros [= ->]. by rewrite Ascii.eqb_refl in Hy.
    + by apply IHs.
Qed.

Lemma rfind_None (c : ascii) (s : string) :
  rfind c s = None -> forall j, String.get j s <> Some c.
Proof.
  induction s as [|x s IH]; [by intros _ [|j]|]. simpl.
  destruct (rfind c s) as [k|]; [done|].
  destruct (Ascii.eqb x c) eqn:Hx; [done|]. intros _ [|j]; simpl.
  - intros [= ->]. by rewrite Ascii.eqb_refl in Hx.
  - by apply IH.
Qed.

Lemma get_drop (n : nat) : forall (s : string) (j : nat),
  String.get j (PyStr.drop n s) = String.get (n + j) s.
Proof.
  induction n as [|n IH]; intros s j; [done|].
  destruct s as [|x s]; simpl; [by destruct j|]. apply IH.
Qed.

Lemma prefix_substring (s : string) : forall first n m : nat,
  n <= m ->
  String.prefix (String.substring first n s) (String.substring first m s) = true.
Proof.
  induction s as [|x s IH]; intros first n m Hnm.
  - by destruct first, n, m.
  - destruct first as [|first]; simpl; [|by apply IH].
    destruct n as [|n]; [by destruct m|]. destruct m as [|m]; [lia|]. simpl.
    destruct (ascii_dec x x); [|done]. apply IH. lia.
Qed.

(** X20.  The second and the third try look at the same place: the answer
    has a first bracketed block exactly when it has a span from its first
    opening to its last closing bracket, and the span starts with the
    block.  An answer without an opening bracket, or with no closing bracket
    after the first opening one, is decoded once, as a whole. *)
Theorem bracket_span_extends_first_block (raw : string) :
  (is_Some (first_block raw) <-> is_Some (bracket_span raw))
  /\ (forall block span,
        first_block raw = Some block -> bracket_span raw = Some span ->
        String.prefix block span = true)
  /\ (first_block raw = None -> candidates raw = [strip raw]).
Proof.
  assert (Hboth : forall block, first_block raw = Some block ->
            exists span, bracket_span raw = Some span
                         /\ String.prefix block span = true).
  { unfold first_block, bracket_span. intros block.
    destruct (find lbracket raw) as [first|]; cbn [mbind option_bind]; [|done].
    destruct (find rbracket (PyStr.drop (S first) raw)) as [close|] eqn:Hclose;
      cbn [mbind option_bind]; [|done].
    intros [= <-].
    apply find_Some in Hclose as [Hget _]. rewrite get_drop in Hget.
    destruct (rfind rbracket raw) as [last|] eqn:Hlast;
      [|by apply rfind_None with (j := S first + close) in Hlast].
    cbn [mbind option_bind]. apply rfind_Some in Hlast as [_ Hafter].
    assert (S first + close <= last) as Hle.
    { destruct (decide (S first + close <= last)) as [|Hgt]; [done|].
      by destruct (Hafter (S first + close) ltac:(lia)). }
    destruct (Nat.ltb_spec first last) as [_|?]; [|lia].
    eexists. split; [done|]. apply prefix_substring. lia. }
  assert (Hback : forall span, bracket_span raw = Some span ->
            is_Some (first_block raw)).
  { unfold first_block, bracket_span. intros span.
    destruct (find lbracket raw) as [first|]; cbn [mbind option_bind]; [|done].
    destruct (rfind rbracket raw) as [last|] eqn:Hlast;
      cbn [mbind option_bind]; [|done].
    destruct (Nat.ltb_spec first last) as [Hlt|?]; [|done]. intros _.
    apply rfind_Some in Hlast as [Hget _].
    destruct (find rbracket (PyStr.drop (S first) raw)) as [close|] eqn:Hclose;
      [done|].
    apply find_None with (j := last - S first) in Hclose.
    rewrite get_drop in Hclose.
    by replace (S first + (last - S first)) with last in Hclose by lia. }
  split; [|split].
  - split.
    + intros [block Hblock]. destruct (Hboth _ Hblock) as (span & -> & _). done.
    + intros [span Hspan]. by eapply Hback.
  - intros block span Hblock Hspan.
    destruct (Hboth _ Hblock) as (span' & Hspan' & Hprefix). congruence.
  - intros Hnone. unfold candidates. rewrite Hnone.
    destruct (bracket_span raw) as [span|]; [|done].
    destruct (Hback span eq_refl) as [block Hblock]. congruence.
Qed.

Example parse_clean_answer :
  parse_json_response toy_loads "  [{}]  " = inr (JList [JDict []]).
Proof. vm_compute. reflexivity. Qed.

Example parse_answer_with_prose :
  parse_json_response toy_loads "Here you go: [{}] (1 row)" = inr (JList [JDict []]).
Proof. vm_compute. reflexivity. Qed.

Example parse_answer_not_rows :
  parse_json_response toy_loads "[1]"
  = inl "LLM returned invalid JSON: [1]".
Proof. vm_compute. reflexivity. Qed.

End LlmBaseFacts.

(* ===================================================================== *)
(** ** Properties of the project manager *)
(* ===================================================================== *)

Module ProjectManagerFacts.
Import Fs ProjectManager LlmBase.

(** *** The file operations *)

Lemma node_at_insert (fs : FileSystem) (p q : Path) (node : Node) :
  p <> [] ->
  node_at (<[p := node]> fs) q
  = if decide (q = p) then Some node else node_at fs q.
Proof.
  intros Hp. destruct q as [|x q]; simpl.
  - case_decide; [by subst|done].
  - case_decide as Heq.
    + subst p. by rewrite lookup_insert_eq.
    + by rewrite lookup_insert_ne.
Qed.

Lemma write_text_inr (p : Path) (text : string) (fs fs' : FileSystem) :
  write_text p text fs = (inr tt, fs') ->
  p <> [] /\ fs' = <[p := File text]> fs.
Proof.
  unfold write_text. destruct p as [|x parent]; [done|].
  destruct (node_at fs parent) as [[|?]|]; simpl; [|done|done].
  repeat case_match; try done; by intros [= <-].
Qed.

Lemma read_text_file (p : Path) (text : string) (fs : FileSystem) :
  node_at fs p = Some (File text) -> read_text p fs = (inr text, fs).
Proof. unfold read_text. by intros ->. Qed.

Lemma path_exists_node (p : Path) (fs : FileSystem) :
  path_exists p fs
  = (inr (match node_at fs p with Some _ => true | None => false end), fs).
Proof. done. Qed.

(** Looking a path up below a stack of insertions. *)
Local Ltac fs_lookup :=
  cbn [node_at];
  repeat first [rewrite lookup_insert_eq | rewrite lookup_insert_ne by done].

Lemma os_mkdir_new (name : string) (parent : Path) (fs : FileSystem) :
  node_at fs parent = Some Dir -> fs !! (name :: parent) = None ->
  os_mkdir (name :: parent) fs = (inr tt, <[name :: parent := Dir]> fs).
Proof. unfold os_mkdir. by intros -> ->. Qed.

Lemma mkdir_new (exist_ok : bool) (name : string) (parent : Path)
    (fs : FileSystem) :
  node_at fs parent = Some Dir -> fs !! (name :: parent) = None ->
  mkdir exist_ok (name :: parent) fs
  = (inr tt, <[name :: parent := Dir]> fs).
Proof. intros Hparent Hnew. unfold mkdir. by rewrite os_mkdir_new. Qed.

Lemma mkdir_parents_new (exist_ok : bool) (name : string) (parent : Path)
    (fs : FileSystem) :
  node_at fs parent = Some Dir -> fs !! (name :: parent) = None ->
  mkdir_parents exist_ok (name :: parent) fs
  = (inr tt, <[name :: parent := Dir]> fs).
Proof.
  intros Hparent Hnew. cbn [mkdir_parents]. by rewrite os_mkdir_new.
Qed.

Lemma write_text_new (name : string) (parent : Path) (text : string)
    (fs : FileSystem) :
  node_at fs parent = Some Dir -> fs !! (name :: parent) <> Some Dir ->
  write_text (name :: parent) text fs
  = (inr tt, <[name :: parent := File text]> fs).
Proof.
  unfold write_text. intros -> Hnode. by repeat case_match.
Qed.

(** Nothing lies below a missing path. *)
Lemma well_formed_below (fs : FileSystem) (p : Path) (name : string) :
  well_formed fs -> node_at fs p = None -> fs !! child p name = None.
Proof.
  intros Hwf Hnone. destruct (fs !! child p name) as [node|] eqn:Hnode; [|done].
  assert (is_dir fs p = true) as Hdir by (by eapply Hwf).
  unfold is_dir in Hdir. by rewrite Hnone in Hdir.
Qed.

Section WithCodecs.

Variable dumps : Json -> string.
Variable loads : string -> Error + Json.
Variable config_dump : ProjectConfig -> Json.
Variable column_dump : Column -> Json.
Variable frame_write : string -> list Executor.Row -> Path -> IO unit.
Variable frame_read : string -> Node -> Error + list Executor.Row.

Lemma load_json_file (p : Path) (text : string) (fs : FileSystem) :
  node_at fs p = Some (File text) -> load_json loads p fs = (loads text, fs).
Proof.
  intros Hnode. unfold load_json, mbind, IO_bind.
  rewrite (read_text_file _ _ _ Hnode). by destruct (loads text).
Qed.

Lemma load_json_reads_only (p : Path) (fs : FileSystem) :
  (load_json loads p fs).2 = fs.
Proof.
  unfold load_json, mbind, IO_bind, read_text.
  destruct (node_at fs p) as [[|text]|]; [done| |done].
  by destruct (loads text).
Qed.

Lemma get_project_reads_only (name : string) (fs : FileSystem) :
  (get_project loads name fs).2 = fs.
Proof.
  unfold get_project, mbind, IO_bind. rewrite path_exists_node.
  destruct (node_at fs _); [|done]. apply load_json_reads_only.
Qed.

Lemma get_project_file (name text : string) (fs : FileSystem) :
  node_at fs (child (_project_path name) "project.json") = Some (File text) ->
  get_project loads name fs = (loads text, fs).
Proof.
  intros Hnode. unfold get_project, mbind, IO_bind.
  rewrite path_exists_node, Hnode. by apply load_json_file.
Qed.

(** X21.  A project is created once.  Where no project of that name
    exists, [create_project] makes the project directory with its three
    layer directories and returns the configuration; afterwards
    [get_project] returns that configuration, and another [create_project]
    with the same name raises [ValueError] and changes nothing. *)
Theorem project_is_created_once (now : string) (req : CreateProjectRequest)
    (fs : FileSystem) :
  let data := config_dump {|
    cfg_name := req_name req; cfg_platform := req_platform req;
    cfg_dialect := req_dialect req; cfg_catalog := req_catalog req;
    cfg_schema_layer := req_schema_layer req; cfg_created_at := now |} in
  plain_path (_project_path (req_name req)) = true ->
  well_formed fs ->
  node_at fs (_project_path (req_name req)) = None ->
  loads (dumps data) = inr data ->
  exists fs',
    create_project dumps config_dump now req fs = (inr data, fs')
    /\ get_project loads (req_name req) fs' = (inr data, fs')
    /\ (forall layer,
          is_dir fs' (child (_project_path (req_name req)) (layer_name layer))
          = true)
    /\ forall now' req',
         req_name req' = req_name req ->
         create_project dumps config_dump now' req' fs'
         = (inl (ValueError ("Project '" +:+ req_name req +:+ "' already exists")),
            fs').
Proof.
  intros data _ Hwf Hnone Hjson.
  assert (Hbelow : forall name,
            fs !! child (_project_path (req_name req)) name = None)
    by (intros name; by apply well_formed_below).
  unfold child, _project_path in *.
  set (project := req_name req +:+ ".tforge") in *.
  eexists. split; [|split; [|split]].
  - unfold create_project, mbind, IO_bind. rewrite path_exists_node.
    unfold child, _project_path. fold project. rewrite Hnone.
    rewrite (mkdir_parents_new false _ [] fs eq_refl Hnone).
    rewrite mkdir_new by (by fs_lookup).
    rewrite mkdir_new by (by fs_lookup).
    rewrite mkdir_new by (by fs_lookup).
    rewrite write_text_new by (fs_lookup; by rewrite ?Hbelow).
    reflexivity.
  - rewrite (get_project_file _ (dumps data)); [by rewrite Hjson|].
    unfold child, _project_path. fold project. by fs_lookup.
  - intros layer. unfold is_dir. destruct layer; by fs_lookup.
  - intros now' req' Hname. unfold create_project, mbind, IO_bind.
    rewrite path_exists_node, Hname. unfold _project_path. fold project.
    by fs_lookup.
Qed.

(** X22.  [create_table] resets a table.  Whatever the table held before,
    when [create_table] returns, its result has the all-default columns and
    an empty note for every column, and [get_table_spec] then returns the
    same result. *)
Theorem created_table_reads_back (project_name : string)
    (req : CreateTableRequest) (fs fs' : FileSystem) (spec : TableSpecDoc) :
  let layer := layer_name (table_req_layer req) in
  let columns :=
    JList (map (fun col => column_dump (default_column col))
               (table_req_columns req)) in
  let notes := empty_notes (table_req_columns req) in
  plain_path (_table_path project_name layer (table_req_name req)) = true ->
  loads (dumps columns) = inr columns ->
  loads (dumps notes) = inr notes ->
  create_table dumps loads column_dump project_name req fs = (inr spec, fs') ->
  spec_columns spec = columns
  /\ spec_notes spec = notes
  /\ get_table_spec loads project_name layer (table_req_name req) fs'
     = (inr spec, fs').
Proof.
  intros layer columns notes _ Hcolumns Hnotes.
  unfold create_table, mbind, IO_bind. rewrite path_exists_node.
  destruct (node_at fs (_project_path project_name)); [|done].
  fold layer columns notes.
  set (table_path := _table_path project_name layer (table_req_name req)).
  destruct (mkdir_parents true table_path fs) as [[exc|[]] fs1]; [done|].
  destruct (write_text (child table_path "schema.json") _ fs1)
    as [[exc|[]] fs2] eqn:Hschema; [done|].
  apply write_text_inr in Hschema as [_ ->].
  destruct (write_text (child table_path "transformations.json") _ _)
    as [[exc|[]] fs3] eqn:Hcols; [done|].
  apply write_text_inr in Hcols as [_ ->].
  destruct (write_text (child table_path "column_notes.json") _ _)
    as [[exc|[]] fs4] eqn:Hnote; [done|].
  apply write_text_inr in Hnote as [_ ->].
  match goal with
  | |- context [get_project loads project_name ?fs4] =>
      pose proof (get_project_reads_only project_name fs4) as Hsame;
      destruct (get_project loads project_name fs4) as [[exc|project] fs5]
        eqn:Hproject
  end; [done|].
  simpl in Hsame. subst fs5. intros [= <- <-]. split; [done|]. split; [done|].
  unfold get_table_spec, mbind, IO_bind. fold table_path.
  rewrite (load_json_file _ (dumps columns)) by (unfold child; by fs_lookup).
  rewrite Hcolumns.
  rewrite (load_json_file _ (dumps notes)) by (unfold child; by fs_lookup).
  rewrite Hnotes. by rewrite Hproject.
Qed.

(** X23.  [create_table] checks that the project directory exists but
    reads [project.json] only at the end: in a project directory without
    that file it raises [FileNotFoundError] after it has made the table
    directory and written the table's three files. *)
Theorem create_table_without_config_writes_first (project_name : string)
    (req : CreateTableRequest) (fs : FileSystem) :
  let layer := layer_name (table_req_layer req) in
  let table_path := _table_path project_name layer (table_req_name req) in
  plain_path table_path = true ->
  well_formed fs ->
  is_dir fs (child (_project_path project_name) layer) = true ->
  node_at fs (child (_project_path project_name) "project.json") = None ->
  node_at fs table_path = None ->
  exists fs',
    create_table dumps loads column_dump project_name req fs
    = (inl (FileNotFoundError ("Project '" +:+ project_name +:+ "' not found")),
       fs')
    /\ is_dir fs' table_path = true
    /\ (forall file,
          file ∈ ["schema.json"; "transformations.json"; "column_notes.json"] ->
          exists text, node_at fs' (child table_path file) = Some (File text)).
Proof.
  intros layer table_path _ Hwf Hlayer Hconfig Htable.
  assert (Hbelow : forall name, fs !! child table_path name = None)
    by (intros name; by apply well_formed_below).
  assert (Hproject : is_dir fs (_project_path project_name) = true).
  { apply (Hwf layer). unfold is_dir in Hlayer. unfold child in *.
    simpl in Hlayer. by destruct (fs !! _). }
  unfold is_dir in Hlayer, Hproject.
  destruct (node_at fs (child (_project_path project_name) layer))
    as [[|?]|] eqn:Hlayer'; try done.
  destruct (node_at fs (_project_path project_name)) as [[|?]|] eqn:Hproject';
    try done.
  subst table_path. unfold _table_path, child, _project_path in *.
  set (project := project_name +:+ ".tforge") in *.
  eexists. split; [|split].
  - unfold create_table, mbind, IO_bind. rewrite path_exists_node.
    unfold _table_path, child, _project_path. fold project layer.
    rewrite Hproject'.
    rewrite (mkdir_parents_new true _ _ fs Hlayer' Htable).
    rewrite write_text_new by (fs_lookup; by rewrite ?Hbelow).
    rewrite write_text_new by (fs_lookup; by rewrite ?Hbelow).
    rewrite write_text_new by (fs_lookup; by rewrite ?Hbelow).
    unfold get_project, mbind, IO_bind. rewrite path_exists_node.
    unfold child, _project_path. fold project.
    fs_lookup. simpl in Hconfig. by rewrite Hconfig.
  - unfold is_dir. by fs_lookup.
  - intros file Hfile. apply list_elem_of_In in Hfile. simpl in Hfile.
    destruct Hfile as [<-|[<-|[<-|[]]]]; eexists; by fs_lookup.
Qed.

Lemma load_json_inr (p : Path) (doc : Json) (fs fs' : FileSystem) :
  load_json loads p fs = (inr doc, fs') ->
  exists text, node_at fs p = Some (File text) /\ loads text = inr doc.
Proof.
  unfold load_json, mbind, IO_bind, read_text.
  destruct (node_at fs p) as [[|text]|]; [done| |done].
  unfold lift. intros [= Hloads _]. by exists text.
Qed.

Lemma get_project_inr (name : string) (doc : Json) (fs fs' : FileSystem) :
  get_project loads name fs = (inr doc, fs') ->
  exists text,
    node_at fs (child (_project_path name) "project.json") = Some (File text)
    /\ loads text = inr doc.
Proof.
  unfold get_project, mbind, IO_bind. rewrite path_exists_node.
  destruct (node_at fs _) eqn:Hnode; [|done]. intros Hload.
  apply load_json_inr in Hload as (text & Hfile & Hloads).
  exists text. split; [|done]. congruence.
Qed.

(** X27.  [save_transformations] replaces the columns of the table
    document and nothing else of it: in a table whose notes and project
    could be read, [get_table_spec] afterwards returns the saved columns
    with the notes and the project as they were. *)
Theorem saved_transformations_read_back (project_name layer table_name : string)
    (columns notes project : Json) (fs fs' : FileSystem) :
  let table_path := _table_path project_name layer table_name in
  plain_path table_path = true ->
  loads (dumps columns) = inr columns ->
  load_json loads (child table_path "column_notes.json") fs = (inr notes, fs) ->
  get_project loads project_name fs = (inr project, fs) ->
  save_transformations dumps project_name layer table_name columns fs
  = (inr tt, fs') ->
  get_table_spec loads project_name layer table_name fs'
  = (inr {| spec_project := project; spec_table_name := table_name;
            spec_table_layer := layer; spec_columns := columns;
            spec_notes := notes |}, fs').
Proof.
  intros table_path _ Hcolumns Hnotes Hproject Hsave.
  apply load_json_inr in Hnotes as (notes_text & Hnotes_file & Hnotes).
  apply get_project_inr in Hproject as (project_text & Hproject_file & Hproject).
  apply write_text_inr in Hsave as [_ ->].
  unfold get_table_spec, mbind, IO_bind. fold table_path.
  subst table_path. unfold _table_path, child, _project_path in *.
  rewrite (load_json_file _ (dumps columns)) by (by fs_lookup).
  rewrite Hcolumns.
  rewrite (load_json_file _ notes_text) by (by fs_lookup).
  rewrite Hnotes.
  rewrite (get_project_file _ project_text);
    [by rewrite Hproject|].
  unfold _table_path, child, _project_path. by fs_lookup.
Qed.

(** X26.  [get_validation_results] returns what [save_validation_results]
    stored, and storing it touches no other path. *)
Theorem validation_results_read_back (project_name layer table_name : string)
    (results : Json) (fs fs' : FileSystem) :
  let results_file :=
    child (_table_path project_name layer table_name)
          "validation_results.json" in
  plain_path (_table_path project_name layer table_name) = true ->
  loads (dumps results) = inr results ->
  save_validation_results dumps project_name layer table_name results fs
  = (inr tt, fs') ->
  get_validation_results loads project_name layer table_name fs'
  = (inr results, fs')
  /\ forall q, q <> results_file -> node_at fs' q = node_at fs q.
Proof.
  intros results_file _ Hjson Hsave.
  apply write_text_inr in Hsave as [_ ->]. fold results_file. split.
  - assert (node_at (<[results_file := File (dumps results)]> fs) results_file
            = Some (File (dumps results))) as Hnode
      by (unfold results_file, child; by fs_lookup).
    unfold get_validation_results, mbind, IO_bind. rewrite path_exists_node.
    fold results_file. rewrite Hnode, (load_json_file _ _ _ Hnode).
    by rewrite Hjson.
  - intros q Hq. rewrite node_at_insert by done. by rewrite decide_False.
Qed.

(** *** Synthetic data *)

Lemma synthetic_file_inj (table_path : Path) (fmt fmt' : string) :
  synthetic_file table_path fmt = synthetic_file table_path fmt' -> fmt = fmt'.
Proof.
  unfold synthetic_file, child. intros [= Heq].
  exact Heq.
Qed.

Lemma formats_nodup : NoDup _FORMATS.
Proof. by apply (bool_decide_unpack _). Qed.

Lemma read_first_synthetic_reads_only (table_path : Path)
    (formats : list string) (fs : FileSystem) :
  (read_first_synthetic frame_read table_path formats fs).2 = fs.
Proof.
  induction formats as [|fmt later IH]; [done|]. cbn [read_first_synthetic].
  destruct (node_at fs (synthetic_file table_path fmt)) as [node|]; [|done].
  by destruct (frame_read fmt node).
Qed.

Lemma read_first_synthetic_inr (table_path : Path) (formats : list string)
    (fs fs' : FileSystem) (r : SyntheticData) :
  read_first_synthetic frame_read table_path formats fs = (inr r, fs') ->
  synthetic_row_count r = length (synthetic_data r)
  /\ exists pre post node,
       formats = (pre ++ synthetic_format r :: post)%list
       /\ Forall (fun fmt => node_at fs (synthetic_file table_path fmt) = None)
                 pre
       /\ node_at fs (synthetic_file table_path (synthetic_format r))
          = Some node
       /\ frame_read (synthetic_format r) node = inr (synthetic_data r).
Proof.
  induction formats as [|fmt later IH]; [done|]. cbn [read_first_synthetic].
  destruct (node_at fs (synthetic_file table_path fmt)) as [node|] eqn:Hnode.
  - destruct (frame_read fmt node) as [exc|data] eqn:Hread; [done|].
    intros [= <- _]. split; [done|]. by exists [], later, node.
  - intros Hlater. destruct (IH Hlater) as (Hcount & pre & post & node & Hfmts
      & Hpre & Hfound & Hread).
    split; [done|]. exists (fmt :: pre), post, node.
    split; [by rewrite Hfmts|]. split; [by constructor|done].
Qed.

Lemma read_first_synthetic_none (table_path : Path) (formats : list string)
    (fs : FileSystem) :
  Forall (fun fmt => node_at fs (synthetic_file table_path fmt) = None) formats ->
  read_first_synthetic frame_read table_path formats fs
  = (inl (FileNotFoundError "No synthetic data found for this table"), fs).
Proof.
  induction 1 as [|fmt later Hnone _ IH]; [done|]. cbn [read_first_synthetic]. by rewrite Hnone.
Qed.

(** What the loop returns is decided by the formats up to the first one
    that has a file. *)
Lemma read_first_synthetic_agree (table_path : Path) (pre rest : list string)
    (fs fs' : FileSystem) :
  Forall (fun fmt => node_at fs' (synthetic_file table_path fmt)
                     = node_at fs (synthetic_file table_path fmt)) pre ->
  Exists (fun fmt => is_Some (node_at fs (synthetic_file table_path fmt))) pre ->
  (read_first_synthetic frame_read table_path (pre ++ rest) fs').1
  = (read_first_synthetic frame_read table_path (pre ++ rest) fs).1.
Proof.
  induction 1 as [|fmt pre Hsame _ IH]; intros Hfound.
  - by apply Exists_nil in Hfound.
  - cbn [read_first_synthetic app]. rewrite Hsame.
    destruct (node_at fs (synthetic_file table_path fmt)) as [node|] eqn:Hnode.
    + by destruct (frame_read fmt node).
    + apply IH. apply Exists_cons in Hfound as [[? Hsome]|]; [|done].
      rewrite Hnode in Hsome. done.
Qed.

Lemma read_first_synthetic_hit (table_path : Path) (fmt : string)
    (node : Node) (post : list string) (fs : FileSystem) :
  forall pre : list string,
  Forall (fun f => node_at fs (synthetic_file table_path f) = None) pre ->
  node_at fs (synthetic_file table_path fmt) = Some node ->
  read_first_synthetic frame_read table_path (pre ++ fmt :: post) fs
  = (match frame_read fmt node with
     | inl exc => inl exc
     | inr data =>
         inr {| synthetic_data := data; synthetic_format := fmt;
                synthetic_row_count := length data |}
     end, fs).
Proof.
  intros pre Hpre Hnode. induction Hpre as [|f pre Hnone _ IH].
  - cbn [app read_first_synthetic]. rewrite Hnode.
    by destruct (frame_read fmt node).
  - cbn [app read_first_synthetic]. by rewrite Hnone.
Qed.

(** X24.  [get_synthetic_data] reads the file of the first format, in the
    order csv, json, ndjson, xlsx, parquet, that has one.  What the reader
    makes of that file decides the call: its rows are returned with the
    format and their number as [row_count], or its exception is raised,
    and a file of a later format is not looked at.  Without any such file
    the call raises [FileNotFoundError].  Nothing is changed. *)
Theorem synthetic_data_first_format_wins (project_name layer table_name : string)
    (fs : FileSystem) :
  let table_path := _table_path project_name layer table_name in
  plain_path table_path = true ->
  (get_synthetic_data frame_read project_name layer table_name fs).2 = fs
  /\ (forall (pre post : list string) (fmt : string) (node : Node),
        _FORMATS = (pre ++ fmt :: post)%list ->
        Forall (fun f => node_at fs (synthetic_file table_path f) = None) pre ->
        node_at fs (synthetic_file table_path fmt) = Some node ->
        (get_synthetic_data frame_read project_name layer table_name fs).1
        = match frame_read fmt node with
          | inl exc => inl exc
          | inr data =>
              inr {| synthetic_data := data; synthetic_format := fmt;
                     synthetic_row_count := length data |}
          end)
  /\ (Forall (fun fmt => node_at fs (synthetic_file table_path fmt) = None)
             _FORMATS ->
      get_synthetic_data frame_read project_name layer table_name fs
      = (inl (FileNotFoundError "No synthetic data found for this table"), fs))
  /\ (forall r fs',
        get_synthetic_data frame_read project_name layer table_name fs
        = (inr r, fs') ->
        fs' = fs
        /\ synthetic_row_count r = length (synthetic_data r)
        /\ exists pre post node,
             _FORMATS = (pre ++ synthetic_format r :: post)%list
             /\ Forall (fun fmt =>
                          node_at fs (synthetic_file table_path fmt) = None) pre
             /\ node_at fs (synthetic_file table_path (synthetic_format r))
                = Some node
             /\ frame_read (synthetic_format r) node = inr (synthetic_data r)).
Proof.
  intros table_path _. unfold get_synthetic_data. fold table_path.
  split; [apply read_first_synthetic_reads_only|]. split; [|split].
  - intros pre post fmt node -> Hpre Hnode.
    by rewrite (read_first_synthetic_hit _ _ node).
  - apply read_first_synthetic_none.
  - intros r fs' Hget. split.
    + pose proof (read_first_synthetic_reads_only table_path _FORMATS fs) as Hfs.
      by rewrite Hget in Hfs.
    + by eapply read_first_synthetic_inr.
Qed.

(** X25.  Saving synthetic data in one format does not replace the file of
    another: while a file of a format earlier in the order exists, saving
    in a later format leaves what [get_synthetic_data] returns unchanged.
    The writer is taken to touch no path but the one it is given. *)
Theorem saving_later_format_keeps_earlier_data
    (project_name layer table_name : string) (data : list Executor.Row)
    (fmt earlier : string) (pre post : list string) (fs : FileSystem) :
  let table_path := _table_path project_name layer table_name in
  let fs' :=
    (save_synthetic_data frame_write project_name layer table_name data fmt fs).2 in
  plain_path table_path = true ->
  (forall q, q <> synthetic_file table_path fmt ->
     node_at (frame_write fmt data (synthetic_file table_path fmt) fs).2 q
     = node_at fs q) ->
  _FORMATS = (pre ++ fmt :: post)%list ->
  earlier ∈ pre ->
  is_Some (node_at fs (synthetic_file table_path earlier)) ->
  get_synthetic_data frame_read project_name layer table_name fs'
  = ((get_synthetic_data frame_read project_name layer table_name fs).1, fs').
Proof.
  intros table_path fs' _ Hframe Hformats Hearlier Hfile.
  pose proof formats_nodup as Hnodup. rewrite Hformats in Hnodup.
  apply NoDup_app in Hnodup as (_ & Hfresh & _).
  assert (Hfs' : fs' = (frame_write fmt data (synthetic_file table_path fmt) fs).2).
  { unfold fs', save_synthetic_data. rewrite bool_decide_eq_true_2; [done|].
    rewrite Hformats. apply elem_of_app. right. apply elem_of_cons. by left. }
  unfold get_synthetic_data. fold table_path.
  rewrite (surjective_pairing (read_first_synthetic _ _ _ fs')).
  rewrite read_first_synthetic_reads_only. f_equal.
  rewrite Hformats. apply read_first_synthetic_agree.
  - apply Forall_forall. intros f Hf. rewrite Hfs'. apply Hframe.
    intros Heq%synthetic_file_inj. subst f. apply (Hfresh fmt Hf).
    apply elem_of_cons. by left.
  - apply Exists_exists. by exists earlier.
Qed.

End WithCodecs.

(** *** The sample project *)

Lemma well_formed_empty : well_formed ∅.
Proof. intros name p [node Hnode]. by rewrite lookup_empty in Hnode. Defined.

Lemma well_formed_bare_fs : well_formed bare_fs.
Proof.
  intros name p [node Hnode]. unfold bare_fs in Hnode.
  apply lookup_insert_Some in Hnode as [[[= <- <-] _]|[_ Hnode]]; [done|].
  apply lookup_insert_Some in Hnode as [[[= <- <-] _]|[_ Hnode]]; [done|].
  by rewrite lookup_empty in Hnode.
Defined.

Lemma write_text_frame (p q : Path) (text : string) (fs : FileSystem) :
  q <> p -> node_at (write_text p text fs).2 q = node_at fs q.
Proof.
  intros Hq. destruct (write_text p text fs) as [[exc|[]] fs'] eqn:Hwrite.
  - unfold write_text in Hwrite. repeat case_match; by simplify_eq.
  - apply write_text_inr in Hwrite as [Hp ->]. simpl.
    rewrite node_at_insert by done. by rewrite decide_False.
Defined.

(** A run that returns, split into its result and its final state. *)
Lemma run_outcome {A} (m : IO A) (fs : FileSystem) (x : A) :
  (m fs).1 = inr x -> m fs = (inr x, (m fs).2).
Proof. destruct (m fs) as [outcome fs']. simpl. by intros ->. Defined.

Lemma read_outcome {A} (m : IO A) (fs : FileSystem) (x : A) :
  (m fs).2 = fs -> (m fs).1 = inr x -> m fs = (inr x, fs).
Proof. destruct (m fs) as [outcome fs']. simpl. by intros -> ->. Defined.

Lemma project_is_created_once_witness :
  exists fs',
    create_project sample_dumps sample_config_dump "2024-01-01T00:00:00Z"
      shop_request ∅ = (inr (JString "shop"), fs')
    /\ get_project sample_loads "shop" fs' = (inr (JString "shop"), fs')
    /\ (forall layer,
          is_dir fs' (child (_project_path "shop") (layer_name layer)) = true)
    /\ forall now' req',
         req_name req' = "shop" ->
         create_project sample_dumps sample_config_dump now' req' fs'
         = (inl (ValueError "Project 'shop' already exists"), fs').
Proof.
  apply (project_is_created_once sample_dumps sample_loads sample_config_dump
           "2024-01-01T00:00:00Z" shop_request ∅);
    [reflexivity | exact well_formed_empty | reflexivity | reflexivity].
Defined.

Lemma created_table_reads_back_witness :
  get_table_spec sample_loads "shop" "bronze" "orders" orders_fs
  = (inr {| spec_project := JString "shop"; spec_table_name := "orders";
            spec_table_layer := "bronze";
            spec_columns := JList [JString "id"];
            spec_notes := JDict [("id", JString "")] |}, orders_fs).
Proof.
  apply (created_table_reads_back sample_dumps sample_loads sample_column_dump
           "shop" orders_request shop_fs orders_fs);
    [reflexivity | reflexivity | reflexivity |].
  unfold orders_fs. apply run_outcome. vm_compute. reflexivity.
Defined.

Lemma create_table_without_config_writes_first_witness :
  exists fs',
    create_table sample_dumps sample_loads sample_column_dump "shop"
      orders_request bare_fs
    = (inl (FileNotFoundError "Project 'shop' not found"), fs')
    /\ is_dir fs' (_table_path "shop" "bronze" "orders") = true
    /\ (forall file,
          file ∈ ["schema.json"; "transformations.json"; "column_notes.json"] ->
          exists text,
            node_at fs' (child (_table_path "shop" "bronze" "orders") file)
            = Some (File text)).
Proof.
  apply (create_table_without_config_writes_first sample_dumps sample_loads
           sample_column_dump "shop" orders_request bare_fs);
    [reflexivity | exact well_formed_bare_fs
    | vm_compute; reflexivity | vm_compute; reflexivity
    | vm_compute; reflexivity].
Defined.

Lemma saved_transformations_read_back_witness :
  get_table_spec sample_loads "shop" "bronze" "orders"
    (save_transformations sample_dumps "shop" "bronze" "orders"
       (JList [JString "id"]) orders_fs).2
  = (inr {| spec_project := JString "shop"; spec_table_name := "orders";
            spec_table_layer := "bronze";
            spec_columns := JList [JString "id"];
            spec_notes := JDict [("id", JString "")] |},
     (save_transformations sample_dumps "shop" "bronze" "orders"
        (JList [JString "id"]) orders_fs).2).
Proof.
  apply (saved_transformations_read_back sample_dumps sample_loads
           "shop" "bronze" "orders" (JList [JString "id"])
           (JDict [("id", JString "")]) (JString "shop") orders_fs);
    [reflexivity | reflexivity | | |].
  - apply read_outcome; [apply load_json_reads_only|].
    vm_compute. reflexivity.
  - apply read_outcome; [apply get_project_reads_only|].
    vm_compute. reflexivity.
  - apply run_outcome. vm_compute. reflexivity.
Defined.

Lemma validation_results_read_back_witness :
  get_validation_results sample_loads "shop" "bronze" "orders" validated_fs
  = (inr (JString "passed"), validated_fs)
  /\ forall q,
       q <> child (_table_path "shop" "bronze" "orders")
                  "validation_results.json" ->
       node_at validated_fs q = node_at orders_fs q.
Proof.
  apply (validation_results_read_back sample_dumps sample_loads
           "shop" "bronze" "orders" (JString "passed") orders_fs validated_fs);
    [reflexivity | reflexivity |].
  unfold validated_fs. apply run_outcome. vm_compute. reflexivity.
Defined.

Lemma synthetic_data_first_format_wins_witness :
  get_synthetic_data sample_read "shop" "bronze" "orders"
    orders_json_parquet_fs
  = (inr {| synthetic_data := []; synthetic_format := "json";
            synthetic_row_count := 0 |}, orders_json_parquet_fs)
  /\ get_synthetic_data sample_read "shop" "bronze" "orders" orders_fs
     = (inl (FileNotFoundError "No synthetic data found for this table"),
        orders_fs).
Proof.
  split.
  - destruct (synthetic_data_first_format_wins sample_read
                "shop" "bronze" "orders" orders_json_parquet_fs eq_refl)
      as (Hsame & Hfirst & _).
    apply read_outcome; [exact Hsame|].
    assert (Forall (fun f =>
                      node_at orders_json_parquet_fs
                        (synthetic_file (_table_path "shop" "bronze" "orders") f)
                      = None) ["csv"]) as Hcsv
      by (repeat constructor; vm_compute; reflexivity).
    assert (node_at orders_json_parquet_fs
              (synthetic_file (_table_path "shop" "bronze" "orders") "json")
            = Some (File "json")) as Hjson
      by (vm_compute; reflexivity).
    rewrite (Hfirst ["csv"] ["ndjson"; "xlsx"; "parquet"] "json" (File "json")
               eq_refl Hcsv Hjson).
    reflexivity.
  - apply (synthetic_data_first_format_wins sample_read "shop" "bronze" "orders"
             orders_fs eq_refl).
    repeat constructor; vm_compute; reflexivity.
Defined.

Lemma saving_later_format_keeps_earlier_data_witness :
  get_synthetic_data sample_read "shop" "bronze" "orders"
    (save_synthetic_data sample_write "shop" "bronze" "orders" [] "json"
       orders_csv_fs).2
  = ((get_synthetic_data sample_read "shop" "bronze" "orders"
        orders_csv_fs).1,
     (save_synthetic_data sample_write "shop" "bronze" "orders" [] "json"
        orders_csv_fs).2).
Proof.
  apply (saving_later_format_keeps_earlier_data sample_write sample_read
           "shop" "bronze" "orders" [] "json" "csv" ["csv"]
           ["ndjson"; "xlsx"; "parquet"] orders_csv_fs).
  - reflexivity.
  - intros q Hq. by apply write_text_frame.
  - reflexivity.
  - by apply list_elem_of_In; left.
  - eexists. vm_compute. reflexivity.
Defined.

(** After a csv and then a json save, the csv file is the one read. *)
Example json_saved_after_csv_is_not_read :
  (get_synthetic_data sample_read "shop" "bronze" "orders"
     (save_synthetic_data sample_write "shop" "bronze" "orders" [] "json"
        orders_csv_fs).2).1
  = inr {| synthetic_data := []; synthetic_format := "csv";
           synthetic_row_count := 0 |}.
Proof. vm_compute. reflexivity. Qed.

End ProjectManagerFacts.

(* ===================================================================== *)
(** ** Properties of the check of generated rows *)
(* ===================================================================== *)

Module LlmApiFacts.
Import LlmApi.

Global Instance string_le_total : Total string_le.
Proof. intros a b. apply String.leb_total. Qed.

Lemma missing_columns_elem {A} (column_names : list string)
    (row : gmap string A) (n : string) :
  n ∈ missing_columns column_names row <-> n ∈ column_names /\ row !! n = None.
Proof.
  unfold missing_columns. rewrite merge_sort_Permutation.
  rewrite list_elem_of_filter, elem_of_remove_dups. tauto.
Qed.

Lemma missing_columns_nil {A} (column_names : list string)
    (row : gmap string A) :
  missing_columns column_names row = []
  <-> forall n, n ∈ column_names -> is_Some (row !! n).
Proof.
  split.
  - intros Hnil n Hn. destruct (row !! n) as [v|] eqn:Hrow; [by eexists|].
    assert (n ∈ missing_columns column_names row) as Hin
      by (by apply missing_columns_elem).
    rewrite Hnil in Hin. by apply elem_of_nil in Hin.
  - intros Hall. destruct (missing_columns column_names row) as [|n rest] eqn:Hm;
      [done|].
    assert (n ∈ missing_columns column_names row) as Hin
      by (rewrite Hm; by left).
    apply missing_columns_elem in Hin as [Hn Hnone].
    destruct (Hall n Hn) as [v Hv]. congruence.
Qed.

Lemma row_warnings_from_spec {A} (column_names : list string)
    (rows : list (gmap string A)) : forall i : nat,
  (row_warnings_from column_names i rows = []
   <-> forall row, row ∈ rows ->
                   forall n, n ∈ column_names -> is_Some (row !! n))
  /\ (forall j row,
        rows !! j = Some row ->
        missing_columns column_names row <> [] ->
        missing_warning (i + j) (missing_columns column_names row)
          ∈ row_warnings_from column_names i rows)
  /\ length (row_warnings_from column_names i rows) <= length rows.
Proof.
  induction rows as [|row later IH]; intros i.
  - split; [|split]; [|done|done]. split; [|done].
    intros _ row Hrow. by apply elem_of_nil in Hrow.
  - destruct (IH (S i)) as (IHnil & IHin & IHlen).
    cbn [row_warnings_from].
    destruct (missing_columns column_names row) as [|m rest] eqn:Hmissing.
    + pose proof (proj1 (missing_columns_nil _ _) Hmissing) as Hrow.
      split; [|split].
      * rewrite IHnil. split.
        -- intros Hlater r [->|Hr]%elem_of_cons; [done|by apply Hlater].
        -- intros Hall r Hr. apply Hall. by right.
      * intros [|j] r Hj Hr.
        -- simplify_eq/=.
        -- replace (i + S j) with (S i + j) by lia. by apply IHin.
      * simpl. lia.
    + split; [|split].
      * split; [done|]. intros Hall.
        assert (missing_columns column_names row = []) as Hnil
          by (apply missing_columns_nil, Hall; by left).
        congruence.
      * intros [|j] r Hj Hr.
        -- simplify_eq/=. rewrite Nat.add_0_r, Hmissing. by left.
        -- right. replace (i + S j) with (S i + j) by lia. by apply IHin.
      * simpl. lia.
Qed.

Lemma missing_columns_nonempty {A} (column_names : list string)
    (row : gmap string A) :
  missing_columns column_names row <> []
  <-> exists n, n ∈ column_names /\ row !! n = None.
Proof.
  split.
  - destruct (missing_columns column_names row) as [|n rest] eqn:Hm; [done|].
    intros _. exists n. apply missing_columns_elem. rewrite Hm. by left.
  - intros (n & Hn & Hnone) Hnil.
    assert (n ∈ missing_columns column_names row) as Hin
      by (by apply missing_columns_elem).
    rewrite Hnil in Hin. by apply elem_of_nil in Hin.
Qed.

Lemma row_warnings_from_elem {A} (column_names : list string)
    (rows : list (gmap string A)) (w : string) : forall i : nat,
  w ∈ row_warnings_from column_names i rows
  <-> exists j row,
        rows !! j = Some row
        /\ missing_columns column_names row <> []
        /\ w = missing_warning (i + j) (missing_columns column_names row).
Proof.
  induction rows as [|row later IH]; intros i.
  - split; [by intros ?%elem_of_nil|]. by intros (j & row & ? & _).
  - assert (w ∈ row_warnings_from column_names (S i) later
            <-> exists j row',
                  (row :: later) !! S j = Some row'
                  /\ missing_columns column_names row' <> []
                  /\ w = missing_warning (i + S j)
                           (missing_columns column_names row')) as Hlater.
    { rewrite IH. split; intros (j & r & Hj & Hr & ->); exists j, r;
        (split; [done|]); (split; [done|]); f_equal; lia. }
    cbn [row_warnings_from].
    destruct (missing_columns column_names row) as [|m rest] eqn:Hmissing.
    + rewrite Hlater. split.
      * intros (j & r & ?). by exists (S j), r.
      * intros ([|j] & r & Hj & Hr & Hw); [|by exists j, r].
        simplify_eq/=; congruence.
    + rewrite elem_of_cons, Hlater. split.
      * intros [->|(j & r & ?)]; [|by exists (S j), r].
        exists 0, row. rewrite Nat.add_0_r, Hmissing. by repeat split.
      * intros ([|j] & r & Hj & Hr & Hw); [|right; by exists j, r].
        left. simplify_eq/=; by rewrite Nat.add_0_r, Hmissing.
Qed.

(** The loop, as a filter over the numbered rows. *)
Lemma row_warnings_from_filter {A} (column_names : list string)
    (rows : list (gmap string A)) : forall i : nat,
  row_warnings_from column_names i rows
  = (fun ir : nat * gmap string A =>
       missing_warning ir.1 (missing_columns column_names ir.2))
    <$> filter (fun ir : nat * gmap string A =>
                  missing_columns column_names ir.2 <> [])
          (imap (fun j row => (i + j, row)) rows).
Proof.
  induction rows as [|row later IH]; intros i; [done|].
  rewrite imap_cons. cbn [row_warnings_from].
  rewrite (imap_ext _ (fun j row => (S i + j, row)) later)
    by (intros j r _; simpl; f_equal; lia).
  rewrite IH, Nat.add_0_r.
  destruct (missing_columns column_names row) as [|m rest] eqn:Hmissing.
  - rewrite filter_cons_False; [done|]. simpl. rewrite Hmissing.
    intros Hne. by destruct Hne.
  - rewrite filter_cons_True by (simpl; by rewrite Hmissing).
    cbn [fmap list_fmap]. simpl. by rewrite Hmissing.
Qed.

(** X28.  The warnings of [generate_data] name what the rows lack.  They
    are, in row order, one warning for every row that lacks a column of
    the schema as a key, and no other; the warning carries the position of
    the row and the missing columns, each once and in ascending order.
    There are no warnings exactly when every row has every column. *)
Theorem row_warnings_name_missing_columns {A} (column_names : list string)
    (rows : list (gmap string A)) :
  row_warnings column_names rows
  = (fun ir : nat * gmap string A =>
       missing_warning ir.1 (missing_columns column_names ir.2))
    <$> filter (fun ir : nat * gmap string A =>
                  missing_columns column_names ir.2 <> [])
          (imap pair rows)
  /\ (forall (row : gmap string A) n,
        n ∈ missing_columns column_names row
        <-> n ∈ column_names /\ row !! n = None)
  /\ (forall row : gmap string A,
        NoDup (missing_columns column_names row)
        /\ Sorted string_le (missing_columns column_names row))
  /\ (forall w,
        w ∈ row_warnings column_names rows
        <-> exists i row,
              rows !! i = Some row
              /\ (exists n, n ∈ column_names /\ row !! n = None)
              /\ w = missing_warning i (missing_columns column_names row))
  /\ (row_warnings column_names rows = []
      <-> forall row, row ∈ rows ->
                      forall n, n ∈ column_names -> is_Some (row !! n))
  /\ length (row_warnings column_names rows) <= length rows.
Proof.
  destruct (row_warnings_from_spec column_names rows 0) as (Hnil & _ & Hlen).
  split; [|split; [|split; [|split; [|done]]]].
  - unfold row_warnings. by rewrite row_warnings_from_filter.
  - intros row n. apply missing_columns_elem.
  - intros row. split.
    + unfold missing_columns. rewrite merge_sort_Permutation.
      apply NoDup_filter, NoDup_remove_dups.
    + apply Sorted_merge_sort. apply _.
  - intros w. unfold row_warnings. rewrite row_warnings_from_elem.
    split; intros (i & row & Hrow & Hmiss & ->); exists i, row;
      (split; [done|]); (split; [by apply missing_columns_nonempty|done]).
Qed.

Example row_warnings_sample :
  row_warnings ["name"; "id"; "email"]
    [ {["id" := 1%Z; "name" := 2%Z; "email" := 3%Z]};
      {["id" := 4%Z]} ]
  = ["Row 1 missing columns: email, name"].
Proof. vm_compute. reflexivity. Qed.

End LlmApiFacts.
